(** * Data-transformation microservice: shallow embedding and verified properties

    The development follows the Python sources, one module per file:
    - [app/etl/transformers/data_lake_transformer.py]        (module [DataLake])
    - [app/etl/transformers/lucas_technology_service_transformer.py]
                                                  (module [UniversalDataTransformer])
    - [app/etl/transformers/data_quality_transformer.py]     (module [DataQuality])
    - [app/etl/transformers/bussiness_rules_transformer.py]  (module [BusinessRules])
    - [app/etl/transformers/private_transform.py],
      [app/etl/transformers/medical_transformer.py]          (module [Anonymization])
    - [app/etl/transformers/medical_transformer.py]  (module [MedicalDataTransformer])
    - [app/etl/extractors/lucas_technology_service_extractor.py]
                                                    (module [UniversalDataExtractor])
    - [utils/sche,a_enforce_transformer.py]                  (module [SchemaEnforcer])
    - [app/services/data_service.py]                 (module [CandidateDataService])
    - [utils/json_flattener.py]                              (module [Flattener])

    Python values are embedded as the inductive [pyval]; a [dict] is an
    association list in insertion order (Python dicts are ordered and have
    unique keys), a pandas [DataFrame] is a list of named columns together
    with the length of its index. Exceptions are values of [result]. What the
    interpreter, the standard library and pandas compute on their own (digests,
    [str()] of floats, date and number parsing, dtype inference) is taken
    through the classes [PyRuntime] and [Pandas]; the shape of frames, the
    control flow and the error handling of the sources are written out.
    Strings are modelled on their ASCII fragment, floats are binary64, and a
    write to storage is recorded, not refused: what a failing write leaves
    behind is outside the model, and the statements about saving say what
    happens before the first write and once the call has returned. Logging
    is left out where the class sets a logger; [UniversalDataTransformer] sets
    none, and the [AttributeError] this raises is part of its model. Where
    releases of pandas differ (the records of a frame without columns) the
    behaviour is a field of [Pandas]. *)

From Stdlib Require Import List String Ascii ZArith Bool Arith Lia.
From Stdlib Require Import Permutation Sorted DecimalString.
From Stdlib Require Import Floats Uint63.
From Stdlib Require OrderedTypeEx.
Import ListNotations.

Set Warnings "-inexact-float,-register-all".

Open Scope string_scope.
Open Scope list_scope.

(* ================================================================== *)
(** * Part I — the embedding                                           *)
(* ================================================================== *)

(** ** Python values *)

Inductive pyval : Type :=
| PNone
| PBool (b : bool)
| PInt (z : Z)
| PFloat (f : float)
| PStr (s : string)
| PTimestamp (ns : Z)          (* pandas.Timestamp *)
| PNaT                         (* pandas.NaT *)
| PList (xs : list pyval)
| PDict (items : list (string * pyval)).

(** A Python [dict] with string keys, in insertion order. *)
Definition pydict := list (string * pyval).

(** Induction through the lists and dictionaries nested in a value. *)
Section PyvalInduction.
Variable P : pyval -> Prop.
Hypothesis HNone : P PNone.
Hypothesis HBool : forall b, P (PBool b).
Hypothesis HInt : forall z, P (PInt z).
Hypothesis HFloat : forall f, P (PFloat f).
Hypothesis HStr : forall s, P (PStr s).
Hypothesis HTimestamp : forall ns, P (PTimestamp ns).
Hypothesis HNaT : P PNaT.
Hypothesis HList : forall xs, Forall P xs -> P (PList xs).
Hypothesis HDict :
  forall d : list (string * pyval), Forall (fun kv => P (snd kv)) d -> P (PDict d).

Fixpoint pyval_nested_ind (v : pyval) : P v :=
  match v with
  | PNone => HNone
  | PBool b => HBool b
  | PInt z => HInt z
  | PFloat f => HFloat f
  | PStr s => HStr s
  | PTimestamp ns => HTimestamp ns
  | PNaT => HNaT
  | PList xs =>
      HList xs
        ((fix all (l : list pyval) : Forall P l :=
            match l with
            | [] => Forall_nil P
            | x :: l' => Forall_cons x (pyval_nested_ind x) (all l')
            end) xs)
  | PDict d =>
      HDict d
        ((fix all (l : list (string * pyval)) : Forall (fun kv => P (snd kv)) l :=
            match l with
            | [] => Forall_nil _
            | kv :: l' =>
                Forall_cons (P := fun kv => P (snd kv)) kv
                  (pyval_nested_ind (snd kv)) (all l')
            end) d)
  end.
End PyvalInduction.

Definition keys (d : pydict) : list string := map fst d.

Definition isinstance_dict (v : pyval) : bool :=
  match v with PDict _ => true | _ => false end.

Definition isinstance_list (v : pyval) : bool :=
  match v with PList _ => true | _ => false end.

Definition isinstance_str (v : pyval) : bool :=
  match v with PStr _ => true | _ => false end.

(** [d.get(k)] as an option. *)
Fixpoint dict_get (d : pydict) (k : string) : option pyval :=
  match d with
  | [] => None
  | (k', v) :: d' => if String.eqb k' k then Some v else dict_get d' k
  end.

(** [k in d]. *)
Definition dict_mem (d : pydict) (k : string) : bool :=
  match dict_get d k with Some _ => true | None => false end.

(** [d[k] = v]: an existing key keeps its position, a new key goes last. *)
Fixpoint dict_set (d : pydict) (k : string) (v : pyval) : pydict :=
  match d with
  | [] => [(k, v)]
  | (k', v') :: d' =>
      if String.eqb k' k then (k', v) :: d' else (k', v') :: dict_set d' k v
  end.

(** [dict(items)]. *)
Definition dict_of_items (items : list (string * pyval)) : pydict :=
  fold_left (fun d kv => dict_set d (fst kv) (snd kv)) items [].

(** [str(i)] for a non-negative index. *)
Definition str_of_nat (n : nat) : string :=
  NilEmpty.string_of_uint (Nat.to_uint n).

(** [str(z)] for an integer. *)
Definition str_of_Z (z : Z) : string := NilZero.string_of_int (Z.to_int z).

(** ** Exceptions and results *)

Inductive pyexn : Type :=
| ValueError (msg : string)
| TypeError (msg : string)
| AttributeError (msg : string)
| KeyError (key : string)
| IndexError (msg : string)
| OtherError (cls msg : string).     (* transport, driver and I/O errors *)

(** [str(e)] *)
Definition exn_message (e : pyexn) : string :=
  match e with
  | ValueError m | TypeError m | AttributeError m | IndexError m => m
  | KeyError k => "'" ++ k ++ "'"
  | OtherError _ m => m
  end.

Inductive result (A : Type) : Type :=
| Ok (a : A)
| Raise (e : pyexn).
Arguments Ok {A} a.
Arguments Raise {A} e.

Definition bind {A B : Type} (r : result A) (k : A -> result B) : result B :=
  match r with
  | Ok a => k a
  | Raise e => Raise e
  end.

Notation "'let*' x ':=' r 'in' k" := (bind r (fun x => k))
  (at level 10, x name, r at level 100, k at level 200).

(** Evaluate a list of computations left to right; the first exception wins. *)
Fixpoint sequence {A : Type} (rs : list (result A)) : result (list A) :=
  match rs with
  | [] => Ok []
  | r :: rs' => let* a := r in let* l := sequence rs' in Ok (a :: l)
  end.

Definition is_ok {A : Type} (r : result A) : bool :=
  match r with Ok _ => true | Raise _ => false end.

(** The error names of the specification; the code raises [ValueError] with
    these messages. *)
Definition MissingColumn (column : string) : pyexn :=
  ValueError ("Missing required column: " ++ column).
Definition UnsupportedFormat (format : string) : pyexn :=
  ValueError ("Unsupported format: " ++ format).
Definition UnsupportedCurrency (currency : string) : pyexn :=
  ValueError ("Unsupported currency: " ++ currency).
Definition EmptyBatch : pyexn :=
  ValueError "Cannot calculate metrics for empty DataFrame".

(** ** Strings (ASCII fragment of [str]) *)

Definition code (c : ascii) : N := N_of_ascii c.

Definition in_range (lo hi : N) (c : ascii) : bool :=
  (N.leb lo (code c) && N.leb (code c) hi)%bool.

Definition isdigit_char (c : ascii) : bool := in_range 48 57 c.
Definition isupper_char (c : ascii) : bool := in_range 65 90 c.
Definition islower_char (c : ascii) : bool := in_range 97 122 c.
Definition isalpha_char (c : ascii) : bool := (isupper_char c || islower_char c)%bool.
Definition isalnum_char (c : ascii) : bool := (isalpha_char c || isdigit_char c)%bool.
(** [str.isspace]: TAB..CR, FS..US and the space. *)
Definition isspace_char (c : ascii) : bool := (in_range 9 13 c || in_range 28 32 c)%bool.

Definition lower_char (c : ascii) : ascii :=
  if isupper_char c then ascii_of_N (code c + 32) else c.
Definition upper_char (c : ascii) : ascii :=
  if islower_char c then ascii_of_N (code c - 32) else c.

Fixpoint map_string (f : ascii -> ascii) (s : string) : string :=
  match s with
  | EmptyString => EmptyString
  | String c s' => String (f c) (map_string f s')
  end.

Fixpoint filter_string (f : ascii -> bool) (s : string) : string :=
  match s with
  | EmptyString => EmptyString
  | String c s' => if f c then String c (filter_string f s') else filter_string f s'
  end.

Definition rev_string (s : string) : string :=
  string_of_list_ascii (rev (list_ascii_of_string s)).

Fixpoint lstrip (s : string) : string :=
  match s with
  | EmptyString => EmptyString
  | String c s' => if isspace_char c then lstrip s' else s
  end.

Definition rstrip (s : string) : string := rev_string (lstrip (rev_string s)).

(** [s.strip()] *)
Definition strip (s : string) : string := rstrip (lstrip s).

(** [s.lower()], [s.upper()] *)
Definition lower (s : string) : string := map_string lower_char s.
Definition upper (s : string) : string := map_string upper_char s.

(** [s.title()]: a letter that follows a letter is lowered, any other letter
    is raised. *)
Fixpoint title_from (prev_cased : bool) (s : string) : string :=
  match s with
  | EmptyString => EmptyString
  | String c s' =>
      if isalpha_char c
      then String (if prev_cased then lower_char c else upper_char c) (title_from true s')
      else String c (title_from false s')
  end.
Definition title (s : string) : string := title_from false s.

(** [sub in s] *)
Fixpoint contains (sub s : string) : bool :=
  (String.prefix sub s ||
   match s with
   | EmptyString => false
   | String _ s' => contains sub s'
   end)%bool.

Fixpoint drop (n : nat) (s : string) : string :=
  match n, s with
  | O, _ => s
  | S n', String _ s' => drop n' s'
  | S _, EmptyString => EmptyString
  end.

(** [s.replace(old, new)] for a non-empty [old]: non-overlapping occurrences,
    left to right. *)
Fixpoint replace_from (fuel : nat) (old new s : string) : string :=
  match fuel with
  | O => s
  | S fuel' =>
      match s with
      | EmptyString => EmptyString
      | String c s' =>
          if String.prefix old s
          then new ++ replace_from fuel' old new (drop (String.length old) s)
          else String c (replace_from fuel' old new s')
      end
  end.
Definition replace (old new s : string) : string :=
  replace_from (String.length s) old new s.

(** ** Truthiness and [str()] *)

(** [bool(v)], as used by [if not v]. *)
Definition truthy (v : pyval) : bool :=
  match v with
  | PNone => false
  | PBool b => b
  | PInt z => negb (Z.eqb z 0)
  | PFloat f => negb (PrimFloat.eqb f 0)
  | PStr s => negb (String.eqb s "")
  | PTimestamp _ => true
  | PNaT => true
  | PList xs => match xs with [] => false | _ => true end
  | PDict d => match d with [] => false | _ => true end
  end.

(** [type(v).__name__] *)
Definition type_name (v : pyval) : string :=
  match v with
  | PNone => "NoneType"
  | PBool _ => "bool"
  | PInt _ => "int"
  | PFloat _ => "float"
  | PStr _ => "str"
  | PTimestamp _ => "Timestamp"
  | PNaT => "NaTType"
  | PList _ => "list"
  | PDict _ => "dict"
  end.

(** What the interpreter and the standard library supply: [str()] of the
    values whose text form is not spelled out here, the JSON leaf encoders,
    the digests and the ISO-8601 parser. *)
Class PyRuntime : Type := {
  repr_other : pyval -> string;
  json_float : float -> string;
  json_string : string -> string;
  md5_hexdigest : string -> string;
  sha256_hexdigest : string -> string;
  (* [datetime.fromisoformat(s).isoformat()], [None] for [ValueError] *)
  fromisoformat_isoformat : string -> option string
}.

(** [str(v)] *)
Definition py_str `{PyRuntime} (v : pyval) : string :=
  match v with
  | PNone => "None"
  | PBool true => "True"
  | PBool false => "False"
  | PInt z => str_of_Z z
  | PStr s => s
  | _ => repr_other v
  end.

(** The clock readings an invocation makes. *)
Record World : Type := {
  utcnow_isoformat : string;        (* datetime.utcnow().isoformat() *)
  utcnow_strftime : string;         (* datetime.utcnow().strftime("%Y%m%d_%H%M%S") *)
  now_isoformat : nat -> string     (* datetime.now().isoformat(), per record *)
}.

(** ** [json.dumps(data, sort_keys=True)] *)

Fixpoint insert_by_key {A : Type} (x : string * A) (l : list (string * A))
  : list (string * A) :=
  match l with
  | [] => [x]
  | y :: l' =>
      if String.leb (fst x) (fst y) then x :: l else y :: insert_by_key x l'
  end.

(** [sorted(items)] on items with distinct string keys. *)
Definition sort_by_key {A : Type} (l : list (string * A)) : list (string * A) :=
  fold_right insert_by_key [] l.

(** The order [sorted] puts the items in. *)
Definition key_le {A : Type} (x y : string * A) : Prop :=
  String.leb (fst x) (fst y) = true.

(** The encoder walks a dictionary in key order; every value is encoded by
    the recursive call and the first value that cannot be encoded, in that
    order, raises. *)
Fixpoint json_dumps `{PyRuntime} (v : pyval) : result string :=
  match v with
  | PNone => Ok "null"
  | PBool true => Ok "true"
  | PBool false => Ok "false"
  | PInt z => Ok (str_of_Z z)
  | PFloat f => Ok (json_float f)
  | PStr s => Ok (json_string s)
  | PTimestamp _ => Raise (TypeError "Object of type Timestamp is not JSON serializable")
  | PNaT => Raise (TypeError "Object of type NaTType is not JSON serializable")
  | PList xs =>
      let* parts := sequence (map json_dumps xs) in
      Ok ("[" ++ String.concat ", " parts ++ "]")%string
  | PDict d =>
      let encoded := map (fun kv => (fst kv, json_dumps (snd kv))) d in
      let* parts :=
        sequence
          (map (fun kv => let* s := snd kv in Ok (json_string (fst kv) ++ ": " ++ s)%string)
               (sort_by_key encoded)) in
      Ok ("{" ++ String.concat ", " parts ++ "}")%string
  end.

(** Two payloads with the same content: equal scalars, lists equal element by
    element, dictionaries holding the same content under the same keys,
    whatever the order the keys were inserted in. *)
Inductive same_payload : pyval -> pyval -> Prop :=
| same_scalar (v : pyval) :
    isinstance_dict v = false -> isinstance_list v = false -> same_payload v v
| same_list (xs ys : list pyval) :
    Forall2 same_payload xs ys -> same_payload (PList xs) (PList ys)
| same_dict (d d' e : list (string * pyval)) :
    Forall2 (fun a b => fst a = fst b /\ same_payload (snd a) (snd b)) d d' ->
    Permutation d' e ->
    same_payload (PDict d) (PDict e).

(** Every dictionary inside the value has distinct keys, as Python dicts do. *)
Inductive unique_keys : pyval -> Prop :=
| unique_scalar (v : pyval) :
    isinstance_dict v = false -> isinstance_list v = false -> unique_keys v
| unique_list (xs : list pyval) :
    Forall unique_keys xs -> unique_keys (PList xs)
| unique_dict (d : list (string * pyval)) :
    NoDup (map fst d) -> Forall (fun kv => unique_keys (snd kv)) d ->
    unique_keys (PDict d).

(** ** pandas frames *)

(** A frame keeps its columns in order, each with its cells, and the length of
    its index. *)
Record DataFrame : Type := mkDataFrame {
  df_columns : list (string * list pyval);
  df_len : nat
}.

Definition NaN : pyval := PFloat nan.

(** [pd.isnull(x)] on a scalar cell. *)
Definition isnull (v : pyval) : bool :=
  match v with
  | PNone => true
  | PNaT => true
  | PFloat f => PrimFloat.is_nan f
  | _ => false
  end.

Definition add_key (seen : list string) (k : string) : list string :=
  if existsb (String.eqb k) seen then seen else seen ++ [k].

(** Column labels of [pd.DataFrame(rows)]: the keys in order of first
    appearance. *)
Definition union_keys (rows : list pydict) : list string :=
  fold_left (fun seen r => fold_left add_key (keys r) seen) rows [].

(** [pd.DataFrame(rows)] for a list of mappings: one index entry per row, a
    missing key reads as NaN. The cells keep the Python values of the rows;
    the dtype pandas infers for a column (float64 for integers next to a
    missing value, say) is not modelled. *)
Definition pd_DataFrame (rows : list pydict) : DataFrame :=
  mkDataFrame
    (map (fun c =>
            (c, map (fun r => match dict_get r c with Some v => v | None => NaN end) rows))
         (union_keys rows))
    (List.length rows).

(** [df.empty]: some axis has length 0. *)
Definition df_empty (df : DataFrame) : bool :=
  (Nat.eqb (df_len df) 0 || match df_columns df with [] => true | _ => false end)%bool.

(** [df.columns] *)
Definition df_names (df : DataFrame) : list string := map fst (df_columns df).

(** [col in df.columns] *)
Definition df_has (df : DataFrame) (col : string) : bool :=
  existsb (String.eqb col) (df_names df).

(** [df[col]] *)
Fixpoint column_get (cols : list (string * list pyval)) (col : string)
  : option (list pyval) :=
  match cols with
  | [] => None
  | (c, cells) :: cols' => if String.eqb c col then Some cells else column_get cols' col
  end.
Definition df_get (df : DataFrame) (col : string) : option (list pyval) :=
  column_get (df_columns df) col.

Fixpoint column_set (cols : list (string * list pyval)) (col : string) (cells : list pyval)
  : list (string * list pyval) :=
  match cols with
  | [] => [(col, cells)]
  | (c, old) :: cols' =>
      if String.eqb c col then (c, cells) :: cols' else (c, old) :: column_set cols' col cells
  end.

(** [df[col] = cells] *)
Definition df_set (df : DataFrame) (col : string) (cells : list pyval) : DataFrame :=
  mkDataFrame (column_set (df_columns df) col cells) (df_len df).

(** The pandas routines the transformers call on whole columns. *)
Class Pandas : Type := {
  (* [df[col].dtype == 'object'] *)
  dtype_is_object : list pyval -> bool;
  (* [pd.to_datetime(col)], [pd.to_numeric(col)] *)
  to_datetime : list pyval -> result (list pyval);
  to_numeric : list pyval -> result (list pyval);
  (* [pd.to_datetime(col, errors="coerce")] *)
  to_datetime_coerce : list pyval -> result (list pyval);
  (* [col.astype(dtype, errors="ignore")] *)
  astype : string -> list pyval -> result (list pyval);
  (* [col.nunique()] on cells that can be hashed *)
  nunique : list pyval -> nat;
  (* [pd.DataFrame(xs)] for a list whose elements are not all mappings *)
  DataFrame_of_sequence : list pyval -> result DataFrame;
  (* truth value of [pd.notnull(xs)] for a list-valued cell *)
  notnull_of_list : list pyval -> result bool;
  (* [df.to_dict('records')] on a frame without columns: whether the release
     builds one empty record per index entry (3.x) or no record (2.x) *)
  columnless_rows_kept : bool
}.

(** [df.to_dict(orient='records')]: one record per index entry, holding the
    cell of every column. On a frame without columns the releases of pandas
    differ: the older ones zip the column arrays together and so build no
    record, whatever the length of the index ([pd.DataFrame([{}])] has one
    index entry and no column); the newer ones build one empty record per
    index entry. *)
Definition to_dict_records `{Pandas} (df : DataFrame) : list pydict :=
  match df_columns df with
  | [] => if columnless_rows_kept then repeat [] (df_len df) else []
  | cols =>
      map (fun i => map (fun col => (fst col, nth i (snd col) NaN)) cols)
          (seq 0 (df_len df))
  end.

(** What a save call leaves on storage: the files written, oldest first. *)
Inductive file_content : Type :=
| ParquetFile (df : DataFrame)               (* df.to_parquet(path) *)
| JsonLinesFile (df : DataFrame)             (* df.to_json(path, orient='records', lines=True) *)
| CsvFile (df : DataFrame)                   (* df.to_csv(path, index=False) *)
| MetadataFile (md : pydict).                (* json.dump(metadata, f) *)

Definition storage := list (string * file_content).

Definition write_file (fs : storage) (path : string) (c : file_content) : storage :=
  fs ++ [(path, c)].

(** The formats the savers know. *)
Definition supported (format : string) : bool :=
  (String.eqb format "parquet" || String.eqb format "json" || String.eqb format "csv")%bool.

(** Characters that are not alphanumeric become ["_"]. *)
Definition clean_name (s : string) : string :=
  map_string (fun c => if isalnum_char c then c else "_"%char) s.

(** The binary64 number nearest to an integer (ties to even); an infinity
    when the integer is beyond the range of binary64. *)
Definition float_of_Z (z : Z) : float :=
  SF2Prim (SpecFloat.binary_normalize FloatOps.prec FloatOps.emax z 0 false).

Definition float_of_nat (n : nat) : float := float_of_Z (Z.of_nat n).

Definition OverflowError (msg : string) : pyexn := OtherError "OverflowError" msg.

(** The conversion of an [int] operand next to a [float]: it raises where
    the nearest binary64 number would be an infinity. *)
Definition int_to_float (z : Z) : result float :=
  if PrimFloat.is_infinity (float_of_Z z)
  then Raise (OverflowError "int too large to convert to float")
  else Ok (float_of_Z z).

(** ** [app/etl/transformers/data_lake_transformer.py] *)

Module DataLake.

(** [UniversalDataExtractor]: the three sources, each returning the raw
    payload or raising. Request options and connections stay inside the
    instance. *)
Class Extractor : Type := {
  from_api : string -> string -> result pyval;      (* base_url, endpoint *)
  from_database : string -> result pyval;           (* query *)
  from_file : string -> string -> result pyval      (* file_path, file_type *)
}.

(** The dictionary with keys ['data'], ['metadata'] and ['raw_data']. *)
Record TransformedBatch : Type := mkBatch {
  data : list pydict;
  metadata : pydict;
  raw_data : pyval
}.

(** ["record_count": len(data) if isinstance(data, list) else 1] *)
Definition record_count_of (data : pyval) : Z :=
  match data with
  | PList xs => Z.of_nat (List.length xs)
  | _ => 1%Z
  end.

(** [hashlib.md5(json.dumps(data, sort_keys=True).encode()).hexdigest()] *)
Definition data_hash_of `{PyRuntime} (data : pyval) : result string :=
  let* text := json_dumps data in Ok (md5_hexdigest text).

Definition _generate_metadata `{PyRuntime} (w : World) (data : pyval) (source : string)
  : result pydict :=
  let timestamp := (utcnow_isoformat w ++ "Z")%string in
  let* data_hash := data_hash_of data in
  Ok [ ("load_timestamp", PStr timestamp);
       ("source_system", PStr source);
       ("data_hash", PStr data_hash);
       ("record_count", PInt (record_count_of data));
       ("schema_version", PStr "1.0") ].

Fixpoint all_mappings (xs : list pyval) : option (list pydict) :=
  match xs with
  | [] => Some []
  | PDict d :: xs' =>
      match all_mappings xs' with
      | Some rows => Some (d :: rows)
      | None => None
      end
  | _ :: _ => None
  end.

(** [_convert_to_dataframe]. A payload is a JSON value, never a frame, so the
    first branch of the source does not arise. A list of mappings is built
    here; what pandas makes of any other list is left to [DataFrame_of_sequence]. *)
Definition _convert_to_dataframe `{Pandas} (data : pyval) : result DataFrame :=
  match data with
  | PList xs =>
      match all_mappings xs with
      | Some rows => Ok (pd_DataFrame rows)
      | None => DataFrame_of_sequence xs
      end
  | PDict d => Ok (pd_DataFrame [d])
  | _ => Raise (ValueError ("Unsupported data type: <class '" ++ type_name data ++ "'>"))
  end.

(** [try: col = f(col) except (ValueError, TypeError): pass] *)
Definition try_coerce (f : list pyval -> result (list pyval)) (cells : list pyval)
  : result (list pyval) :=
  match f cells with
  | Ok cells' => Ok cells'
  | Raise (ValueError _) => Ok cells
  | Raise (TypeError _) => Ok cells
  | Raise e => Raise e
  end.

(** One iteration of the loop of [_standardize_data_types]. *)
Definition standardize_column `{Pandas} (cells : list pyval) : result (list pyval) :=
  let* c1 := if dtype_is_object cells then try_coerce to_datetime cells else Ok cells in
  if dtype_is_object c1 then try_coerce to_numeric c1 else Ok c1.

Definition _standardize_data_types `{Pandas} (df : DataFrame) : result DataFrame :=
  let* cols :=
    sequence (map (fun col => let* cells := standardize_column (snd col) in
                              Ok (fst col, cells))
                  (df_columns df)) in
  Ok (mkDataFrame cols (df_len df)).

(** The common tail of the three entry points. *)
Definition transform_raw `{PyRuntime} `{Pandas} (w : World) (raw : pyval) (source_name : string)
  : result TransformedBatch :=
  let* df := _convert_to_dataframe raw in
  let* df := _standardize_data_types df in
  let* md := _generate_metadata w raw source_name in
  Ok (mkBatch (to_dict_records df) md raw).

Definition transform_api_data `{PyRuntime} `{Pandas} `{Extractor}
  (w : World) (base_url endpoint : string) : result TransformedBatch :=
  let* raw := from_api base_url endpoint in
  transform_raw w raw ("API:" ++ base_url ++ endpoint).

Definition transform_database_data `{PyRuntime} `{Pandas} `{Extractor}
  (w : World) (query source_name : string) : result TransformedBatch :=
  let* raw := from_database query in
  transform_raw w raw source_name.

Definition transform_file_data `{PyRuntime} `{Pandas} `{Extractor}
  (w : World) (file_path file_type : string) (source_name : option string)
  : result TransformedBatch :=
  let* raw := from_file file_path file_type in
  transform_raw w raw
    (match source_name with
     | Some n => n
     | None => "FILE:" ++ file_path
     end).

(** [c if c.isalnum() else "_"] for one item of the iteration; an item of
    a list is a whole text, alphanumeric when it is not empty and all its
    characters are. *)
Definition clean_item (c : pyval) : result string :=
  match c with
  | PStr t =>
      Ok (if (negb (String.eqb t "") && forallb isalnum_char (list_ascii_of_string t))%bool
          then t else "_")
  | v => Raise (AttributeError ("'" ++ type_name v ++ "' object has no attribute 'isalnum'"))
  end.

(** ["".join(c if c.isalnum() else "_" for c in
    transformed_data['metadata']['source_system'])]: the name is whatever can
    be iterated, a text by its characters, a list by its items, a mapping by
    its keys. *)
Definition source_name_clean (md : pydict) : result string :=
  match dict_get md "source_system" with
  | Some (PStr s) => Ok (clean_name s)
  | Some (PList xs) =>
      let* parts := sequence (map clean_item xs) in Ok (String.concat "" parts)
  | Some (PDict d) =>
      let* parts := sequence (map (fun k => clean_item (PStr k)) (keys d)) in
      Ok (String.concat "" parts)
  | Some v => Raise (TypeError ("'" ++ type_name v ++ "' object is not iterable"))
  | None => Raise (KeyError "source_system")
  end.

(** [save_to_raw_zone]: the result and the storage afterwards. *)
Definition save_to_raw_zone (w : World) (fs : storage)
  (transformed_data : TransformedBatch) (storage_path format : string)
  : result string * storage :=
  let df := pd_DataFrame (data transformed_data) in
  match source_name_clean (metadata transformed_data) with
  | Raise e => (Raise e, fs)
  | Ok name =>
      let dir := (storage_path ++ "/" ++ name ++ "/" ++ utcnow_strftime w)%string in
      let output_path := (dir ++ "/data." ++ format)%string in
      let written :=
        if String.eqb format "parquet" then Some (ParquetFile df)
        else if String.eqb format "json" then Some (JsonLinesFile df)
        else if String.eqb format "csv" then Some (CsvFile df)
        else None in
      match written with
      | None => (Raise (UnsupportedFormat format), fs)
      | Some content =>
          let fs1 := write_file fs output_path content in
          let metadata_path := (dir ++ "/metadata.json")%string in
          let fs2 := write_file fs1 metadata_path (MetadataFile (metadata transformed_data)) in
          (Ok output_path, fs2)
      end
  end.

(** The number of logical rows of a payload: 1 for a single mapping, else
    the length of the list. *)
Definition logical_rows (raw : pyval) : nat :=
  match raw with
  | PList xs => List.length xs
  | _ => 1%nat
  end.

Definition is_nil {A : Type} (l : list A) : bool :=
  match l with [] => true | _ => false end.

(** The payload is a non-empty mapping, or a list of mappings that is empty
    or in which some mapping has a key. *)
Definition carries_a_field (raw : pyval) : bool :=
  match raw with
  | PDict d => negb (is_nil d)
  | PList xs =>
      match all_mappings xs with
      | Some rows => (is_nil rows || negb (is_nil (union_keys rows)))%bool
      | None => false
      end
  | _ => false
  end.

(** [b.metadata["record_count"]] *)
Definition record_count (b : TransformedBatch) : option pyval :=
  dict_get (metadata b) "record_count".

(** [b] is what one of the three entry points returned. *)
Definition returned_by_entry_point `{PyRuntime} `{Pandas} `{Extractor}
  (w : World) (b : TransformedBatch) : Prop :=
  (exists base_url endpoint, transform_api_data w base_url endpoint = Ok b) \/
  (exists query source_name, transform_database_data w query source_name = Ok b) \/
  (exists file_path file_type source_name,
     transform_file_data w file_path file_type source_name = Ok b).

End DataLake.

(** ** [app/etl/transformers/lucas_technology_service_transformer.py] *)

Module UniversalDataTransformer.

(** The batch this class saves also carries a ['source'] dictionary. *)
Record SourcedBatch : Type := mkSourced {
  data : list pydict;
  metadata : pydict;
  source : pydict
}.

(** The labels [df.drop] does not find among the columns, in the order
    given. *)
Definition missing_labels (df : DataFrame) (cols : list string) : list string :=
  filter (fun c => negb (df_has df c)) cols.

(** [KeyError(f"{labels[mask].tolist()} not found in axis")] *)
Definition not_found_in_axis `{PyRuntime} (labels : list string) : pyexn :=
  KeyError (py_str (PList (map PStr labels)) ++ " not found in axis").

(** [df.drop(columns=cols)] *)
Definition df_drop `{PyRuntime} (df : DataFrame) (cols : list string) : result DataFrame :=
  match missing_labels df cols with
  | _ :: _ => Raise (not_found_in_axis (missing_labels df cols))
  | [] =>
      Ok (mkDataFrame
            (filter (fun col => negb (existsb (String.eqb (fst col)) cols)) (df_columns df))
            (df_len df))
  end.

(** [f"{col}={df[col].iloc[0]}" for col in partition_cols if col in df.columns] *)
Fixpoint partition_values `{PyRuntime} (df : DataFrame) (partition_cols : list string)
  : result (list string) :=
  match partition_cols with
  | [] => Ok []
  | col :: rest =>
      match df_get df col with
      | None => partition_values df rest
      | Some cells =>
          match cells with
          | [] => Raise (IndexError "single positional indexer is out-of-bounds")
          | first :: _ =>
              let* more := partition_values df rest in
              Ok ((col ++ "=" ++ py_str first)%string :: more)
          end
      end
  end.

Definition _save_partitioned `{PyRuntime} (fs : storage) (df : DataFrame)
  (storage_path source_name_clean format : string) (partition_cols : list string)
  (timestamp : string) : result string * storage :=
  match partition_values df partition_cols with
  | Raise e => (Raise e, fs)
  | Ok values =>
      let output_path :=
        (storage_path ++ "/" ++ source_name_clean ++ "/" ++ String.concat "/" values
           ++ "/data." ++ format)%string in
      match df_drop df partition_cols with
      | Raise e => (Raise e, fs)
      | Ok dropped => (Ok output_path, write_file fs output_path (ParquetFile dropped))
      end
  end.

Definition _save_non_partitioned (fs : storage) (df : DataFrame)
  (storage_path source_name_clean format : string) (timestamp : string)
  : result string * storage :=
  let output_path :=
    (storage_path ++ "/" ++ source_name_clean ++ "/" ++ timestamp ++ "/data." ++ format)%string in
  let handler :=
    if String.eqb format "parquet" then Some (ParquetFile df)
    else if String.eqb format "json" then Some (JsonLinesFile df)
    else if String.eqb format "csv" then Some (CsvFile df)
    else None in
  match handler with
  | None => (Raise (UnsupportedFormat format), fs)
  | Some content => (Ok output_path, write_file fs output_path content)
  end.

(** [source_info.get('source_name', source_info.get('endpoint', 'unknown'))] *)
Definition source_name_of (source_info : pydict) : pyval :=
  match dict_get source_info "source_name" with
  | Some v => v
  | None =>
      match dict_get source_info "endpoint" with
      | Some v => v
      | None => PStr "unknown"
      end
  end.

(** The class has no [__init__] and sets no [logger]: [self.logger] raises. *)
Definition no_logger : pyexn :=
  AttributeError "'UniversalDataTransformer' object has no attribute 'logger'".

(** [save_to_data_lake]; [partition_cols] is [None] for the default. An empty
    list is as falsy as [None]. Both ways out of the [try] go through
    [self.logger]: after the two files are written [self.logger.info] raises,
    and the [except] branch, which any exception of the body reaches, raises
    in turn at [self.logger.error], so that the caller sees this
    [AttributeError] whatever happened before. *)
Definition save_to_data_lake `{PyRuntime} (w : World) (fs : storage)
  (transformed_data : SourcedBatch) (storage_path format : string)
  (partition_cols : option (list string)) : result string * storage :=
  let df := pd_DataFrame (data transformed_data) in
  let timestamp := utcnow_strftime w in
  let name := clean_name (py_str (source_name_of (source transformed_data))) in
  let saved :=
    match partition_cols with
    | Some (c :: cs) => _save_partitioned fs df storage_path name format (c :: cs) timestamp
    | _ => _save_non_partitioned fs df storage_path name format timestamp
    end in
  match saved with
  | (Raise e, fs1) => (Raise no_logger, fs1)
  | (Ok output_path, fs1) =>
      let metadata_path := replace ("data." ++ format) "metadata.json" output_path in
      (Raise no_logger,
       write_file fs1 metadata_path (MetadataFile (metadata transformed_data)))
  end.

End UniversalDataTransformer.

(** ** [app/etl/transformers/data_quality_transformer.py] *)

Module DataQuality.

Definition count_null (cells : list pyval) : nat :=
  List.length (filter isnull cells).

(** [float(1 - df[col].isnull().mean())] *)
Definition completeness (cells : list pyval) : float :=
  (1 - float_of_nat (count_null cells) / float_of_nat (List.length cells))%float.

(** The first cell that cannot be hashed: a list or a mapping. *)
Definition first_unhashable (cells : list pyval) : option pyval :=
  find (fun x => (isinstance_list x || isinstance_dict x)%bool) cells.

(** [df[col].nunique()]: the distinct values are found by hashing the cells,
    and the first cell that cannot be hashed raises. *)
Definition series_nunique `{Pandas} (cells : list pyval) : result nat :=
  match first_unhashable cells with
  | Some x => Raise (TypeError ("unhashable type: '" ++ type_name x ++ "'"))
  | None => Ok (nunique cells)
  end.

(** [float(df[col].nunique() / max(1, len(df)))] *)
Definition uniqueness `{Pandas} (df : DataFrame) (cells : list pyval) : result float :=
  let* distinct := series_nunique cells in
  Ok (float_of_nat distinct / float_of_nat (Nat.max 1 (df_len df)))%float.

Definition empty_metrics : pydict :=
  [ ("completeness", PDict []); ("uniqueness", PDict []) ].

Definition _calculate_quality_metrics `{Pandas} (df : DataFrame) : result pydict :=
  if df_empty df then Raise EmptyBatch
  else if Nat.eqb (df_len df) 0 then Ok empty_metrics
  else
    let complete :=
      dict_of_items
        (map (fun col => (fst col, PFloat (completeness (snd col)))) (df_columns df)) in
    let* unique :=
      sequence (map (fun col => let* u := uniqueness df (snd col) in Ok (fst col, PFloat u))
                    (df_columns df)) in
    Ok [ ("completeness", PDict complete); ("uniqueness", PDict (dict_of_items unique)) ].

(** The part of [transform_database_data] after the base transform returned
    [batch]. *)
Definition add_quality_metrics `{Pandas} (batch : DataLake.TransformedBatch)
  : result DataLake.TransformedBatch :=
  let df := pd_DataFrame (DataLake.data batch) in
  let* metrics :=
    if negb (df_empty df) then _calculate_quality_metrics df else Ok empty_metrics in
  Ok (DataLake.mkBatch
        (DataLake.data batch)
        (dict_set (DataLake.metadata batch) "quality_metrics" (PDict metrics))
        (DataLake.raw_data batch)).

Definition transform_database_data `{PyRuntime} `{Pandas} `{DataLake.Extractor}
  (w : World) (query source_name : string) : result DataLake.TransformedBatch :=
  let* batch := DataLake.transform_database_data w query source_name in
  add_quality_metrics batch.

End DataQuality.

(** ** [app/etl/transformers/bussiness_rules_transformer.py] *)

Module BusinessRules.

(** [rules_config], e.g. [{"price": {"convert_currency": "USD"}}]. *)
Definition rules_config := list (string * pydict).

Definition rates : list (string * float) :=
  [ ("USD", 1.0%float); ("EUR", 0.85%float); ("GBP", 0.75%float); ("JPY", 110.0%float) ].

Fixpoint rate_lookup (table : list (string * float)) (currency : string) : option float :=
  match table with
  | [] => None
  | (c, r) :: table' => if String.eqb c currency then Some r else rate_lookup table' currency
  end.

Definition _get_exchange_rate `{PyRuntime} (currency : pyval) : result float :=
  match currency with
  | PStr c =>
      match rate_lookup rates c with
      | Some r => Ok r
      | None => Raise (UnsupportedCurrency c)
      end
  | PList _ | PDict _ => Raise (TypeError ("unhashable type: '" ++ type_name currency ++ "'"))
  | _ => Raise (UnsupportedCurrency (py_str currency))
  end.

(** One cell of [df["price"] * rate]; a missing value stays missing. *)
Definition mul_cell (rate : float) (v : pyval) : result pyval :=
  match v with
  | PInt z => let* f := int_to_float z in Ok (PFloat (f * rate))
  | PFloat f => Ok (PFloat (f * rate))
  | PBool b => Ok (PFloat ((if b then 1 else 0) * rate))
  | PNone => Ok NaN
  | _ => Raise (TypeError ("unsupported operand type(s) for *: '" ++ type_name v
                             ++ "' and 'float'"))
  end.

Fixpoint rules_get (rules : rules_config) (k : string) : option pydict :=
  match rules with
  | [] => None
  | (k', r) :: rules' => if String.eqb k' k then Some r else rules_get rules' k
  end.

(** [self.rules["price"]["convert_currency"]] when the guard of
    [_apply_business_rules] holds. *)
Definition conversion_target (rules : rules_config) : option pyval :=
  match rules_get rules "price" with
  | Some r => dict_get r "convert_currency"
  | None => None
  end.

(** The [try] block: a [ValueError] is logged and the frame is returned as it
    came in; any other exception propagates. *)
Definition _apply_business_rules `{PyRuntime} (rules : rules_config) (df : DataFrame)
  : result DataFrame :=
  match df_get df "price", conversion_target rules with
  | Some price, Some target_currency =>
      let attempt :=
        let* rate := _get_exchange_rate target_currency in
        let* cells := sequence (map (mul_cell rate) price) in
        Ok (df_set df "price_usd" cells) in
      match attempt with
      | Raise (ValueError _) => Ok df
      | r => r
      end
  | _, _ => Ok df
  end.

Definition transform_file_data `{PyRuntime} `{Pandas} `{DataLake.Extractor}
  (rules : rules_config) (w : World) (file_path file_type : string)
  (source_name : option string) : result DataLake.TransformedBatch :=
  let* batch := DataLake.transform_file_data w file_path file_type source_name in
  let* df := _apply_business_rules rules (pd_DataFrame (DataLake.data batch)) in
  Ok (DataLake.mkBatch (to_dict_records df) (DataLake.metadata batch)
                       (DataLake.raw_data batch)).

End BusinessRules.

(** ** [app/etl/transformers/private_transform.py] and
       [app/etl/transformers/medical_transformer.py] *)

Module Anonymization.









(** No cell of a configured column of the frame is a list. *)
Definition scalar_sensitive_cells (fields : list string) (df : DataFrame) : Prop :=
  forall col cells,
    In col fields -> df_get df col = Some cells ->
    Forall (fun x => isinstance_list x = false) cells.

End Anonymization.

(** ** [utils/sche,a_enforce_transformer.py] *)

Module SchemaEnforcer.

(** [self.schema]: column name to type name, in insertion order. *)
Definition schema := list (string * string).

(** The frame is updated in place, so a run is described by the frame as the
    loop left it, the columns it assigned (in order) and how it ended. *)
Record run : Type := mkRun {
  frame : DataFrame;
  coerced : list string;
  outcome : option pyexn           (* [None]: the loop ran to its end *)
}.

Definition coerce_column `{Pandas} (dtype : string) (cells : list pyval)
  : result (list pyval) :=
  if String.eqb dtype "datetime" then to_datetime_coerce cells else astype dtype cells.

Fixpoint enforce_loop `{Pandas} (sch : schema) (df : DataFrame) (done : list string) : run :=
  match sch with
  | [] => mkRun df done None
  | (column, dtype) :: rest =>
      match df_get df column with
      | None => mkRun df done (Some (MissingColumn column))
      | Some cells =>
          match coerce_column dtype cells with
          | Raise e => mkRun df done (Some e)
          | Ok cells' => enforce_loop rest (df_set df column cells') (done ++ [column])
          end
      end
  end.

Definition enforce_run `{Pandas} (sch : schema) (df : DataFrame) : run :=
  enforce_loop sch df [].

(** [_enforce_schema] as its caller sees it. *)
Definition _enforce_schema `{Pandas} (sch : schema) (df : DataFrame) : result DataFrame :=
  let r := enforce_run sch df in
  match outcome r with
  | None => Ok (frame r)
  | Some e => Raise e
  end.

Definition transform_api_data `{PyRuntime} `{Pandas} `{DataLake.Extractor}
  (sch : schema) (w : World) (base_url endpoint : string)
  : result DataLake.TransformedBatch :=
  let* batch := DataLake.transform_api_data w base_url endpoint in
  let* df := _enforce_schema sch (pd_DataFrame (DataLake.data batch)) in
  Ok (DataLake.mkBatch (to_dict_records df) (DataLake.metadata batch)
                       (DataLake.raw_data batch)).

(** The first configured column the frame lacks. *)
Definition first_missing (sch : schema) (df : DataFrame) : option string :=
  match find (fun cd => negb (df_has df (fst cd))) sch with
  | Some cd => Some (fst cd)
  | None => None
  end.

(** The configured columns that come before the first missing one. *)
Fixpoint present_prefix (sch : schema) (df : DataFrame) : schema :=
  match sch with
  | [] => []
  | cd :: rest => if df_has df (fst cd) then cd :: present_prefix rest df else []
  end.

(** pandas knows the type name: coercing a column to it does not raise. *)
Definition coercible `{Pandas} (dtype : string) : Prop :=
  forall cells, exists cells', coerce_column dtype cells = Ok cells'.

End SchemaEnforcer.

(** ** [app/services/data_service.py] *)

Module CandidateDataService.

Record service : Type := mkService {
  max_workers : Z
}.

(** [self.max_workers = max_workers or multiprocessing.cpu_count() * 2] *)
Definition init (workers : option Z) (cpu_count : Z) : service :=
  match workers with
  | Some n => if Z.eqb n 0 then mkService (cpu_count * 2) else mkService n
  | None => mkService (cpu_count * 2)
  end.

(** [d.get(key)] *)
Definition get (d : pydict) (key : string) : pyval :=
  match dict_get d key with
  | Some v => v
  | None => PNone
  end.

Definition no_attribute (v : pyval) (attr : string) : pyexn :=
  AttributeError ("'" ++ type_name v ++ "' object has no attribute '" ++ attr ++ "'").

Definition _get_clean_value (data : pydict) (key : string) : pyval :=
  match get data key with
  | PStr s => PStr (strip s)
  | v => v
  end.

(** [candidate.get(key, '').strip()] *)
Definition stripped (candidate : pydict) (key : string) : result string :=
  match dict_get candidate key with
  | None => Ok ""
  | Some (PStr s) => Ok (strip s)
  | Some v => Raise (no_attribute v "strip")
  end.

Definition _normalize_email (email : pyval) : result pyval :=
  if negb (truthy email) then Ok PNone
  else match email with
       | PStr s => Ok (PStr (strip (lower s)))
       | v => Raise (no_attribute v "lower")
       end.

Definition _format_phone `{PyRuntime} (phone : pyval) : pyval :=
  if negb (truthy phone) then PNone
  else
    let digits := filter_string isdigit_char (py_str phone) in
    let n := String.length digits in
    if Nat.eqb n 11 then
      PStr ("(" ++ substring 0 2 digits ++ ") " ++ substring 2 5 digits ++ "-" ++ drop 7 digits)
    else if Nat.eqb n 10 then
      PStr ("(" ++ substring 0 2 digits ++ ") " ++ substring 2 4 digits ++ "-" ++ drop 6 digits)
    else PStr digits.

Definition _normalize_state `{PyRuntime} (state : pyval) : pyval :=
  if negb (truthy state) then PNone
  else PStr (substring 0 2 (strip (upper (py_str state)))).

Definition _normalize_country `{PyRuntime} (country : pyval) : pyval :=
  if negb (truthy country) then PStr "Brasil"
  else
    let c := lower (strip (py_str country)) in
    if (String.eqb c "br" || String.eqb c "brasil" || String.eqb c "brazil")%bool
    then PStr "Brasil"
    else PStr (title c).

(** [_parse_date]: the [try] catches [ValueError] and [AttributeError] only,
    so a value that is neither text nor a container of ["Z"] raises. *)
Definition _parse_date `{PyRuntime} (date_str : pyval) : result pyval :=
  if negb (truthy date_str) then Ok PNone
  else match date_str with
       | PStr s =>
           let text := if contains "Z" s then replace "Z" "+00:00" s else s in
           match fromisoformat_isoformat text with
           | Some iso => Ok (PStr iso)
           | None => Ok date_str
           end
       | PList xs =>
           if existsb (fun x => match x with PStr t => String.eqb t "Z" | _ => false end) xs
           then Ok date_str
           else Raise (TypeError "fromisoformat: argument must be str")
       | PDict d =>
           if dict_mem d "Z" then Ok date_str
           else Raise (TypeError "fromisoformat: argument must be str")
       | v => Raise (TypeError ("argument of type '" ++ type_name v ++ "' is not iterable"))
       end.

Definition known_fields : list string :=
  [ "id"; "firstName"; "lastName"; "email"; "telephone"; "city"; "state"; "country";
    "cpf"; "createdAt"; "updatedAt" ].

Definition required_fields : list string := [ "id"; "firstName"; "lastName"; "cpf" ].

(** The loop over [required_fields]. *)
Fixpoint check_required (processed : pydict) (fields : list string) : result unit :=
  match fields with
  | [] => Ok tt
  | field :: rest =>
      if negb (truthy (get processed field))
      then Raise (ValueError ("Missing required field: " ++ field))
      else check_required processed rest
  end.

(** [_process_candidate]; [now] is the reading of [datetime.now().isoformat()]. *)
Definition _process_candidate `{PyRuntime} (now : string) (candidate : pydict)
  : result pydict :=
  let* first := stripped candidate "firstName" in
  let* last := stripped candidate "lastName" in
  let* email := _normalize_email (get candidate "email") in
  let* createdAt := _parse_date (get candidate "createdAt") in
  let* updatedAt := _parse_date (get candidate "updatedAt") in
  let processed : pydict :=
    [ ("id", _get_clean_value candidate "id");
      ("cpf", _get_clean_value candidate "cpf");
      ("firstName", _get_clean_value candidate "firstName");
      ("lastName", _get_clean_value candidate "lastName");
      ("fullName", PStr (strip (first ++ " " ++ last)));
      ("email", email);
      ("telephone", _format_phone (get candidate "telephone"));
      ("city", _get_clean_value candidate "city");
      ("state", _normalize_state (get candidate "state"));
      ("country", _normalize_country (get candidate "country"));
      ("createdAt", createdAt);
      ("updatedAt", updatedAt);
      ("processedAt", PStr now);
      ("_originalData",
       PDict (filter (fun kv => negb (existsb (String.eqb (fst kv)) known_fields))
                     candidate)) ] in
  let* _ := check_required processed required_fields in
  Ok processed.

(** The failure marker appended by the [except] branch of [_process_batch]. *)
Definition failure_marker (candidate : pydict) (e : pyexn) : pyval :=
  PDict [ ("id", get candidate "id");
          ("error", PStr (exn_message e));
          ("originalData", PDict candidate) ].

(** What [_process_batch] appends for the record at input position [i]. *)
Definition process_one `{PyRuntime} (w : World) (ic : nat * pydict) : pyval :=
  match _process_candidate (now_isoformat w (fst ic)) (snd ic) with
  | Ok processed => PDict processed
  | Raise e => failure_marker (snd ic) e
  end.

Definition _process_batch `{PyRuntime} (w : World) (batch : list (nat * pydict))
  : list pyval :=
  map (process_one w) batch.

(** Every record with its position in the input, which selects its clock
    reading. *)
Definition indexed (raw_candidates : list pydict) : list (nat * pydict) :=
  combine (seq 0 (List.length raw_candidates)) raw_candidates.

Fixpoint chunks_from {A : Type} (fuel size : nat) (l : list A) : list (list A) :=
  match fuel with
  | O => []
  | S fuel' =>
      match l with
      | [] => []
      | _ :: _ => firstn size l :: chunks_from fuel' size (skipn size l)
      end
  end.

(** [[l[i:i + size] for i in range(0, len(l), size)]] for a positive [size]. *)
Definition chunks {A : Type} (size : nat) (l : list A) : list (list A) :=
  chunks_from (List.length l) size l.

(** The batches handed to [executor.submit], in submission order. *)
Definition batches_of {A : Type} (batch_size : Z) (l : list A) : list (list A) :=
  if Z.ltb batch_size 0 then [] else chunks (Z.to_nat batch_size) l.

(** The result of a call and the batches it submitted to the pool. *)
Record call : Type := mkCall {
  returned : result (list pyval);
  submitted : list (list pydict)
}.

(** [process_candidates]. [completion] is the order in which [as_completed]
    yields the submitted futures, given by their submission indices; the pool
    decides it. *)
Definition process_candidates `{PyRuntime} (svc : service) (w : World)
  (completion : list nat) (raw_candidates : list pydict) (batch_size : Z) : call :=
  match raw_candidates with
  | [] => mkCall (Ok []) []
  | _ :: _ =>
      if Z.leb (max_workers svc) 0
      then mkCall (Raise (ValueError "max_workers must be greater than 0")) []
      else if Z.eqb batch_size 0
      then mkCall (Raise (ValueError "range() arg 3 must not be zero")) []
      else
        let batches := batches_of batch_size (indexed raw_candidates) in
        let futures := map (_process_batch w) batches in
        let results := flat_map (fun i => nth i futures []) completion in
        mkCall (Ok results) (map (map snd) batches)
  end.

(** [as_completed] yields every submitted future exactly once. *)
Definition valid_completion (completion : list nat) (raw_candidates : list pydict)
  (batch_size : Z) : Prop :=
  Permutation completion
    (seq 0 (List.length (batches_of batch_size (indexed raw_candidates)))).

(** A failure marker, as opposed to a normalized record. *)
Definition is_failure_marker (v : pyval) : bool :=
  match v with
  | PDict d => dict_mem d "error"
  | _ => false
  end.

Definition is_normalized (v : pyval) : bool :=
  match v with
  | PDict d => dict_mem d "processedAt"
  | _ => false
  end.

End CandidateDataService.

(** ** [utils/json_flattener.py] *)

Module Flattener.

(** [new_key = f"{parent_key}{sep}{k}" if parent_key else k] *)
Definition new_key (parent_key sep k : string) : string :=
  match parent_key with
  | EmptyString => k
  | _ => parent_key ++ sep ++ k
  end.

(** The items one iteration of the loop of [_flatten_dict] contributes for
    the value [v] stored under the already-prefixed key [nk]. The [dict]
    case is the recursive call [_flatten_dict(v, new_key, sep).items()]. *)
Fixpoint flatten_entry (sep nk : string) (v : pyval) {struct v}
  : list (string * pyval) :=
  match v with
  | PDict d =>
      dict_of_items
        ((fix loop (d : list (string * pyval)) : list (string * pyval) :=
            match d with
            | [] => []
            | (k, v') :: d' => flatten_entry sep (new_key nk sep k) v' ++ loop d'
            end) d)
  | PList xs =>
      (fix each (i : nat) (xs : list pyval) : list (string * pyval) :=
         match xs with
         | [] => []
         | item :: xs' =>
             match item with
             | PDict _ => flatten_entry sep (nk ++ "_" ++ str_of_nat i) item
             | _ => []
             end ++ each (S i) xs'
         end) 0%nat xs
  | _ => [(nk, v)]
  end.

(** [_flatten_dict(d, parent_key, sep)] *)
Definition _flatten_dict (d : pydict) (parent_key sep : string) : pydict :=
  dict_of_items
    (flat_map (fun kv => flatten_entry sep (new_key parent_key sep (fst kv)) (snd kv)) d).

(** The call made by [transform_api_data]: default [parent_key=''], [sep='_']. *)
Definition flatten (record : pydict) : pydict := _flatten_dict record "" "_".

(** A mapping none of whose values is itself a mapping. *)
Definition flat_mapping (m : pydict) : Prop :=
  Forall (fun kv => isinstance_dict (snd kv) = false) m.

(** A value that is neither a mapping nor a list. *)
Definition scalar (v : pyval) : Prop :=
  isinstance_dict v = false /\ isinstance_list v = false.

End Flattener.

(** ** Sample configurations and inputs

    Concrete instances of the interpreter services, of pandas, of the clock
    and of the extractor, and the inputs of the specification's examples. *)

Definition dquote : ascii := ascii_of_nat 34.

(** A stand-in for the interpreter's services: the digests tag their input,
    the ISO parser accepts nothing. None of the concrete statements of this
    development depends on more than that. *)
Definition sample_runtime : PyRuntime :=
  {| repr_other := fun v => ("<" ++ type_name v ++ ">")%string;
     json_float := fun _ => "0.0";
     json_string := fun s => (String dquote s ++ String dquote "")%string;
     md5_hexdigest := fun s => ("md5:" ++ s)%string;
     sha256_hexdigest := fun s => ("sha256:" ++ s)%string;
     fromisoformat_isoformat := fun _ => None |}.

Definition sample_world : World :=
  {| utcnow_isoformat := "2025-04-26T06:51:00";
     utcnow_strftime := "20250426_065100";
     now_isoformat := fun _ => "2025-04-26T06:51:00" |}.

Fixpoint digits_value (acc : Z) (s : string) : option Z :=
  match s with
  | EmptyString => Some acc
  | String c s' =>
      if isdigit_char c
      then digits_value (acc * 10 + Z.of_N (code c - 48)) s'
      else None
  end.

(** [int(x)] on the cells the samples use. *)
Definition int_of_cell (v : pyval) : option pyval :=
  match v with
  | PInt z => Some (PInt z)
  | PBool b => Some (PInt (if b then 1 else 0))
  | PStr EmptyString => None
  | PStr s => option_map PInt (digits_value 0 s)
  | _ => None
  end.

Fixpoint all_some {A : Type} (l : list (option A)) : option (list A) :=
  match l with
  | [] => Some []
  | Some a :: l' => option_map (cons a) (all_some l')
  | None :: _ => None
  end.

(** Equality of the scalar cells the samples use. *)
Definition cell_eqb (a b : pyval) : bool :=
  match a, b with
  | PInt x, PInt y => Z.eqb x y
  | PStr x, PStr y => String.eqb x y
  | PBool x, PBool y => Bool.eqb x y
  | _, _ => false
  end.

Fixpoint count_distinct (seen cells : list pyval) : nat :=
  match cells with
  | [] => List.length seen
  | x :: cells' =>
      if (isnull x || existsb (cell_eqb x) seen)%bool
      then count_distinct seen cells'
      else count_distinct (x :: seen) cells'
  end.

(** A stand-in for pandas (an older release) on the sample frames: nothing
    parses as a date or a number on its own, [astype("int")] converts a column
    of integers and digit strings and leaves any other column as it is, the
    other known dtypes leave the cells as they are, a one-element list is
    tested through its element, a frame without columns gives no record. *)
Definition sample_pandas : Pandas :=
  {| dtype_is_object := fun _ => true;
     to_datetime := fun _ => Raise (ValueError "Unknown datetime string format");
     to_numeric := fun _ => Raise (ValueError "Unable to parse string");
     to_datetime_coerce := fun cells => Ok (map (fun _ => PNaT) cells);
     astype := fun dtype cells =>
       if String.eqb dtype "int"
       then Ok (match all_some (map int_of_cell cells) with
                | Some ints => ints
                | None => cells
                end)
       else if (String.eqb dtype "str" || String.eqb dtype "float")%bool
       then Ok cells
       else Raise (TypeError ("data type '" ++ dtype ++ "' not understood"));
     nunique := count_distinct [];
     DataFrame_of_sequence :=
       fun _ => Raise (ValueError "DataFrame constructor not properly called!");
     notnull_of_list := fun xs =>
       match xs with
       | [x] => Ok (negb (isnull x))
       | _ => Raise (ValueError
                       "The truth value of an array with more than one element is ambiguous")
       end;
     columnless_rows_kept := false |}.


Definition table_of_two : pyval :=
  PList [ PDict [ ("id", PInt 1) ]; PDict [ ("id", PInt 2); ("org", PStr "A") ] ].

(** An API that answers with one object, a table of two rows, an empty file. *)
Definition sample_extractor : DataLake.Extractor :=
  {| DataLake.from_api := fun _ _ => Ok (PDict [ ("id", PInt 7); ("name", PStr "Ann") ]);
     DataLake.from_database := fun _ => Ok table_of_two;
     DataLake.from_file := fun _ _ => Ok (PList []) |}.

(** The batch the sample database query produces. *)
Definition sample_batch : DataLake.TransformedBatch :=
  DataLake.mkBatch
    [ [ ("id", PInt 1); ("org", NaN) ]; [ ("id", PInt 2); ("org", PStr "A") ] ]
    [ ("load_timestamp", PStr "2025-04-26T06:51:00Z");
      ("source_system", PStr "DB:orders");
      ("data_hash",
       PStr (match DataLake.data_hash_of (H := sample_runtime) table_of_two with
             | Ok h => h
             | Raise _ => ""
             end));
      ("record_count", PInt 2);
      ("schema_version", PStr "1.0") ]
    table_of_two.

(** A source whose rows carry no field: the API answers with the empty
    object, the query returns one row without columns. *)
Definition empty_object_extractor : DataLake.Extractor :=
  {| DataLake.from_api := fun _ _ => Ok (PDict []);
     DataLake.from_database := fun _ => Ok (PList [ PDict [] ]);
     DataLake.from_file := fun _ _ => Ok (PList []) |}.

(** The batch the older releases of pandas make of the empty object. *)
Definition empty_object_batch : DataLake.TransformedBatch :=
  DataLake.mkBatch
    []
    [ ("load_timestamp", PStr "2025-04-26T06:51:00Z");
      ("source_system", PStr "API:https://api.example.com/status");
      ("data_hash",
       PStr (match DataLake.data_hash_of (H := sample_runtime) (PDict []) with
             | Ok h => h
             | Raise _ => ""
             end));
      ("record_count", PInt 1);
      ("schema_version", PStr "1.0") ]
    (PDict []).

(** An already-flat mapping. *)
Definition flat_sample : pydict :=
  [ ("id", PInt 7); ("name", PStr "Ann"); ("tags", PList [ PStr "a"; PStr "b" ]) ].

(** The two-record input of the specification's example. *)
Definition ann : pydict :=
  [ ("id", PStr "1"); ("firstName", PStr "Ann"); ("lastName", PStr "Lee"); ("cpf", PStr "123") ].

Definition anonymous : pydict := [ ("id", PStr "2") ].

Definition two_records : list pydict := [ ann; anonymous ].

Definition sample_service : CandidateDataService.service := CandidateDataService.mkService 4.

Definition ann_normalized : pyval :=
  PDict [ ("id", PStr "1"); ("cpf", PStr "123"); ("firstName", PStr "Ann");
          ("lastName", PStr "Lee"); ("fullName", PStr "Ann Lee"); ("email", PNone);
          ("telephone", PNone); ("city", PNone); ("state", PNone);
          ("country", PStr "Brasil"); ("createdAt", PNone); ("updatedAt", PNone);
          ("processedAt", PStr "2025-04-26T06:51:00"); ("_originalData", PDict []) ].

Definition anonymous_failed : pyval :=
  PDict [ ("id", PStr "2"); ("error", PStr "Missing required field: firstName");
          ("originalData", PDict anonymous) ].

(** The same payload with its keys inserted in two orders. *)
Definition order_ab : pyval :=
  PDict [ ("a", PInt 1); ("b", PList [ PDict [ ("x", PStr "u"); ("y", PNone) ] ]) ].

Definition order_ba : pyval :=
  PDict [ ("b", PList [ PDict [ ("y", PNone); ("x", PStr "u") ] ]); ("a", PInt 1) ].

(** Two records with the same [ssn], one without. *)
Definition patients : DataFrame :=
  pd_DataFrame
    [ [ ("ssn", PStr "078-05-1120"); ("name", PStr "Ann") ];
      [ ("ssn", PStr "078-05-1120"); ("name", PStr "Bob") ];
      [ ("ssn", PNone); ("name", PStr "Cy") ] ].


Definition id_created : SchemaEnforcer.schema := [ ("id", "int"); ("created", "datetime") ].

(** A batch with [id] but without [created]. *)
Definition orders : DataFrame :=
  pd_DataFrame [ [ ("id", PStr "1") ]; [ ("id", PStr "2") ] ].

(** A column with one missing value out of four and two distinct values. *)
Definition scores : DataFrame :=
  pd_DataFrame
    [ [ ("score", PInt 5) ]; [ ("score", PNone) ]; [ ("score", PInt 5) ]; [ ("score", PInt 7) ] ].

Definition convert_to (currency : string) : BusinessRules.rules_config :=
  [ ("price", [ ("convert_currency", PStr currency) ]) ].

(** A batch with [price = 100]. *)
Definition priced : DataFrame := pd_DataFrame [ [ ("price", PInt 100) ] ].

(** A batch whose rows all have [org = "A"]. *)
Definition org_batch : UniversalDataTransformer.SourcedBatch :=
  UniversalDataTransformer.mkSourced
    [ [ ("org", PStr "A"); ("amount", PInt 10) ]; [ ("org", PStr "A"); ("amount", PInt 20) ] ]
    [ ("source_type", PStr "database"); ("record_count", PInt 2) ]
    [ ("source_name", PStr "orders db") ].

(** ** [app/etl/extractors/lucas_technology_service_extractor.py] *)

Module UniversalDataExtractor.

(** The records [from_database] builds from the column names of
    [cursor.description] and the rows of [cursor.fetchall()]:
    [[dict(zip(columns, row)) for row in rows]]. *)
Definition rows_to_records (columns : list string) (rows : list (list pyval))
  : list pydict :=
  map (fun row => dict_of_items (combine columns row)) rows.

End UniversalDataExtractor.


(** ** [app/etl/transformers/medical_transformer.py] *)

(** [v[k]] for a text key. *)
Definition getitem_key (v : pyval) (k : string) : result pyval :=
  match v with
  | PDict d =>
      match dict_get d k with
      | Some x => Ok x
      | None => Raise (KeyError k)
      end
  | PList _ => Raise (TypeError "list indices must be integers or slices, not str")
  | PStr _ => Raise (TypeError "string indices must be integers, not 'str'")
  | _ => Raise (TypeError ("'" ++ type_name v ++ "' object is not subscriptable"))
  end.

(** [v[0]]; the mappings of the model have text keys only. *)
Definition getitem_0 (v : pyval) : result pyval :=
  match v with
  | PList (x :: _) => Ok x
  | PList [] => Raise (IndexError "list index out of range")
  | PStr (String c _) => Ok (PStr (String c EmptyString))
  | PStr EmptyString => Raise (IndexError "string index out of range")
  | PDict _ => Raise (KeyError "0")
  | _ => Raise (TypeError ("'" ++ type_name v ++ "' object is not subscriptable"))
  end.

Module MedicalDataTransformer.

(** [lambda x: x['coding'][0][field] if isinstance(x, dict) and 'coding' in x
    else None] *)
Definition first_coding (field : string) (x : pyval) : result pyval :=
  match x with
  | PDict d =>
      if dict_mem d "coding" then
        let* coding := getitem_key x "coding" in
        let* first := getitem_0 coding in
        getitem_key first field
      else Ok PNone
  | _ => Ok PNone
  end.

(** [lambda x: x.get(field) if isinstance(x, dict) else None] *)
Definition quantity_field (field : string) (x : pyval) : result pyval :=
  match x with
  | PDict d =>
      match dict_get d field with
      | Some v => Ok v
      | None => Ok PNone
      end
  | _ => Ok PNone
  end.

(** [df[target] = df[source].apply(f)] *)
Definition assign_applied (df : DataFrame) (target source : string)
  (f : pyval -> result pyval) : result DataFrame :=
  match df_get df source with
  | None => Raise (KeyError source)
  | Some cells =>
      let* out := sequence (map f cells) in
      Ok (df_set df target out)
  end.

(** [MedicalDataTransformer._transform_observation_data] *)
Definition _transform_observation_data `{Pandas} (df : DataFrame) : result DataFrame :=
  let* df1 :=
    if df_has df "code" then
      let* a := assign_applied df "code_system" "code" (first_coding "system") in
      assign_applied a "code_value" "code" (first_coding "code")
    else Ok df in
  let* df2 :=
    if df_has df1 "valueQuantity" then
      let* a := assign_applied df1 "value" "valueQuantity" (quantity_field "value") in
      assign_applied a "unit" "valueQuantity" (quantity_field "unit")
    else Ok df1 in
  if df_has df2 "effectiveDateTime" then
    match df_get df2 "effectiveDateTime" with
    | None => Raise (KeyError "effectiveDateTime")
    | Some cells =>
        let* stamps := to_datetime_coerce cells in
        Ok (df_set df2 "timestamp" stamps)
    end
  else Ok df2.

(** The columns the standardization writes. *)
Definition derived : list string :=
  [ "code_system"; "code_value"; "value"; "unit"; "timestamp" ].

(** A cell of the [code] column the lambdas can read: not a mapping, a
    mapping without ['coding'], or a mapping whose ['coding'] is a list that
    starts with a mapping holding ['system'] and ['code']. *)
Definition well_coded (x : pyval) : bool :=
  match x with
  | PDict d =>
      match dict_get d "coding" with
      | None => true
      | Some (PList (PDict c :: _)) => (dict_mem c "system" && dict_mem c "code")%bool
      | Some _ => false
      end
  | _ => true
  end.

(** [source_info.get('resource_type', source_info.get('index', 'unknown'))] *)
Definition resource_type_of (source_info : pydict) : pyval :=
  match dict_get source_info "resource_type" with
  | Some v => v
  | None =>
      match dict_get source_info "index" with
      | Some v => v
      | None => PStr "unknown"
      end
  end.

(** The directory of the f-string of [save_to_data_lake]; [date_str] is the
    reading of [datetime.utcnow().strftime("%Y%m%d")]. *)
Definition output_dir `{PyRuntime} (storage_path : string) (source_type : pyval)
  (source_info : pydict) (date_str : string) : string :=
  (storage_path ++ "/" ++ py_str source_type ++ "/"
     ++ py_str (resource_type_of source_info) ++ "/" ++ date_str)%string.

(** [save_to_data_lake]: the result and the storage afterwards. The format is
    checked before anything is written. *)
Definition save_to_data_lake `{PyRuntime} (date_str : string) (fs : storage)
  (transformed_data : UniversalDataTransformer.SourcedBatch)
  (storage_path format : string) : result string * storage :=
  let df := pd_DataFrame (UniversalDataTransformer.data transformed_data) in
  let source_info := UniversalDataTransformer.source transformed_data in
  match dict_get source_info "type" with
  | None => (Raise (KeyError "type"), fs)
  | Some source_type =>
      let output_path :=
        (output_dir storage_path source_type source_info date_str
           ++ "/" ++ "data." ++ format)%string in
      let written :=
        if String.eqb format "parquet" then Some (ParquetFile df)
        else if String.eqb format "json" then Some (JsonLinesFile df)
        else if String.eqb format "csv" then Some (CsvFile df)
        else None in
      match written with
      | None => (Raise (UnsupportedFormat format), fs)
      | Some content =>
          let fs1 := write_file fs output_path content in
          let metadata_path := replace ("data." ++ format) "metadata.json" output_path in
          (Ok output_path,
           write_file fs1 metadata_path
             (MetadataFile (UniversalDataTransformer.metadata transformed_data)))
      end
  end.

End MedicalDataTransformer.

(** ** Further notions the properties of Part II are stated with *)

(** Every character of the string satisfies [p]. *)
Fixpoint string_forall (p : ascii -> bool) (s : string) : bool :=
  match s with
  | EmptyString => true
  | String c s' => (p c && string_forall p s')%bool
  end.

(** A text of ASCII characters only, on which [str.upper], [str.lower] and
    [str.isalnum] are the functions of the model. *)
Definition ascii_text (s : string) : bool := string_forall (in_range 0 127) s.

(** The keys of a normalized candidate, in the order of the dictionary
    literal of [_process_candidate]. *)
Definition normalized_keys : list string :=
  [ "id"; "cpf"; "firstName"; "lastName"; "fullName"; "email"; "telephone"; "city";
    "state"; "country"; "createdAt"; "updatedAt"; "processedAt"; "_originalData" ].

(** A candidate all of whose values are text. *)
Definition all_text (candidate : pydict) : Prop :=
  Forall (fun kv => isinstance_str (snd kv) = true) candidate.

(** The first required field, in the order the loop checks them, whose
    cleaned value is falsy. *)
Definition first_missing_required (candidate : pydict) : option string :=
  find (fun field => negb (truthy (CandidateDataService._get_clean_value candidate field)))
       CandidateDataService.required_fields.


(** All the records have the keys [columns], in that order. *)
Definition uniform_records (columns : list string) (records : list pydict) : Prop :=
  Forall (fun r => keys r = columns) records.

(** [type(v)], as far as the values of the model go. *)
Inductive pytype : Type :=
| TNone | TBool | TInt | TFloat | TStr | TTimestamp | TNaT | TList | TDict.

Definition type_of (v : pyval) : pytype :=
  match v with
  | PNone => TNone
  | PBool _ => TBool
  | PInt _ => TInt
  | PFloat _ => TFloat
  | PStr _ => TStr
  | PTimestamp _ => TTimestamp
  | PNaT => TNaT
  | PList _ => TList
  | PDict _ => TDict
  end.

(** Every record holds values of the types [types], position by position, so
    that each column of the frame built from the records holds values of one
    Python type. On such records pandas converts no cell (it turns [None] into
    NaN next to numbers, and integers into floats next to floats), which is
    the regime where [pd_DataFrame] keeps the cells of the source. *)
Definition typed_records (types : list pytype) (records : list pydict) : Prop :=
  Forall (fun r => map (fun kv => type_of (snd kv)) r = types) records.

(** The cell of record [r] in column [c] of [pd.DataFrame]. *)
Definition cell_of (r : pydict) (c : string) : pyval :=
  match dict_get r c with Some v => v | None => NaN end.


(** An item filed under a parent key: [f"{parent_key}{sep}{k}"]. *)
Definition under (parent_key sep : string) (kv : string * pyval) : string * pyval :=
  ((parent_key ++ sep ++ fst kv)%string, snd kv).

(** A character of a path segment. *)
Definition not_slash (c : ascii) : bool := negb (Ascii.eqb c "/").

(** ** Further samples *)

(** The timestamp a stand-in reads in a date [YYYY-MM-DD]: it is kept as the
    number [YYYYMMDD]. *)
Definition date_of_cell (v : pyval) : option pyval :=
  match v with
  | PStr s =>
      if (Nat.eqb (String.length s) 10
          && Nat.eqb (String.length (filter_string isdigit_char s)) 8)%bool
      then option_map PTimestamp (digits_value 0 (filter_string isdigit_char s))
      else None
  | _ => None
  end.

(** A stand-in for pandas that parses: a column holding text is an [object]
    column, a column of dates becomes timestamps, a column of digit strings
    becomes integers. *)
Definition parsing_pandas : Pandas :=
  {| dtype_is_object := existsb isinstance_str;
     to_datetime := fun cells =>
       match all_some (map date_of_cell cells) with
       | Some stamps => Ok stamps
       | None => Raise (ValueError "Unknown datetime string format")
       end;
     to_numeric := fun cells =>
       match all_some (map int_of_cell cells) with
       | Some ints => Ok ints
       | None => Raise (ValueError "Unable to parse string")
       end;
     to_datetime_coerce := to_datetime_coerce (Pandas := sample_pandas);
     astype := astype (Pandas := sample_pandas);
     nunique := nunique (Pandas := sample_pandas);
     DataFrame_of_sequence := DataFrame_of_sequence (Pandas := sample_pandas);
     notnull_of_list := notnull_of_list (Pandas := sample_pandas);
     columnless_rows_kept := columnless_rows_kept (Pandas := sample_pandas) |}.

(** Orders as they come from a file: the day and the quantity are text, the
    price is a number. *)
Definition dated_orders : DataFrame :=
  pd_DataFrame
    [ [ ("day", PStr "2025-04-26"); ("quantity", PStr "3"); ("price", PInt 100) ];
      [ ("day", PStr "2025-04-27"); ("quantity", PStr "12"); ("price", PInt 250) ] ].

Definition dated_orders_standardized : DataFrame :=
  mkDataFrame
    [ ("day", [ PTimestamp 20250426; PTimestamp 20250427 ]);
      ("quantity", [ PInt 3; PInt 12 ]);
      ("price", [ PInt 100; PInt 250 ]) ] 2.

(** A FHIR batch. *)
Definition fhir_batch : UniversalDataTransformer.SourcedBatch :=
  UniversalDataTransformer.mkSourced
    [ [ ("id", PStr "p1") ] ]
    [ ("source_type", PStr "fhir"); ("record_count", PInt 1) ]
    [ ("type", PStr "fhir"); ("resource_type", PStr "Patient") ].


(** One heart-rate observation. *)
Definition observations : DataFrame :=
  pd_DataFrame
    [ [ ("code",
         PDict [ ("coding",
                  PList [ PDict [ ("system", PStr "http://loinc.org");
                                  ("code", PStr "8867-4") ] ]) ]);
        ("valueQuantity", PDict [ ("value", PInt 72); ("unit", PStr "bpm") ]) ] ].

(** An observation whose code has no coding at all. *)
Definition empty_coding : DataFrame :=
  pd_DataFrame [ [ ("code", PDict [ ("coding", PList []) ]) ] ].


(** The observation of the sample, standardized. *)
Definition observations_standardized : DataFrame :=
  mkDataFrame
    [ ("code",
       [ PDict [ ("coding",
                  PList [ PDict [ ("system", PStr "http://loinc.org");
                                  ("code", PStr "8867-4") ] ]) ] ]);
      ("valueQuantity", [ PDict [ ("value", PInt 72); ("unit", PStr "bpm") ] ]);
      ("code_system", [ PStr "http://loinc.org" ]);
      ("code_value", [ PStr "8867-4" ]);
      ("value", [ PInt 72 ]);
      ("unit", [ PStr "bpm" ]) ] 1.

(* ================================================================== *)
(** * Part II — properties                                             *)
(* ================================================================== *)

(** ** Dictionaries *)

Lemma dict_set_keys_in (d : pydict) (k : string) (v : pyval) (k0 : string) :
  In k0 (keys (dict_set d k v)) <-> In k0 (keys d) \/ k0 = k.
Proof.
  induction d as [|[k' v'] d IH]; simpl.
  - intuition.
  - destruct (String.eqb_spec k' k) as [->|Hne]; simpl.
    + intuition.
    + rewrite IH. intuition.
Qed.

Lemma dict_set_NoDup (d : pydict) (k : string) (v : pyval) :
  NoDup (keys d) -> NoDup (keys (dict_set d k v)).
Proof.
  induction d as [|[k' v'] d IH]; simpl; intros Hnd.
  - constructor; [intros []|constructor].
  - inversion Hnd as [|? ? Hnotin Hnd']; subst.
    destruct (String.eqb_spec k' k) as [->|Hne]; simpl.
    + constructor; assumption.
    + constructor; [|auto].
      intros Hin. apply dict_set_keys_in in Hin as [Hin| ->]; auto.
Qed.

Lemma dict_set_fresh (d : pydict) (k : string) (v : pyval) :
  ~ In k (keys d) -> dict_set d k v = d ++ [(k, v)].
Proof.
  induction d as [|[k' v'] d IH]; simpl; intros Hnotin; [reflexivity|].
  destruct (String.eqb_spec k' k) as [->|Hne].
  - exfalso; apply Hnotin; now left.
  - rewrite IH; [reflexivity|]. intros Hin; apply Hnotin; now right.
Qed.

Lemma dict_set_values (P : pyval -> Prop) (d : pydict) (k : string) (v : pyval) :
  Forall (fun kv => P (snd kv)) d -> P v ->
  Forall (fun kv => P (snd kv)) (dict_set d k v).
Proof.
  induction d as [|[k' v'] d IH]; simpl; intros Hd Hv.
  - constructor; [exact Hv|constructor].
  - inversion Hd; subst.
    destruct (String.eqb k' k); constructor; auto.
Qed.

Lemma fold_dict_set_NoDup (items : list (string * pyval)) (acc : pydict) :
  NoDup (keys acc) ->
  NoDup (keys (fold_left (fun d kv => dict_set d (fst kv) (snd kv)) items acc)).
Proof.
  revert acc; induction items as [|[k v] items IH]; simpl; intros acc Hacc; auto.
  apply IH, dict_set_NoDup, Hacc.
Qed.

Lemma dict_of_items_NoDup (items : list (string * pyval)) :
  NoDup (keys (dict_of_items items)).
Proof. apply fold_dict_set_NoDup; constructor. Qed.

Lemma fold_dict_set_values (P : pyval -> Prop) (items : list (string * pyval)) (acc : pydict) :
  Forall (fun kv => P (snd kv)) acc ->
  Forall (fun kv => P (snd kv)) items ->
  Forall (fun kv => P (snd kv))
         (fold_left (fun d kv => dict_set d (fst kv) (snd kv)) items acc).
Proof.
  revert acc; induction items as [|[k v] items IH]; simpl; intros acc Hacc Hit; auto.
  inversion Hit; subst. apply IH; auto. apply dict_set_values; auto.
Qed.

Lemma dict_of_items_values (P : pyval -> Prop) (items : list (string * pyval)) :
  Forall (fun kv => P (snd kv)) items ->
  Forall (fun kv => P (snd kv)) (dict_of_items items).
Proof. apply fold_dict_set_values; constructor. Qed.

Lemma fold_dict_set_fresh (items : list (string * pyval)) (acc : pydict) :
  NoDup (keys (acc ++ items)) ->
  fold_left (fun d kv => dict_set d (fst kv) (snd kv)) items acc = acc ++ items.
Proof.
  revert acc; induction items as [|[k v] items IH]; simpl; intros acc Hnd.
  - now rewrite app_nil_r.
  - assert (Hfresh : ~ In k (keys acc)).
    { unfold keys in *. rewrite map_app in Hnd. simpl in Hnd.
      apply NoDup_remove_2 in Hnd. intros Hin; apply Hnd, in_or_app; now left. }
    rewrite dict_set_fresh by exact Hfresh.
    rewrite IH; rewrite <- app_assoc; simpl; [reflexivity|exact Hnd].
Qed.

(** Rebuilding a dictionary from its own items gives the dictionary back. *)
Lemma dict_of_items_id (d : pydict) :
  NoDup (keys d) -> dict_of_items d = d.
Proof. intros Hnd. unfold dict_of_items. now rewrite fold_dict_set_fresh. Qed.

(** ** Results and frames *)

Lemma bind_ok {A B : Type} (r : result A) (k : A -> result B) (b : B) :
  bind r k = Ok b -> exists a, r = Ok a /\ k a = Ok b.
Proof. destruct r as [a|e]; simpl; intros Hk; [now exists a|discriminate]. Qed.

Lemma sequence_length {A : Type} (rs : list (result A)) (l : list A) :
  sequence rs = Ok l -> List.length l = List.length rs.
Proof.
  revert l; induction rs as [|r rs IH]; simpl; intros l Hseq.
  - now inversion Hseq.
  - apply bind_ok in Hseq as (a & _ & Hseq).
    apply bind_ok in Hseq as (l' & Hl' & Hseq).
    inversion Hseq; subst. simpl. f_equal. now apply IH.
Qed.


Lemma column_get_set_other (cols : list (string * list pyval)) (c c' : string)
  (new : list pyval) :
  c' <> c -> column_get (column_set cols c new) c' = column_get cols c'.
Proof.
  intros Hne. induction cols as [|[c0 cells] cols IH]; simpl.
  - destruct (String.eqb_spec c c'); [congruence|reflexivity].
  - destruct (String.eqb_spec c0 c) as [->|Hne0]; simpl.
    + destruct (String.eqb_spec c c'); [congruence|reflexivity].
    + destruct (String.eqb_spec c0 c'); [reflexivity|exact IH].
Qed.

Lemma column_set_names (cols : list (string * list pyval)) (c : string)
  (old new : list pyval) :
  column_get cols c = Some old -> map fst (column_set cols c new) = map fst cols.
Proof.
  induction cols as [|[c' cells] cols IH]; simpl; [discriminate|].
  destruct (String.eqb_spec c' c) as [->|Hne]; simpl; [reflexivity|].
  intros Hget. f_equal. auto.
Qed.

Lemma df_set_names (df : DataFrame) (c : string) (old new : list pyval) :
  df_get df c = Some old -> df_names (df_set df c new) = df_names df.
Proof. intros Hget. unfold df_names, df_set; simpl. now apply column_set_names with old. Qed.

Lemma df_has_get (df : DataFrame) (c : string) :
  df_has df c = true <-> exists cells, df_get df c = Some cells.
Proof.
  unfold df_has, df_get, df_names. induction (df_columns df) as [|[c' cells] cols IH]; simpl.
  - split; [discriminate|intros [? ?]; discriminate].
  - rewrite String.eqb_sym. destruct (String.eqb_spec c' c) as [->|Hne]; simpl.
    + split; [eauto|reflexivity].
    + exact IH.
Qed.


Lemma column_get_set_new (cols : list (string * list pyval)) (c : string)
  (new : list pyval) :
  column_get (column_set cols c new) c = Some new.
Proof.
  induction cols as [|[c' cells] cols IH]; cbn [column_set column_get].
  - now rewrite String.eqb_refl.
  - destruct (String.eqb_spec c' c) as [->|Hne]; cbn [column_get].
    + now rewrite String.eqb_refl.
    + destruct (String.eqb_spec c' c); [contradiction|exact IH].
Qed.

Lemma sequence_raise {A B : Type} (f : A -> result B) (l : list A) (e : pyexn) :
  sequence (map f l) = Raise e -> exists x, In x l /\ f x = Raise e.
Proof.
  induction l as [|x l IH]; cbn [map sequence]; [discriminate|].
  destruct (f x) as [b|e'] eqn:Hx; cbn [bind].
  - destruct (sequence (map f l)) as [bs|e'']; cbn [bind]; [discriminate|].
    intros [= <-]. destruct IH as (y & Hin & Hy); [reflexivity|].
    exists y. split; [now right|exact Hy].
  - intros [= <-]. exists x. split; [now left|exact Hx].
Qed.

Lemma sequence_ok_iff {A B : Type} (f : A -> result B) (l : list A) :
  (exists out, sequence (map f l) = Ok out) <-> Forall (fun x => exists y, f x = Ok y) l.
Proof.
  induction l as [|x l IH]; cbn [map sequence].
  - split; [constructor|eauto].
  - split.
    + intros [out Hout]. apply bind_ok in Hout as (y & Hy & Hout).
      apply bind_ok in Hout as (ys & Hys & _).
      constructor; [eauto|]. apply IH. eauto.
    + intros Hall. inversion Hall as [|? ? [y Hy] Hl]; subst.
      apply IH in Hl as [ys Hys]. rewrite Hy, Hys. cbn [bind]. eauto.
Qed.

(** ** Flattening *)

Module FlattenerProofs.
Import Flattener.

(** Every value the flattener emits is a scalar: nested mappings are
    expanded, lists are expanded or dropped. *)
Lemma flatten_entry_scalar (sep : string) (v : pyval) :
  forall nk, Forall (fun kv => scalar (snd kv)) (flatten_entry sep nk v).
Proof.
  induction v as [| | | | | | |xs IHxs|d IHd] using pyval_nested_ind; intros nk; simpl;
    try (constructor; [split; reflexivity|constructor]).
  - (* list: only mapping elements contribute *)
    generalize 0%nat. induction IHxs as [|item xs Hitem _ IH]; intros i; [constructor|].
    apply Forall_app; split; [|apply IH].
    destruct item; try constructor. apply Hitem.
  - (* dict: the recursive call *)
    apply dict_of_items_values.
    induction IHd as [|[k v'] d Hv _ IH]; [constructor|].
    apply Forall_app; split; [apply Hv|apply IH].
Qed.

Lemma flatten_entry_of_scalar (sep nk : string) (v : pyval) :
  scalar v -> flatten_entry sep nk v = [(nk, v)].
Proof. destruct v; intros [Hd Hl]; simpl in *; try discriminate; reflexivity. Qed.

Lemma _flatten_dict_scalar (d : pydict) (parent sep : string) :
  Forall (fun kv => scalar (snd kv)) (_flatten_dict d parent sep).
Proof.
  apply dict_of_items_values.
  induction d as [|[k v] d IH]; simpl; [constructor|].
  apply Forall_app; split; [apply flatten_entry_scalar|apply IH].
Qed.

(** On a dictionary of scalars the top-level call is the identity. *)
Lemma _flatten_dict_fixpoint (d : pydict) (sep : string) :
  NoDup (keys d) -> Forall (fun kv => scalar (snd kv)) d ->
  _flatten_dict d "" sep = d.
Proof.
  intros Hnd Hsc. unfold _flatten_dict.
  assert (Heq : flat_map
                  (fun kv => flatten_entry sep (new_key "" sep (fst kv)) (snd kv)) d = d).
  { clear Hnd. induction Hsc as [|[k v] d Hv _ IH]; [reflexivity|].
    cbn [flat_map fst snd new_key] in *.
    rewrite flatten_entry_of_scalar by exact Hv.
    cbn [app]. f_equal. exact IH. }
  rewrite Heq. now apply dict_of_items_id.
Qed.

(** Flattening twice is flattening once, for every mapping. *)
Lemma flatten_idempotent_any (m : pydict) :
  flatten (flatten m) = flatten m.
Proof.
  unfold flatten. apply _flatten_dict_fixpoint.
  - apply dict_of_items_NoDup.
  - apply _flatten_dict_scalar.
Qed.

(** C9. Flattening is idempotent on an already-flat mapping: for every
    mapping [m] none of whose values is a nested mapping,
    [flatten (flatten m) = flatten m]. *)
Theorem flatten_idempotent_on_flat (m : pydict) :
  flat_mapping m -> flatten (flatten m) = flatten m.
Proof. intros _. apply flatten_idempotent_any. Qed.

Lemma flatten_idempotent_on_flat_witness :
  flat_mapping flat_sample /\
  flatten (flatten flat_sample) = flatten flat_sample.
Proof.
  split.
  - repeat constructor.
  - apply (flatten_idempotent_on_flat flat_sample). repeat constructor.
Defined.

End FlattenerProofs.

(** ** The parallel batch normalizer *)

Module CandidateDataServiceProofs.
Import CandidateDataService.

Lemma map_nth_seq {A : Type} (l : list A) (d : A) :
  map (fun i => nth i l d) (seq 0 (List.length l)) = l.
Proof.
  induction l as [|a l IH]; [reflexivity|].
  cbn [List.length seq map nth]. f_equal.
  rewrite <- seq_shift, map_map. exact IH.
Qed.

Lemma flat_map_nth_seq {A : Type} (ls : list (list A)) :
  flat_map (fun i => nth i ls []) (seq 0 (List.length ls)) = List.concat ls.
Proof. rewrite flat_map_concat_map. now rewrite map_nth_seq. Qed.

Lemma concat_chunks_from {A : Type} (fuel size : nat) (l : list A) :
  (0 < size)%nat -> (List.length l <= fuel)%nat ->
  List.concat (chunks_from fuel size l) = l.
Proof.
  intros Hsize. revert l.
  induction fuel as [|fuel IH]; intros l Hlen.
  - destruct l; [reflexivity|simpl in Hlen; lia].
  - destruct l as [|a l]; [reflexivity|].
    cbn [chunks_from List.concat]. rewrite IH.
    + apply firstn_skipn.
    + rewrite length_skipn. cbn [List.length] in *. lia.
Qed.

(** The batches partition the input: concatenated in submission order they
    give it back. *)
Lemma concat_chunks {A : Type} (size : nat) (l : list A) :
  (0 < size)%nat -> List.concat (chunks size l) = l.
Proof. intros Hsize. apply concat_chunks_from; [exact Hsize|lia]. Qed.

Lemma concat_batches_of {A : Type} (batch_size : Z) (l : list A) :
  (0 < batch_size)%Z -> List.concat (batches_of batch_size l) = l.
Proof.
  intros Hpos. unfold batches_of.
  destruct (Z.ltb_spec batch_size 0) as [Hneg|_]; [lia|].
  apply concat_chunks. lia.
Qed.

Lemma length_indexed (raw : list pydict) :
  List.length (indexed raw) = List.length raw.
Proof. unfold indexed. rewrite length_combine, length_seq. apply Nat.min_id. Qed.

Lemma map_snd_indexed (raw : list pydict) : map snd (indexed raw) = raw.
Proof.
  unfold indexed. generalize 0%nat.
  induction raw as [|c raw IH]; intros n; [reflexivity|].
  simpl. f_equal. apply IH.
Qed.

(** A batch yields one element per record, in the order of the batch. *)
Lemma _process_batch_length `{PyRuntime} (w : World) (batch : list (nat * pydict)) :
  List.length (_process_batch w batch) = List.length batch.
Proof. apply length_map. Qed.

(** With the futures taken in submission order the results are the
    per-record results in input order. *)
Lemma results_in_submission_order `{PyRuntime} (w : World) (batch_size : Z)
  (raw : list pydict) :
  (0 < batch_size)%Z ->
  let batches := batches_of batch_size (indexed raw) in
  flat_map (fun i => nth i (map (_process_batch w) batches) [])
           (seq 0 (List.length batches))
  = map (process_one w) (indexed raw).
Proof.
  intros Hpos batches.
  rewrite <- (length_map (_process_batch w) batches), flat_map_nth_seq.
  unfold _process_batch. rewrite <- concat_map. unfold batches.
  now rewrite concat_batches_of.
Qed.

(** Whatever order the futures complete in, the results are a rearrangement
    of the per-record results. *)
Lemma results_any_order `{PyRuntime} (w : World) (batch_size : Z)
  (raw : list pydict) (completion : list nat) :
  (0 < batch_size)%Z ->
  valid_completion completion raw batch_size ->
  Permutation
    (flat_map (fun i => nth i (map (_process_batch w)
                                   (batches_of batch_size (indexed raw))) [])
              completion)
    (map (process_one w) (indexed raw)).
Proof.
  intros Hpos Hvalid.
  rewrite <- (results_in_submission_order w batch_size raw Hpos).
  apply Permutation_flat_map, Hvalid.
Qed.

(** What [process_candidates] submits is the input, cut into batches. *)
Lemma submitted_batches `{PyRuntime} (svc : service) (w : World) (completion : list nat)
  (raw : list pydict) (batch_size : Z) :
  (0 < max_workers svc)%Z -> (0 < batch_size)%Z ->
  List.concat (submitted (process_candidates svc w completion raw batch_size)) = raw.
Proof.
  intros Hw Hb. unfold process_candidates.
  destruct raw as [|c raw]; [reflexivity|].
  destruct (Z.leb_spec (max_workers svc) 0) as [Hle|_]; [lia|].
  destruct (Z.eqb_spec batch_size 0) as [Hz|_]; [lia|].
  cbn [submitted]. rewrite <- concat_map, concat_batches_of by exact Hb.
  apply map_snd_indexed.
Qed.

(** A negative batch size makes [range] empty: nothing is submitted and the
    call returns an empty list; a batch size of zero makes [range] raise. *)
Lemma process_candidates_nonpositive `{PyRuntime} (svc : service) (w : World)
  (completion : list nat) (c : pydict) (raw : list pydict) (batch_size : Z) :
  (0 < max_workers svc)%Z ->
  valid_completion completion (c :: raw) batch_size ->
  ((batch_size < 0)%Z ->
   process_candidates svc w completion (c :: raw) batch_size = mkCall (Ok []) []) /\
  (batch_size = 0%Z ->
   returned (process_candidates svc w completion (c :: raw) batch_size)
   = Raise (ValueError "range() arg 3 must not be zero")).
Proof.
  intros Hw Hvalid. unfold process_candidates.
  destruct (Z.leb_spec (max_workers svc) 0) as [Hle|_]; [lia|]. split.
  - intros Hneg. destruct (Z.eqb_spec batch_size 0) as [Hz|_]; [lia|].
    unfold valid_completion, batches_of in *.
    destruct (Z.ltb_spec batch_size 0) as [_|Hge]; [|lia].
    simpl in Hvalid. apply Permutation_sym, Permutation_nil in Hvalid. now subst.
  - intros ->. reflexivity.
Qed.

(** C2 (as amended). For a positive batch size and worker count, and whatever
    order the pool completes the batches in, [process_candidates] returns a
    list of the same length as its input that is a rearrangement of the
    per-record results (each the normalized record or the failure marker of
    one input record); it is in input order when the batches complete in
    submission order. *)
Theorem process_candidates_rearranges `{PyRuntime} (svc : service) (w : World)
  (completion : list nat) (raw : list pydict) (batch_size : Z) :
  (0 < max_workers svc)%Z ->
  (0 < batch_size)%Z ->
  valid_completion completion raw batch_size ->
  exists out,
    returned (process_candidates svc w completion raw batch_size) = Ok out /\
    List.length out = List.length raw /\
    Permutation out (map (process_one w) (indexed raw)) /\
    (completion = seq 0 (List.length (batches_of batch_size (indexed raw))) ->
     out = map (process_one w) (indexed raw)).
Proof.
  intros Hw Hb Hvalid. unfold process_candidates.
  destruct raw as [|c raw].
  - exists []. repeat split; auto.
  - destruct (Z.leb_spec (max_workers svc) 0) as [Hle|_]; [lia|].
    destruct (Z.eqb_spec batch_size 0) as [Hz|_]; [lia|].
    cbn [returned]. eexists; split; [reflexivity|].
    pose proof (results_any_order w batch_size (c :: raw) completion Hb Hvalid) as Hperm.
    split; [|split].
    + rewrite (Permutation_length Hperm), length_map. apply length_indexed.
    + exact Hperm.
    + intros ->. apply results_in_submission_order, Hb.
Qed.

Lemma process_candidates_rearranges_witness :
  exists out,
    returned (process_candidates (H := sample_runtime) sample_service sample_world
                [0; 1]%nat two_records 1) = Ok out /\
    List.length out = List.length two_records /\
    Permutation out (map (process_one (H := sample_runtime) sample_world)
                         (indexed two_records)) /\
    ([0; 1]%nat = seq 0 (List.length (batches_of 1 (indexed two_records))) ->
     out = map (process_one (H := sample_runtime) sample_world) (indexed two_records)).
Proof.
  apply (process_candidates_rearranges (H := sample_runtime)
           sample_service sample_world [0; 1]%nat two_records 1).
  - reflexivity.
  - reflexivity.
  - unfold valid_completion. vm_compute. apply Permutation_refl.
Defined.

(** In submission order the example gives the normalized record, then the
    failure marker. *)
Lemma two_records_in_order :
  returned (process_candidates (H := sample_runtime) sample_service sample_world
              [0; 1]%nat two_records 1)
  = Ok [ ann_normalized; anonymous_failed ].
Proof. vm_compute. reflexivity. Qed.

(** The claimed order fails: when the second batch completes first the failure
    marker comes first, and with a negative batch size nothing is returned
    for a two-record input. *)
Lemma process_candidates_order_counterexample :
  valid_completion [1; 0]%nat two_records 1 /\
  returned (process_candidates (H := sample_runtime) sample_service sample_world
              [1; 0]%nat two_records 1)
  = Ok [ anonymous_failed; ann_normalized ] /\
  is_failure_marker anonymous_failed = true /\
  is_normalized ann_normalized = true /\
  [ anonymous_failed; ann_normalized ]
  <> map (process_one (H := sample_runtime) sample_world) (indexed two_records) /\
  valid_completion [] two_records (-1) /\
  returned (process_candidates (H := sample_runtime) sample_service sample_world
              [] two_records (-1)) = Ok [].
Proof.
  split; [|split; [|split; [|split; [|split; [|split]]]]].
  - unfold valid_completion. vm_compute. apply perm_swap.
  - vm_compute. reflexivity.
  - reflexivity.
  - reflexivity.
  - vm_compute. intros Heq. inversion Heq.
  - unfold valid_completion. vm_compute. apply perm_nil.
  - vm_compute. reflexivity.
Qed.

(** C10. On an empty input [process_candidates] returns an empty list and
    submits no batch to the pool, for every batch size (and every pool
    configuration and completion order). *)
Theorem process_candidates_empty `{PyRuntime} (svc : service) (w : World)
  (completion : list nat) (batch_size : Z) :
  process_candidates svc w completion [] batch_size = mkCall (Ok []) [].
Proof. reflexivity. Qed.

End CandidateDataServiceProofs.

(** ** The base transformer *)

Module DataLakeProofs.
Import DataLake.

(** Standardizing the column types changes neither the index nor the number
    of columns. *)
Lemma _standardize_data_types_shape `{Pandas} (df df' : DataFrame) :
  _standardize_data_types df = Ok df' ->
  df_len df' = df_len df /\
  List.length (df_columns df') = List.length (df_columns df).
Proof.
  unfold _standardize_data_types. intros Hstd.
  apply bind_ok in Hstd as (cols & Hcols & Hstd).
  inversion Hstd; subst; simpl. split; [reflexivity|].
  apply sequence_length in Hcols. now rewrite length_map in Hcols.
Qed.

Lemma to_dict_records_length `{Pandas} (df : DataFrame) :
  List.length (to_dict_records df)
  = if is_nil (df_columns df)
    then (if columnless_rows_kept then df_len df else 0%nat)
    else df_len df.
Proof.
  unfold to_dict_records. destruct (df_columns df); simpl.
  - destruct columnless_rows_kept; [apply repeat_length|reflexivity].
  - now rewrite length_map, length_seq.
Qed.

Lemma add_key_nonempty (seen : list string) (k : string) : add_key seen k <> [].
Proof.
  unfold add_key. destruct (existsb (String.eqb k) seen) eqn:Hex.
  - destruct seen; [discriminate|discriminate].
  - destruct seen; discriminate.
Qed.

Lemma fold_add_key_nonempty (ks seen : list string) :
  seen <> [] -> fold_left add_key ks seen <> [].
Proof.
  revert seen; induction ks as [|k ks IH]; simpl; intros seen Hne; [exact Hne|].
  apply IH, add_key_nonempty.
Qed.

Lemma union_keys_single (d : pydict) : d <> [] -> union_keys [d] <> [].
Proof.
  destruct d as [|[k v] d]; [congruence|]. intros _.
  unfold union_keys; simpl. apply fold_add_key_nonempty, add_key_nonempty.
Qed.

Lemma all_mappings_length (xs : list pyval) (rows : list pydict) :
  all_mappings xs = Some rows -> List.length rows = List.length xs.
Proof.
  revert rows; induction xs as [|x xs IH]; simpl; intros rows Hall.
  - now inversion Hall.
  - destruct x; try discriminate.
    destruct (all_mappings xs) as [rows'|]; [|discriminate].
    inversion Hall; subst. simpl. f_equal. now apply IH.
Qed.

(** The frame built from a payload that carries a field has one index entry
    per logical row and, unless it has no row, at least one column. *)
Lemma _convert_to_dataframe_shape `{Pandas} (raw : pyval) (df : DataFrame) :
  carries_a_field raw = true ->
  _convert_to_dataframe raw = Ok df ->
  df_len df = logical_rows raw /\
  (is_nil (df_columns df) = true -> df_len df = 0%nat).
Proof.
  intros Hfield Hconv. destruct raw; simpl in Hfield; try discriminate.
  - (* list of mappings *)
    simpl in Hconv. destruct (all_mappings xs) as [rows|] eqn:Hall; [|discriminate].
    inversion Hconv; subst; simpl.
    split; [now apply all_mappings_length|].
    intros Hnil. destruct rows as [|r rows]; [reflexivity|].
    simpl in Hfield. destruct (union_keys (r :: rows)); simpl in *; discriminate.
  - (* single mapping *)
    simpl in Hconv. inversion Hconv; subst; simpl. split; [reflexivity|].
    intros Hnil. exfalso.
    destruct items as [|kv items]; [discriminate|].
    assert (Hkeys : union_keys [kv :: items] <> [])
      by (apply union_keys_single; discriminate).
    match type of Hnil with
    | context [map _ ?u] => destruct u eqn:Hu
    end; [now apply Hkeys|discriminate].
Qed.

Lemma transform_raw_counts `{PyRuntime} `{Pandas} (w : World) (raw : pyval)
  (source_name : string) (b : TransformedBatch) :
  transform_raw w raw source_name = Ok b ->
  raw_data b = raw /\
  record_count b = Some (PInt (Z.of_nat (logical_rows raw))) /\
  (carries_a_field raw = true -> List.length (data b) = logical_rows raw).
Proof.
  unfold transform_raw. intros Ht.
  apply bind_ok in Ht as (df & Hconv & Ht).
  apply bind_ok in Ht as (df' & Hstd & Ht).
  apply bind_ok in Ht as (md & Hmd & Ht).
  inversion Ht; subst; clear Ht. unfold record_count; simpl.
  split; [reflexivity|]. split.
  - unfold _generate_metadata in Hmd.
    apply bind_ok in Hmd as (h & _ & Hmd). inversion Hmd; subst; simpl.
    destruct raw; reflexivity.
  - intros Hfield.
    destruct (_convert_to_dataframe_shape raw df Hfield Hconv) as [Hlen Hcols].
    destruct (_standardize_data_types_shape df df' Hstd) as [Hlen' Hcols'].
    rewrite to_dict_records_length.
    destruct (df_columns df') as [|c' cs'] eqn:Hdf'; simpl.
    + assert (Hzero : df_len df = 0%nat)
        by (apply Hcols; destruct (df_columns df); [reflexivity|discriminate]).
      rewrite <- Hlen, Hzero. destruct columnless_rows_kept; congruence.
    + congruence.
Qed.

Lemma all_mappings_fieldless (n : nat) :
  all_mappings (repeat (PDict []) n) = Some (repeat [] n).
Proof. induction n as [|n IH]; simpl; [reflexivity|]. now rewrite IH. Qed.

Lemma union_keys_fieldless (n : nat) : union_keys (repeat [] n) = [].
Proof.
  unfold union_keys. induction n as [|n IH]; simpl; [reflexivity|exact IH].
Qed.

(** A payload of [n] rows without any field gives a batch whose
    [record_count] is [n]; its records are what [to_dict('records')] makes of
    a frame without columns. *)
Lemma fieldless_rows_records `{PyRuntime} `{Pandas} (w : World) (n : nat)
  (source_name : string) (b : TransformedBatch) :
  transform_raw w (PList (repeat (PDict []) n)) source_name = Ok b ->
  data b = (if columnless_rows_kept then repeat [] n else []) /\
  record_count b = Some (PInt (Z.of_nat n)).
Proof.
  intros Ht.
  destruct (transform_raw_counts w _ source_name b Ht) as (_ & Hcount & _).
  split; [|simpl in Hcount; now rewrite repeat_length in Hcount].
  unfold transform_raw in Ht.
  apply bind_ok in Ht as (df & Hconv & Ht).
  apply bind_ok in Ht as (df' & Hstd & Ht).
  apply bind_ok in Ht as (md & _ & Ht).
  inversion Ht; subst; clear Ht. simpl.
  simpl in Hconv. rewrite all_mappings_fieldless in Hconv.
  inversion Hconv; subst; clear Hconv.
  destruct (_standardize_data_types_shape _ df' Hstd) as [Hlen Hcols].
  unfold pd_DataFrame in Hcols, Hlen; simpl in Hcols, Hlen.
  rewrite union_keys_fieldless in Hcols. simpl in Hcols.
  rewrite repeat_length in Hlen.
  unfold to_dict_records. destruct (df_columns df'); [|discriminate].
  now rewrite Hlen.
Qed.

(** The single empty mapping is framed as the list holding it, and counted
    as one record. *)
Lemma empty_mapping_records `{PyRuntime} `{Pandas} (w : World)
  (source_name : string) (b : TransformedBatch) :
  transform_raw w (PDict []) source_name = Ok b ->
  data b = (if columnless_rows_kept then [ [] ] else []) /\
  record_count b = Some (PInt 1).
Proof.
  intros Ht.
  destruct (transform_raw_counts w _ source_name b Ht) as (_ & Hcount & _).
  split; [|exact Hcount].
  unfold transform_raw in Ht.
  apply bind_ok in Ht as (df & Hconv & Ht).
  apply bind_ok in Ht as (df' & Hstd & Ht).
  apply bind_ok in Ht as (md & _ & Ht).
  inversion Ht; subst; clear Ht. simpl.
  simpl in Hconv. inversion Hconv; subst; clear Hconv.
  destruct (_standardize_data_types_shape _ df' Hstd) as [Hlen Hcols].
  unfold pd_DataFrame in Hcols, Hlen; simpl in Hcols, Hlen.
  unfold to_dict_records. destruct (df_columns df'); [|discriminate].
  now rewrite Hlen.
Qed.

Lemma returned_from_raw `{PyRuntime} `{Pandas} `{Extractor}
  (w : World) (b : TransformedBatch) :
  returned_by_entry_point w b ->
  exists raw source_name, transform_raw w raw source_name = Ok b.
Proof.
  intros [(u & e & Hr)|[(q & n & Hr)|(p & t & n & Hr)]].
  - unfold transform_api_data in Hr. apply bind_ok in Hr as (raw & _ & Hr). eauto.
  - unfold transform_database_data in Hr. apply bind_ok in Hr as (raw & _ & Hr). eauto.
  - unfold transform_file_data in Hr. apply bind_ok in Hr as (raw & _ & Hr). eauto.
Qed.

(** C1. The code breaks the claim on rows without fields. For a batch
    returned by an entry point from the empty mapping ([n = 1]) or from a list
    of [n] empty mappings, [record_count] is [n], the number of rows the code
    framed, while the records are what the release of pandas makes of a frame
    without columns: none on the releases that zip the column arrays, so that
    [len(records)] is [0] and differs from [record_count] as soon as there is
    a row; [n] empty records on the releases that keep such rows. *)
Theorem fieldless_rows_lose_their_records `{PyRuntime} `{Pandas} `{Extractor}
  (w : World) (b : TransformedBatch) (n : nat) :
  returned_by_entry_point w b ->
  raw_data b = PList (repeat (PDict []) n) \/ (raw_data b = PDict [] /\ n = 1%nat) ->
  record_count b = Some (PInt (Z.of_nat n)) /\
  data b = (if columnless_rows_kept then repeat [] n else []) /\
  (columnless_rows_kept = false -> (0 < n)%nat ->
   List.length (data b) = 0%nat /\
   record_count b <> Some (PInt (Z.of_nat (List.length (data b))))) /\
  (columnless_rows_kept = true ->
   record_count b = Some (PInt (Z.of_nat (List.length (data b))))).
Proof.
  intros Hret Hraw.
  destruct (returned_from_raw w b Hret) as (raw & source_name & Ht).
  destruct (transform_raw_counts w raw source_name b Ht) as (Heq & _ & _).
  rewrite Heq in Hraw.
  assert (Hboth : record_count b = Some (PInt (Z.of_nat n)) /\
                  data b = (if columnless_rows_kept then repeat [] n else [])).
  { destruct Hraw as [->|[-> ->]].
    - destruct (fieldless_rows_records w n source_name b Ht). auto.
    - destruct (empty_mapping_records w source_name b Ht). auto. }
  destruct Hboth as [Hcount Hdata]. split; [exact Hcount|]. split; [exact Hdata|].
  split.
  - intros Hkept Hn. rewrite Hkept in Hdata. rewrite Hdata, Hcount.
    split; [reflexivity|]. cbn [List.length]. intros [= Hz]. lia.
  - intros Hkept. rewrite Hkept in Hdata.
    now rewrite Hdata, repeat_length.
Qed.

Lemma fieldless_rows_lose_their_records_witness :
  record_count empty_object_batch = Some (PInt (Z.of_nat 1)) /\
  data empty_object_batch
  = (if columnless_rows_kept (Pandas := sample_pandas) then repeat [] 1 else []) /\
  (columnless_rows_kept (Pandas := sample_pandas) = false -> (0 < 1)%nat ->
   List.length (data empty_object_batch) = 0%nat /\
   record_count empty_object_batch
   <> Some (PInt (Z.of_nat (List.length (data empty_object_batch))))) /\
  (columnless_rows_kept (Pandas := sample_pandas) = true ->
   record_count empty_object_batch
   = Some (PInt (Z.of_nat (List.length (data empty_object_batch))))).
Proof.
  apply (fieldless_rows_lose_their_records (H := sample_runtime) (H0 := sample_pandas)
           (H1 := empty_object_extractor) sample_world empty_object_batch 1).
  - left. exists "https://api.example.com", "/status". vm_compute. reflexivity.
  - right. split; reflexivity.
Defined.

(** What holds on every release: for every batch returned by
    [transform_api_data], [transform_database_data] or [transform_file_data]
    whose raw payload carries a field, the number of records equals the
    [record_count] of the metadata: 1 when the payload is a single mapping,
    else its number of rows. *)
Lemma records_match_record_count `{PyRuntime} `{Pandas} `{Extractor}
  (w : World) (b : TransformedBatch) :
  returned_by_entry_point w b ->
  carries_a_field (raw_data b) = true ->
  record_count b = Some (PInt (Z.of_nat (List.length (data b)))) /\
  List.length (data b) = logical_rows (raw_data b).
Proof.
  intros Hret Hfield.
  destruct (returned_from_raw w b Hret) as (raw & source_name & Hraw).
  destruct (transform_raw_counts w raw source_name b Hraw) as (Heq & Hcount & Hlen).
  rewrite Heq in *. rewrite (Hlen Hfield). split; [exact Hcount|reflexivity].
Qed.

Lemma sample_batch_returned :
  transform_database_data (H := sample_runtime) (H0 := sample_pandas)
    (H1 := sample_extractor) sample_world "SELECT * FROM orders" "DB:orders"
  = Ok sample_batch.
Proof. vm_compute. reflexivity. Qed.

Lemma records_match_record_count_witness :
  record_count sample_batch = Some (PInt (Z.of_nat (List.length (data sample_batch)))) /\
  List.length (data sample_batch) = logical_rows (raw_data sample_batch).
Proof.
  apply (records_match_record_count (H := sample_runtime) (H0 := sample_pandas)
           (H1 := sample_extractor) sample_world sample_batch).
  - right; left. exists "SELECT * FROM orders", "DB:orders". vm_compute. reflexivity.
  - reflexivity.
Defined.

End DataLakeProofs.

(** ** The content hash *)

Module ContentHashProofs.
Import DataLake.

Lemma compare_refl (a : string) : String.compare a a = Eq.
Proof. now apply (proj2 (OrderedTypeEx.String_as_OT.cmp_eq a a)). Qed.

Lemma leb_trans (a b c : string) :
  String.leb a b = true -> String.leb b c = true -> String.leb a c = true.
Proof.
  unfold String.leb.
  destruct (String.compare a b) eqn:Hab; try discriminate;
    destruct (String.compare b c) eqn:Hbc; try discriminate; intros _ _.
  - apply OrderedTypeEx.String_as_OT.cmp_eq in Hab, Hbc. subst.
    now rewrite compare_refl.
  - apply OrderedTypeEx.String_as_OT.cmp_eq in Hab. subst. now rewrite Hbc.
  - apply OrderedTypeEx.String_as_OT.cmp_eq in Hbc. subst. now rewrite Hab.
  - apply OrderedTypeEx.String_as_OT.cmp_lt in Hab, Hbc.
    pose proof (OrderedTypeEx.String_as_OT.lt_trans _ _ _ Hab Hbc) as Hac.
    apply OrderedTypeEx.String_as_OT.cmp_lt in Hac.
    unfold OrderedTypeEx.String_as_OT.cmp in Hac. now rewrite Hac.
Qed.

Section SortByKey.
Variable A : Type.
Implicit Types (x y : string * A) (l : list (string * A)).

Lemma insert_by_key_perm (x : string * A) (l : list (string * A)) :
  Permutation (insert_by_key x l) (x :: l).
Proof.
  induction l as [|y l IH]; simpl; [apply Permutation_refl|].
  destruct (String.leb (fst x) (fst y)); [apply Permutation_refl|].
  eapply perm_trans; [apply perm_skip, IH|apply perm_swap].
Qed.

Lemma sort_by_key_perm (l : list (string * A)) : Permutation (sort_by_key l) l.
Proof.
  induction l as [|x l IH]; simpl; [constructor|].
  eapply perm_trans; [apply insert_by_key_perm|now apply perm_skip].
Qed.

Lemma insert_by_key_sorted (x : string * A) (l : list (string * A)) :
  StronglySorted key_le l -> StronglySorted key_le (insert_by_key x l).
Proof.
  induction l as [|y l IH]; simpl; intros Hs.
  - repeat constructor.
  - inversion Hs as [|? ? Hl Hy]; subst.
    destruct (String.leb (fst x) (fst y)) eqn:Hxy.
    + constructor; [exact Hs|]. constructor; [exact Hxy|].
      eapply Forall_impl; [|exact Hy].
      intros z Hz. unfold key_le in *. eapply leb_trans; eauto.
    + constructor; [now apply IH|].
      eapply Permutation_Forall; [apply Permutation_sym, insert_by_key_perm|].
      constructor; [|exact Hy].
      unfold key_le. destruct (String.leb_total (fst x) (fst y)) as [H|H]; congruence.
Qed.

Lemma sort_by_key_sorted (l : list (string * A)) : StronglySorted key_le (sort_by_key l).
Proof.
  induction l as [|x l IH]; simpl; [constructor|]. now apply insert_by_key_sorted.
Qed.

Lemma same_key_same_item (l : list (string * A)) (x y : string * A) :
  NoDup (map fst l) -> In x l -> In y l -> fst x = fst y -> x = y.
Proof.
  induction l as [|z l IH]; simpl; intros Hnd Hx Hy Hk; [contradiction|].
  inversion Hnd as [|? ? Hz Hnd']; subst.
  destruct Hx as [->|Hx], Hy as [->|Hy]; auto.
  - exfalso. apply Hz. rewrite Hk. now apply in_map.
  - exfalso. apply Hz. rewrite <- Hk. now apply in_map.
Qed.

(** A list with distinct keys has one sorted arrangement. *)
Lemma sorted_arrangement_unique (l1 l2 : list (string * A)) :
  StronglySorted key_le l1 -> StronglySorted key_le l2 ->
  Permutation l1 l2 -> NoDup (map fst l1) -> l1 = l2.
Proof.
  revert l2; induction l1 as [|x l1 IH]; intros l2 Hs1 Hs2 Hperm Hnd.
  - now apply Permutation_nil in Hperm.
  - destruct l2 as [|y l2];
      [apply Permutation_sym, Permutation_nil in Hperm; discriminate|].
    inversion Hs1 as [|? ? Hs1' Hx]; inversion Hs2 as [|? ? Hs2' Hy]; subst.
    assert (Hxy : x = y).
    { apply (same_key_same_item (x :: l1)); [exact Hnd|now left| |].
      - eapply Permutation_in; [apply Permutation_sym, Hperm|now left].
      - assert (Hle1 : key_le x y).
        { assert (Hin : In y (x :: l1))
            by (eapply Permutation_in; [apply Permutation_sym, Hperm|now left]).
          destruct Hin as [->|Hin].
          - unfold key_le. destruct (String.leb_total (fst y) (fst y)); assumption.
          - rewrite Forall_forall in Hx. now apply Hx. }
        assert (Hle2 : key_le y x).
        { assert (Hin : In x (y :: l2))
            by (eapply Permutation_in; [apply Hperm|now left]).
          destruct Hin as [->|Hin].
          - unfold key_le. destruct (String.leb_total (fst x) (fst x)); assumption.
          - rewrite Forall_forall in Hy. now apply Hy. }
        now apply String.leb_antisym. }
    subst y. f_equal. apply IH; auto.
    + now apply Permutation_cons_inv in Hperm.
    + now inversion Hnd.
Qed.

(** Sorting forgets the insertion order. *)
Lemma sort_by_key_order_independent (l1 l2 : list (string * A)) :
  NoDup (map fst l1) -> Permutation l1 l2 -> sort_by_key l1 = sort_by_key l2.
Proof.
  intros Hnd Hperm. apply sorted_arrangement_unique.
  - apply sort_by_key_sorted.
  - apply sort_by_key_sorted.
  - eapply perm_trans; [apply sort_by_key_perm|].
    eapply perm_trans; [exact Hperm|apply Permutation_sym, sort_by_key_perm].
  - eapply Permutation_NoDup; [|exact Hnd].
    apply Permutation_map, Permutation_sym, sort_by_key_perm.
Qed.

End SortByKey.

Lemma json_dumps_list `{PyRuntime} (xs : list pyval) :
  json_dumps (PList xs)
  = let* parts := sequence (map json_dumps xs) in
    Ok ("[" ++ String.concat ", " parts ++ "]")%string.
Proof. reflexivity. Qed.

Lemma json_dumps_dict `{PyRuntime} (d : list (string * pyval)) :
  json_dumps (PDict d)
  = let* parts :=
      sequence
        (map (fun kv => let* s := snd kv in Ok (json_string (fst kv) ++ ": " ++ s)%string)
             (sort_by_key (map (fun kv => (fst kv, json_dumps (snd kv))) d))) in
    Ok ("{" ++ String.concat ", " parts ++ "}")%string.
Proof. reflexivity. Qed.

(** The serialization does not see the order in which keys were inserted. *)
Lemma json_dumps_same_payload `{PyRuntime} (p : pyval) :
  forall q, unique_keys p -> same_payload p q -> json_dumps p = json_dumps q.
Proof.
  induction p as [| | | | | | |xs IHxs|d IHd] using pyval_nested_ind;
    intros q Huniq Hsame;
    try (inversion Hsame; subst; reflexivity).
  - (* lists *)
    inversion Hsame as [v Hd Hl|xs' ys Hall|]; subst; [discriminate|].
    inversion Huniq as [v Hd Hl|xs' Huxs|]; subst; [discriminate|].
    rewrite !json_dumps_list.
    assert (Hmap : map json_dumps xs = map json_dumps ys).
    { clear Hsame Huniq. induction Hall as [|x y xs ys Hxy _ IH]; [reflexivity|].
      inversion IHxs; inversion Huxs; subst. simpl. f_equal; auto. }
    now rewrite Hmap.
  - (* dictionaries *)
    inversion Hsame as [v Hd Hl| |d0 d' e Hall Hperm]; subst; [discriminate|].
    inversion Huniq as [v Hd Hl| |d0 Hnd Hud]; subst; [discriminate|].
    rewrite !json_dumps_dict.
    set (enc := fun kv : string * pyval => (fst kv, json_dumps (snd kv))).
    assert (Henc : map enc d = map enc d').
    { clear Hsame Huniq Hperm Hnd.
      induction Hall as [|x y d d' [Hk Hv] _ IH]; [reflexivity|].
      inversion IHd; inversion Hud; subst. simpl. f_equal; auto.
      unfold enc. f_equal; auto. }
    assert (Hsort : sort_by_key (map enc d) = sort_by_key (map enc e)).
    { rewrite Henc. apply sort_by_key_order_independent.
      - rewrite <- Henc, map_map. simpl. exact Hnd.
      - now apply Permutation_map. }
    now rewrite Hsort.
Qed.

Lemma same_payload_refl (p : pyval) : same_payload p p.
Proof.
  induction p as [| | | | | | |xs IHxs|d IHd] using pyval_nested_ind;
    try (apply same_scalar; reflexivity).
  - apply same_list. induction IHxs; constructor; auto.
  - apply same_dict with (d' := d); [|apply Permutation_refl].
    induction IHd; constructor; auto.
Qed.

(** C8. The content hash is a function of the payload, and two payloads with
    the same content get the same hash whatever the insertion order of their
    mapping keys: the payload is serialized with its keys sorted before it is
    hashed. The metadata generated for them, at any time and for any source,
    carry the same [data_hash]. *)
Theorem content_hash_deterministic `{PyRuntime} (p q : pyval) :
  unique_keys p ->
  same_payload p q ->
  data_hash_of p = data_hash_of p /\
  data_hash_of p = data_hash_of q /\
  forall (w w' : World) (source source' : string) (md md' : pydict),
    _generate_metadata w p source = Ok md ->
    _generate_metadata w' q source' = Ok md' ->
    dict_get md "data_hash" = dict_get md' "data_hash".
Proof.
  intros Huniq Hsame.
  assert (Hhash : data_hash_of p = data_hash_of q).
  { unfold data_hash_of. now rewrite (json_dumps_same_payload p q Huniq Hsame). }
  split; [reflexivity|]. split; [exact Hhash|].
  intros w w' source source' md md' Hmd Hmd'.
  unfold _generate_metadata in Hmd, Hmd'. rewrite <- Hhash in Hmd'.
  destruct (data_hash_of p) as [h|e]; simpl in *; [|discriminate].
  inversion Hmd; inversion Hmd'; subst. reflexivity.
Qed.

Lemma order_ab_unique_keys : unique_keys order_ab.
Proof.
  apply unique_dict.
  - repeat constructor; simpl; intuition discriminate.
  - constructor; [apply unique_scalar; reflexivity|].
    constructor; [|constructor].
    apply unique_list. constructor; [|constructor].
    apply unique_dict.
    + repeat constructor; simpl; intuition discriminate.
    + constructor; [apply unique_scalar; reflexivity|].
      constructor; [apply unique_scalar; reflexivity|constructor].
Defined.

Lemma order_ab_same_as_ba : same_payload order_ab order_ba.
Proof.
  apply same_dict with
    (d' := [ ("a", PInt 1); ("b", PList [ PDict [ ("y", PNone); ("x", PStr "u") ] ]) ]).
  - constructor; [split; [reflexivity|now apply same_scalar]|].
    constructor; [|constructor]. split; [reflexivity|].
    apply same_list. constructor; [|constructor].
    apply same_dict with (d' := [ ("x", PStr "u"); ("y", PNone) ]).
    + constructor; [split; [reflexivity|now apply same_scalar]|].
      constructor; [split; [reflexivity|now apply same_scalar]|constructor].
    + apply perm_swap.
  - apply perm_swap.
Defined.

Lemma content_hash_deterministic_witness :
  data_hash_of (H := sample_runtime) order_ab = data_hash_of (H := sample_runtime) order_ab /\
  data_hash_of (H := sample_runtime) order_ab = data_hash_of (H := sample_runtime) order_ba /\
  forall (w w' : World) (source source' : string) (md md' : pydict),
    _generate_metadata (H := sample_runtime) w order_ab source = Ok md ->
    _generate_metadata (H := sample_runtime) w' order_ba source' = Ok md' ->
    dict_get md "data_hash" = dict_get md' "data_hash".
Proof.
  apply (content_hash_deterministic (H := sample_runtime) order_ab order_ba).
  - exact order_ab_unique_keys.
  - exact order_ab_same_as_ba.
Defined.

End ContentHashProofs.

(** ** Anonymization *)

Module AnonymizationProofs.
Import Anonymization.
















Lemma patients_scalar : scalar_sensitive_cells [ "ssn"; "passport" ] patients.
Proof.
  intros col cells [<-|[<-|[]]] Hget; vm_compute in Hget.
  - inversion Hget; subst. repeat constructor.
  - discriminate.
Defined.


End AnonymizationProofs.

(** ** Schema enforcement *)

Module SchemaEnforcerProofs.
Import SchemaEnforcer.

Lemma df_has_names (df1 df2 : DataFrame) (c : string) :
  df_names df1 = df_names df2 -> df_has df1 c = df_has df2 c.
Proof. unfold df_has. now intros ->. Qed.

Lemma first_missing_names (sch : schema) (df1 df2 : DataFrame) :
  df_names df1 = df_names df2 -> first_missing sch df1 = first_missing sch df2.
Proof.
  intros Hn. unfold first_missing.
  induction sch as [|cd sch IH]; simpl; [reflexivity|].
  rewrite (df_has_names df1 df2 _ Hn). destruct (df_has df2 (fst cd)); simpl; auto.
Qed.

Lemma present_prefix_names (sch : schema) (df1 df2 : DataFrame) :
  df_names df1 = df_names df2 -> present_prefix sch df1 = present_prefix sch df2.
Proof.
  intros Hn. induction sch as [|cd sch IH]; simpl; [reflexivity|].
  rewrite (df_has_names df1 df2 _ Hn). destruct (df_has df2 (fst cd)); [now f_equal|reflexivity].
Qed.

Lemma df_get_none (df : DataFrame) (c : string) :
  df_has df c = false -> df_get df c = None.
Proof.
  intros Hhas. destruct (df_get df c) as [cells|] eqn:Hget; [|reflexivity].
  assert (df_has df c = true) by (apply df_has_get; eauto). congruence.
Qed.

(** The loop checks and coerces column by column: when it reaches the first
    missing column it has assigned every configured column before it. *)
Lemma enforce_loop_missing `{Pandas} (sch : schema) :
  forall (df : DataFrame) (done : list string) (column : string),
    first_missing sch df = Some column ->
    Forall (fun cd => coercible (snd cd)) (present_prefix sch df) ->
    outcome (enforce_loop sch df done) = Some (MissingColumn column) /\
    coerced (enforce_loop sch df done) = done ++ map fst (present_prefix sch df) /\
    df_names (frame (enforce_loop sch df done)) = df_names df.
Proof.
  induction sch as [|[col dtype] rest IH]; intros df done column Hfirst Hco.
  - discriminate.
  - unfold first_missing in Hfirst. cbn [find fst] in Hfirst.
    cbn [enforce_loop present_prefix fst] in *.
    destruct (df_has df col) eqn:Hhas; cbn [negb] in Hfirst.
    + apply df_has_get in Hhas as [cells Hget]. rewrite Hget.
      inversion Hco as [|? ? Hdt Hrest]; subst. cbn [snd] in Hdt.
      destruct (Hdt cells) as [cells' Hcells]. rewrite Hcells.
      assert (Hn : df_names (df_set df col cells') = df_names df)
        by now apply df_set_names with cells.
      destruct (IH (df_set df col cells') (done ++ [col]) column) as (Ho & Hc & Hf).
      * rewrite (first_missing_names rest _ df Hn). exact Hfirst.
      * rewrite (present_prefix_names rest _ df Hn). exact Hrest.
      * rewrite Ho, Hc, Hf, (present_prefix_names rest _ df Hn), <- app_assoc.
        repeat split; auto.
    + inversion Hfirst; subst. rewrite (df_get_none df column Hhas). cbn.
      rewrite app_nil_r. repeat split; reflexivity.
Qed.

Lemma present_prefix_incl (sch : schema) (df : DataFrame) (c : string) :
  In c (map fst (present_prefix sch df)) -> In c (map fst sch).
Proof.
  induction sch as [|cd sch IH]; cbn [present_prefix map]; [auto|].
  destruct (df_has df (fst cd)); [|contradiction].
  cbn [map]. intros [Hc|Hc]; [now left|right; auto].
Qed.

(** What the loop leaves in the frame: every configured column before the
    first missing one holds the coerced cells, every other column the cells
    it held. *)
Lemma enforce_loop_cells `{Pandas} (sch : schema) :
  forall (df : DataFrame) (done : list string),
    NoDup (map fst sch) ->
    Forall (fun cd => coercible (snd cd)) (present_prefix sch df) ->
    (forall c dtype cells,
        In (c, dtype) (present_prefix sch df) -> df_get df c = Some cells ->
        exists cells',
          coerce_column dtype cells = Ok cells' /\
          df_get (frame (enforce_loop sch df done)) c = Some cells') /\
    (forall c, ~ In c (map fst (present_prefix sch df)) ->
               df_get (frame (enforce_loop sch df done)) c = df_get df c).
Proof.
  induction sch as [|[col dtype] rest IH]; intros df done Hnd Hco.
  - split; [intros c dtype cells []|reflexivity].
  - cbn [enforce_loop present_prefix fst] in *.
    destruct (df_has df col) eqn:Hhas.
    + apply df_has_get in Hhas as [cells0 Hget]. rewrite Hget.
      inversion Hco as [|? ? Hdt Hrest]; subst. cbn [snd] in Hdt.
      destruct (Hdt cells0) as [cells0' Hcells0]. rewrite Hcells0.
      inversion Hnd as [|? ? Hfresh Hnd']; subst.
      assert (Hn : df_names (df_set df col cells0') = df_names df)
        by now apply df_set_names with cells0.
      destruct (IH (df_set df col cells0') (done ++ [col]) Hnd') as [Hin Hout];
        [now rewrite (present_prefix_names rest _ df Hn)|].
      rewrite (present_prefix_names rest _ df Hn) in Hin, Hout.
      assert (Hcol : ~ In col (map fst (present_prefix rest df)))
        by (intros Hc; apply Hfresh; now apply present_prefix_incl with df).
      split.
      * intros c dt cells [[= <- <-]|Hc] Hcells.
        -- rewrite Hget in Hcells. injection Hcells as <-.
           exists cells0'. split; [exact Hcells0|].
           rewrite (Hout col Hcol). unfold df_get, df_set. cbn [df_columns].
           apply column_get_set_new.
        -- apply (Hin c dt cells Hc).
           unfold df_get, df_set. cbn [df_columns].
           rewrite column_get_set_other; [exact Hcells|].
           intros ->. apply Hcol. apply in_map_iff. now exists (col, dt).
      * intros c Hc. cbn [map fst] in Hc.
        rewrite Hout by (intros Hin'; apply Hc; now right).
        unfold df_get, df_set. cbn [df_columns].
        apply column_get_set_other. intros ->. apply Hc. now left.
    + rewrite (df_get_none df col Hhas). cbn [frame].
      split; [intros c dt cells []|reflexivity].
Qed.

(** C3 (as amended). For every schema and every batch that lacks a
    configured column, when the type names configured before the first
    missing column are ones pandas can coerce to, schema enforcement fails
    with MissingColumn naming the first missing column; by then it has
    coerced, in place, exactly the configured columns that come before it
    (none only if the missing column is the first configured one): each of
    them holds the coerced cells in the frame, every other column holds the
    cells it held, and the set of columns of the frame is unchanged. *)
Theorem enforce_schema_missing_column `{Pandas} (sch : schema) (df : DataFrame)
  (column : string) :
  NoDup (map fst sch) ->
  first_missing sch df = Some column ->
  Forall (fun cd => coercible (snd cd)) (present_prefix sch df) ->
  _enforce_schema sch df = Raise (MissingColumn column) /\
  coerced (enforce_run sch df) = map fst (present_prefix sch df) /\
  df_names (frame (enforce_run sch df)) = df_names df /\
  (forall c dtype cells,
      In (c, dtype) (present_prefix sch df) -> df_get df c = Some cells ->
      exists cells',
        coerce_column dtype cells = Ok cells' /\
        df_get (frame (enforce_run sch df)) c = Some cells') /\
  (forall c, ~ In c (map fst (present_prefix sch df)) ->
             df_get (frame (enforce_run sch df)) c = df_get df c).
Proof.
  intros Hnd Hfirst Hco.
  destruct (enforce_loop_missing sch df [] column Hfirst Hco) as (Ho & Hc & Hf).
  destruct (enforce_loop_cells sch df [] Hnd Hco) as (Hin & Hout).
  unfold _enforce_schema, enforce_run. rewrite Ho. auto.
Qed.

(** The stage then fails as a whole: the error reaches the caller of
    [transform_api_data] and no batch is returned. *)
Lemma enforce_stage_returns_no_batch `{PyRuntime} `{Pandas} `{DataLake.Extractor}
  (sch : schema) (w : World) (base_url endpoint column : string)
  (batch : DataLake.TransformedBatch) :
  DataLake.transform_api_data w base_url endpoint = Ok batch ->
  first_missing sch (pd_DataFrame (DataLake.data batch)) = Some column ->
  Forall (fun cd => coercible (snd cd))
         (present_prefix sch (pd_DataFrame (DataLake.data batch))) ->
  transform_api_data sch w base_url endpoint = Raise (MissingColumn column).
Proof.
  intros Hbase Hfirst Hco. unfold transform_api_data. rewrite Hbase. cbn [bind].
  destruct (enforce_loop_missing sch _ [] column Hfirst Hco) as (Ho & _ & _).
  unfold _enforce_schema, enforce_run. now rewrite Ho.
Qed.

Lemma int_coercible : coercible (H := sample_pandas) "int".
Proof. intros cells. eexists. reflexivity. Defined.

Lemma enforce_schema_missing_column_witness :
  _enforce_schema (H := sample_pandas) id_created orders = Raise (MissingColumn "created") /\
  coerced (enforce_run (H := sample_pandas) id_created orders)
  = map fst (present_prefix id_created orders) /\
  df_names (frame (enforce_run (H := sample_pandas) id_created orders)) = df_names orders /\
  (forall c dtype cells,
      In (c, dtype) (present_prefix id_created orders) -> df_get orders c = Some cells ->
      exists cells',
        coerce_column (H := sample_pandas) dtype cells = Ok cells' /\
        df_get (frame (enforce_run (H := sample_pandas) id_created orders)) c
        = Some cells') /\
  (forall c, ~ In c (map fst (present_prefix id_created orders)) ->
             df_get (frame (enforce_run (H := sample_pandas) id_created orders)) c
             = df_get orders c).
Proof.
  apply (enforce_schema_missing_column (H := sample_pandas) id_created orders "created").
  - repeat constructor; simpl; intuition discriminate.
  - reflexivity.
  - constructor; [exact int_coercible|constructor].
Defined.

(** The claim fails on the example of the specification: [id] is coerced
    before [created] is found missing. *)
Lemma enforce_schema_counterexample :
  enforce_run (H := sample_pandas) id_created orders
  = mkRun (mkDataFrame [ ("id", [ PInt 1; PInt 2 ]) ] 2)
          [ "id" ]
          (Some (MissingColumn "created")) /\
  coerced (enforce_run (H := sample_pandas) id_created orders) <> [] /\
  frame (enforce_run (H := sample_pandas) id_created orders) <> orders.
Proof.
  split; [vm_compute; reflexivity|]. split; vm_compute; discriminate.
Qed.

End SchemaEnforcerProofs.

(** ** Quality metrics *)

Module DataQualityProofs.
Import DataQuality.


Lemma df_empty_false (df : DataFrame) :
  df_empty df = false -> Nat.eqb (df_len df) 0 = false.
Proof. unfold df_empty. now intros [Hlen _]%orb_false_elim. Qed.







End DataQualityProofs.

(** ** Business rules *)

Module BusinessRulesProofs.
Import BusinessRules.

(** A currency outside the table makes the rate lookup raise, and the stage
    swallows that error: the frame comes back as it went in. *)
Lemma unknown_currency_skipped `{PyRuntime} (rules : rules_config) (df : DataFrame)
  (currency : string) :
  conversion_target rules = Some (PStr currency) ->
  rate_lookup rates currency = None ->
  _get_exchange_rate (PStr currency) = Raise (UnsupportedCurrency currency) /\
  _apply_business_rules rules df = Ok df.
Proof.
  intros Htarget Hrate. split.
  - unfold _get_exchange_rate. now rewrite Hrate.
  - unfold _apply_business_rules. rewrite Htarget.
    destruct (df_get df "price") as [price|]; [|reflexivity].
    unfold _get_exchange_rate. rewrite Hrate. reflexivity.
Qed.

(** C6 (as amended). With the fixed rate table (EUR = 0.85) the
    business-rules stage applied to a batch with price = 100 and
    convert_currency = "EUR" adds a price_usd column equal to 85.0. For a
    currency code outside the table the rate lookup fails with
    UnsupportedCurrency, but the stage catches that error: it returns the
    batch unchanged, the price column as it was and no price_usd column
    added. *)
Theorem business_rules_conversion `{PyRuntime} (rules : rules_config) (df : DataFrame)
  (currency : string) :
  conversion_target rules = Some (PStr currency) ->
  rate_lookup rates currency = None ->
  _apply_business_rules (convert_to "EUR") priced
  = Ok (mkDataFrame [ ("price", [ PInt 100 ]); ("price_usd", [ PFloat 85.0 ]) ] 1) /\
  _get_exchange_rate (PStr currency) = Raise (UnsupportedCurrency currency) /\
  _apply_business_rules rules df = Ok df.
Proof.
  intros Htarget Hrate. split; [reflexivity|].
  now apply unknown_currency_skipped.
Qed.

Lemma business_rules_conversion_witness :
  _apply_business_rules (H := sample_runtime) (convert_to "EUR") priced
  = Ok (mkDataFrame [ ("price", [ PInt 100 ]); ("price_usd", [ PFloat 85.0 ]) ] 1) /\
  _get_exchange_rate (H := sample_runtime) (PStr "XXX") = Raise (UnsupportedCurrency "XXX") /\
  _apply_business_rules (H := sample_runtime) (convert_to "XXX") priced = Ok priced.
Proof.
  apply (business_rules_conversion (H := sample_runtime) (convert_to "XXX") priced "XXX").
  - reflexivity.
  - reflexivity.
Defined.

(** The claim fails: with the code "XXX" the stage does not fail. *)
Lemma business_rules_counterexample :
  _apply_business_rules (H := sample_runtime) (convert_to "XXX") priced = Ok priced /\
  _apply_business_rules (H := sample_runtime) (convert_to "XXX") priced
  <> Raise (UnsupportedCurrency "XXX").
Proof. split; [reflexivity|discriminate]. Qed.

End BusinessRulesProofs.

(** ** Saving *)

Module SaveProofs.

(** [save_to_raw_zone] writes nothing for a format it does not know. *)
Lemma save_to_raw_zone_unsupported (w : World) (fs : storage)
  (batch : DataLake.TransformedBatch) (storage_path format : string) :
  supported format = false ->
  snd (DataLake.save_to_raw_zone w fs batch storage_path format) = fs /\
  is_ok (fst (DataLake.save_to_raw_zone w fs batch storage_path format)) = false /\
  (forall s, dict_get (DataLake.metadata batch) "source_system" = Some (PStr s) ->
             fst (DataLake.save_to_raw_zone w fs batch storage_path format)
             = Raise (UnsupportedFormat format)).
Proof.
  unfold supported. intros Hfmt.
  apply orb_false_elim in Hfmt as [Hfmt Hcsv].
  apply orb_false_elim in Hfmt as [Hpq Hjs].
  unfold DataLake.save_to_raw_zone.
  destruct (DataLake.source_name_clean (DataLake.metadata batch)) as [name|e] eqn:Hname.
  - rewrite Hpq, Hjs, Hcsv. repeat split; auto.
  - repeat split; auto. intros s Hs.
    unfold DataLake.source_name_clean in Hname. rewrite Hs in Hname. discriminate.
Qed.

(** Neither does [_save_non_partitioned]: it raises UnsupportedFormat before
    any write. The caller of [save_to_data_lake] sees the [AttributeError] of
    the missing logger in its place, and the storage as it was. *)
Lemma save_non_partitioned_unsupported `{PyRuntime} (w : World) (fs : storage)
  (batch : UniversalDataTransformer.SourcedBatch) (df : DataFrame)
  (storage_path name format timestamp : string)
  (partition_cols : option (list string)) :
  supported format = false ->
  partition_cols = None \/ partition_cols = Some [] ->
  UniversalDataTransformer._save_non_partitioned fs df storage_path name format timestamp
  = (Raise (UnsupportedFormat format), fs) /\
  UniversalDataTransformer.save_to_data_lake w fs batch storage_path format partition_cols
  = (Raise UniversalDataTransformer.no_logger, fs).
Proof.
  unfold supported. intros Hfmt Hcols.
  apply orb_false_elim in Hfmt as [Hfmt Hcsv].
  apply orb_false_elim in Hfmt as [Hpq Hjs].
  unfold UniversalDataTransformer.save_to_data_lake,
    UniversalDataTransformer._save_non_partitioned.
  destruct Hcols as [-> | ->]; rewrite Hpq, Hjs, Hcsv; split; reflexivity.
Qed.

(** C4. [_save_partitioned] never looks at the format. Whatever the format,
    known or not, the frame of the sample batch partitioned by [org] is
    written with [to_parquet] under the name [data.format] and the path is
    returned; [save_to_data_lake] then writes the metadata file and, its two
    files written, raises the [AttributeError] of the missing logger. With
    the unknown format "xml" the call neither fails with UnsupportedFormat nor
    leaves the storage as it was. *)
Theorem save_partitioned_ignores_format (format : string) :
  UniversalDataTransformer._save_partitioned (H := sample_runtime) []
    (pd_DataFrame (UniversalDataTransformer.data org_batch))
    "/lake" "orders_db" format [ "org" ] "20250426_065100"
  = (Ok ("/lake/orders_db/org=A/data." ++ format)%string,
     [ (("/lake/orders_db/org=A/data." ++ format)%string,
        ParquetFile (mkDataFrame [ ("amount", [ PInt 10; PInt 20 ]) ] 2)) ]) /\
  supported "xml" = false /\
  UniversalDataTransformer.save_to_data_lake (H := sample_runtime) sample_world []
    org_batch "/lake" "xml" (Some [ "org" ])
  = (Raise UniversalDataTransformer.no_logger,
     [ ("/lake/orders_db/org=A/data.xml",
        ParquetFile (mkDataFrame [ ("amount", [ PInt 10; PInt 20 ]) ] 2));
       ("/lake/orders_db/org=A/metadata.json",
        MetadataFile [ ("source_type", PStr "database"); ("record_count", PInt 2) ]) ]).
Proof.
  split; [reflexivity|]. split; vm_compute; reflexivity.
Qed.

End SaveProofs.

(** ** Strings *)

Lemma filter_string_app (f : ascii -> bool) (a b : string) :
  filter_string f (a ++ b) = (filter_string f a ++ filter_string f b)%string.
Proof.
  induction a as [|c a IH]; simpl; [reflexivity|].
  destruct (f c); simpl; now rewrite IH.
Qed.

Lemma filter_string_idem (f : ascii -> bool) (s : string) :
  filter_string f (filter_string f s) = filter_string f s.
Proof.
  induction s as [|c s IH]; simpl; [reflexivity|].
  destruct (f c) eqn:Hc; simpl; [rewrite Hc; now f_equal|exact IH].
Qed.

Lemma substring_drop (n : nat) (s : string) :
  (substring 0 n s ++ drop n s)%string = s.
Proof.
  revert s; induction n as [|n IH]; intros s.
  - destruct s; reflexivity.
  - destruct s as [|c s]; simpl; [reflexivity|]. now rewrite IH.
Qed.

Lemma substring_from (n m : nat) (s : string) :
  substring n m s = substring 0 m (drop n s).
Proof.
  revert s; induction n as [|n IH]; intros s; [reflexivity|].
  destruct s as [|c s]; simpl; [destruct m; reflexivity|apply IH].
Qed.

Lemma drop_drop (n m : nat) (s : string) : drop m (drop n s) = drop (n + m) s.
Proof.
  revert s; induction n as [|n IH]; intros s; [reflexivity|].
  destruct s as [|c s]; simpl; [destruct m; reflexivity|apply IH].
Qed.

(** Cutting a string in three at [n] and [n + m] loses nothing. *)
Lemma three_pieces (n m : nat) (s : string) :
  (substring 0 n s ++ substring n m s ++ drop (n + m) s)%string = s.
Proof.
  rewrite (substring_from n m s), <- (drop_drop n m s).
  rewrite (substring_drop m (drop n s)). apply substring_drop.
Qed.

Lemma string_forall_app (p : ascii -> bool) (a b : string) :
  string_forall p (a ++ b) = (string_forall p a && string_forall p b)%bool.
Proof.
  induction a as [|c a IH]; simpl; [reflexivity|]. now rewrite IH, andb_assoc.
Qed.

Lemma string_forall_of_list (p : ascii -> bool) (l : list ascii) :
  string_forall p (string_of_list_ascii l) = forallb p l.
Proof. induction l as [|c l IH]; simpl; [reflexivity|]. now rewrite IH. Qed.

Lemma forallb_list_of_string (p : ascii -> bool) (s : string) :
  forallb p (list_ascii_of_string s) = string_forall p s.
Proof. induction s as [|c s IH]; simpl; [reflexivity|]. now rewrite IH. Qed.

Lemma string_forall_rev (p : ascii -> bool) (s : string) :
  string_forall p (rev_string s) = string_forall p s.
Proof.
  unfold rev_string. rewrite string_forall_of_list, <- forallb_list_of_string.
  generalize (list_ascii_of_string s) as l. intros l.
  induction l as [|c l IH]; simpl; [reflexivity|].
  rewrite forallb_app, IH. simpl. rewrite andb_true_r. apply andb_comm.
Qed.

Lemma string_forall_lstrip (p : ascii -> bool) (s : string) :
  string_forall p s = true -> string_forall p (lstrip s) = true.
Proof.
  induction s as [|c s IH]; simpl; [auto|].
  intros [Hc Hs]%andb_prop. destruct (isspace_char c); [auto|].
  simpl. now rewrite Hc, Hs.
Qed.

Lemma string_forall_strip (p : ascii -> bool) (s : string) :
  string_forall p s = true -> string_forall p (strip s) = true.
Proof.
  intros Hs. unfold strip, rstrip.
  rewrite string_forall_rev. apply string_forall_lstrip.
  rewrite string_forall_rev. now apply string_forall_lstrip.
Qed.

Lemma string_forall_substring (p : ascii -> bool) (n m : nat) (s : string) :
  string_forall p s = true -> string_forall p (substring n m s) = true.
Proof.
  revert n m; induction s as [|c s IH]; intros n m Hs.
  - destruct n, m; reflexivity.
  - simpl in Hs. apply andb_prop in Hs as [Hc Hs].
    destruct n as [|n]; destruct m as [|m]; simpl; auto.
    rewrite Hc. simpl. now apply IH.
Qed.

Lemma string_forall_map (p : ascii -> bool) (f : ascii -> ascii) (s : string) :
  (forall c, p (f c) = true) -> string_forall p (map_string f s) = true.
Proof.
  intros Hf. induction s as [|c s IH]; simpl; [reflexivity|]. now rewrite Hf, IH.
Qed.

Lemma length_substring_le (n m : nat) (s : string) :
  (String.length (substring n m s) <= m)%nat.
Proof.
  revert n m; induction s as [|c s IH]; intros n m.
  - destruct n, m; simpl; lia.
  - destruct n as [|n]; destruct m as [|m]; simpl; try lia.
    + specialize (IH 0%nat m). lia.
    + apply IH.
    + apply IH.
Qed.

(** Facts about single characters, by enumeration of the 256 of them. *)
Lemma upper_char_not_lower (c : ascii) : negb (islower_char (upper_char c)) = true.
Proof.
  destruct c as [[] [] [] [] [] [] [] []]; vm_compute; reflexivity.
Qed.

Lemma lower_char_not_upper (c : ascii) : negb (isupper_char (lower_char c)) = true.
Proof.
  destruct c as [[] [] [] [] [] [] [] []]; vm_compute; reflexivity.
Qed.

Lemma lower_upper_char (c : ascii) : lower_char (upper_char c) = lower_char c.
Proof.
  destruct c as [[] [] [] [] [] [] [] []]; vm_compute; reflexivity.
Qed.

Lemma clean_char_idem (c : ascii) :
  (let clean := fun c => if isalnum_char c then c else "_"%char in
   clean (clean c) = clean c /\ (isalnum_char (clean c) || Ascii.eqb (clean c) "_")%bool = true).
Proof.
  destruct c as [[] [] [] [] [] [] [] []]; vm_compute; split; reflexivity.
Qed.

(** ** More on the batch normalizer *)

Module CandidateDataServiceExtra.
Import CandidateDataService.

Lemma filter_string_nonempty (f : ascii -> bool) (s : string) :
  filter_string f s <> "" -> s <> "".
Proof. intros Hf ->. now apply Hf. Qed.

(** The three layouts of [_format_phone] keep the digits they are given. *)
Lemma layout_keeps_digits (a b : nat) (d : string) :
  filter_string isdigit_char d = d ->
  filter_string isdigit_char
    ("(" ++ substring 0 a d ++ ") " ++ substring a b d ++ "-" ++ drop (a + b) d) = d.
Proof.
  intros Hd.
  rewrite !filter_string_app.
  change (filter_string isdigit_char "(") with "".
  change (filter_string isdigit_char ") ") with "".
  change (filter_string isdigit_char "-") with "".
  cbn [append]. rewrite <- !filter_string_app, three_pieces. exact Hd.
Qed.

Lemma formatted_digits `{PyRuntime} (phone : pyval) :
  truthy phone = true ->
  exists s,
    _format_phone phone = PStr s /\
    filter_string isdigit_char s = filter_string isdigit_char (py_str phone).
Proof.
  intros Ht. unfold _format_phone. rewrite Ht. cbn [negb].
  set (d := filter_string isdigit_char (py_str phone)).
  assert (Hd : filter_string isdigit_char d = d) by apply filter_string_idem.
  destruct (Nat.eqb (String.length d) 11); [|destruct (Nat.eqb (String.length d) 10)].
  - eexists; split; [reflexivity|]. exact (layout_keeps_digits 2 5 d Hd).
  - eexists; split; [reflexivity|]. exact (layout_keeps_digits 2 4 d Hd).
  - eexists; split; [reflexivity|exact Hd].
Qed.

(** X1. [_format_phone] never loses or invents a digit: a phone that is not
    falsy gives a text whose digits are exactly the digits of [str(phone)],
    in the same order, whichever of the three layouts applies; with neither
    ten nor eleven digits the text is those digits and nothing else. *)
Theorem _format_phone_keeps_digits `{PyRuntime} (phone : pyval) :
  truthy phone = true ->
  exists s,
    _format_phone phone = PStr s /\
    filter_string isdigit_char s = filter_string isdigit_char (py_str phone) /\
    (String.length (filter_string isdigit_char (py_str phone)) <> 11%nat ->
     String.length (filter_string isdigit_char (py_str phone)) <> 10%nat ->
     s = filter_string isdigit_char (py_str phone)).
Proof.
  intros Ht. unfold _format_phone. rewrite Ht. cbn [negb].
  set (d := filter_string isdigit_char (py_str phone)).
  assert (Hd : filter_string isdigit_char d = d) by apply filter_string_idem.
  destruct (Nat.eqb_spec (String.length d) 11) as [H11|H11];
    [|destruct (Nat.eqb_spec (String.length d) 10) as [H10|H10]].
  - eexists; split; [reflexivity|]. split; [|contradiction].
    exact (layout_keeps_digits 2 5 d Hd).
  - eexists; split; [reflexivity|]. split; [|contradiction].
    exact (layout_keeps_digits 2 4 d Hd).
  - eexists; split; [reflexivity|]. split; [exact Hd|reflexivity].
Qed.

Lemma _format_phone_keeps_digits_witness :
  exists s,
    _format_phone (H := sample_runtime) (PStr "+55 (11) 98765-4321") = PStr s /\
    filter_string isdigit_char s
    = filter_string isdigit_char (py_str (H := sample_runtime) (PStr "+55 (11) 98765-4321")) /\
    (String.length
       (filter_string isdigit_char
          (py_str (H := sample_runtime) (PStr "+55 (11) 98765-4321"))) <> 11%nat ->
     String.length
       (filter_string isdigit_char
          (py_str (H := sample_runtime) (PStr "+55 (11) 98765-4321"))) <> 10%nat ->
     s = filter_string isdigit_char
           (py_str (H := sample_runtime) (PStr "+55 (11) 98765-4321"))).
Proof.
  apply (_format_phone_keeps_digits (H := sample_runtime) (PStr "+55 (11) 98765-4321")).
  reflexivity.
Defined.

(** X2. Formatting a phone that has at least one digit a second time changes
    nothing. *)
Theorem _format_phone_idempotent `{PyRuntime} (phone : pyval) :
  filter_string isdigit_char (py_str phone) <> "" ->
  _format_phone (_format_phone phone) = _format_phone phone.
Proof.
  intros Hdigits. destruct (truthy phone) eqn:Ht.
  - destruct (formatted_digits phone Ht) as (s & Hs & Hfilter).
    rewrite Hs. rewrite <- Hfilter in Hdigits.
    assert (Hne : s <> "") by now apply filter_string_nonempty in Hdigits.
    revert Hs. unfold _format_phone. rewrite Ht. cbn [negb truthy py_str].
    destruct (String.eqb_spec s "") as [->|_]; [contradiction|]. cbn [negb].
    rewrite Hfilter. auto.
  - assert (Hnone : _format_phone phone = PNone)
      by (unfold _format_phone; now rewrite Ht).
    rewrite Hnone. reflexivity.
Qed.

Lemma _format_phone_idempotent_witness :
  _format_phone (H := sample_runtime) (_format_phone (H := sample_runtime) (PStr "11 8765 4321"))
  = _format_phone (H := sample_runtime) (PStr "11 8765 4321").
Proof.
  apply (_format_phone_idempotent (H := sample_runtime) (PStr "11 8765 4321")).
  vm_compute. discriminate.
Defined.

(** X3. A state that is not falsy is normalized to a text of at most two
    characters, none of them a lowercase letter. *)
Theorem _normalize_state_shape `{PyRuntime} (state : pyval) :
  truthy state = true ->
  exists s,
    _normalize_state state = PStr s /\
    (String.length s <= 2)%nat /\
    string_forall (fun c => negb (islower_char c)) s = true.
Proof.
  intros Ht. unfold _normalize_state. rewrite Ht. cbn [negb].
  eexists; split; [reflexivity|]. split; [apply length_substring_le|].
  apply string_forall_substring, string_forall_strip, string_forall_map.
  apply upper_char_not_lower.
Qed.

Lemma _normalize_state_shape_witness :
  exists s,
    _normalize_state (H := sample_runtime) (PStr " sao paulo ") = PStr s /\
    (String.length s <= 2)%nat /\
    string_forall (fun c => negb (islower_char c)) s = true.
Proof.
  apply (_normalize_state_shape (H := sample_runtime) (PStr " sao paulo ")). reflexivity.
Defined.

Lemma upper_empty (s : string) : String.eqb (upper s) "" = String.eqb s "".
Proof. destruct s; reflexivity. Qed.

Lemma lower_upper (s : string) : lower (upper s) = lower s.
Proof.
  unfold lower, upper. induction s as [|c s IH]; simpl; [reflexivity|].
  now rewrite lower_upper_char, IH.
Qed.

Lemma lower_keeps_ascii (s : string) :
  string_forall (in_range 0 127) s = true ->
  string_forall (in_range 0 127) (map_string lower_char s) = true.
Proof.
  induction s as [|c s IH]; [reflexivity|].
  cbn [string_forall map_string]. intros [Hc Hs]%andb_prop.
  rewrite (IH Hs), andb_true_r.
  unfold lower_char. destruct (isupper_char c) eqn:Hup; [|exact Hc].
  unfold isupper_char, in_range, code in *.
  apply andb_prop in Hup as [Hlo Hhi]. apply N.leb_le in Hlo, Hhi.
  rewrite N_ascii_embedding by lia.
  apply andb_true_intro. split; apply N.leb_le; lia.
Qed.

(** X4. On ASCII addresses email normalization does not see letter case:
    the uppercased address normalizes to the same value, and a normalized
    address holds no uppercase letter. *)
Theorem _normalize_email_ignores_case (s : string) :
  ascii_text s = true ->
  _normalize_email (PStr (upper s)) = _normalize_email (PStr s) /\
  forall t, _normalize_email (PStr s) = Ok (PStr t) ->
            ascii_text t = true /\
            string_forall (fun c => negb (isupper_char c)) t = true.
Proof.
  intros Hascii.
  unfold _normalize_email. cbn [truthy]. rewrite upper_empty, lower_upper. split.
  - reflexivity.
  - intros t. destruct (negb (negb (String.eqb s ""))); intros [= <-]. split.
    + apply string_forall_strip. unfold ascii_text, lower.
      apply lower_keeps_ascii, Hascii.
    + apply string_forall_strip, string_forall_map, lower_char_not_upper.
Qed.

Lemma _normalize_email_ignores_case_witness :
  _normalize_email (PStr (upper " Ann.Lee@Example.COM "))
  = _normalize_email (PStr " Ann.Lee@Example.COM ") /\
  forall t, _normalize_email (PStr " Ann.Lee@Example.COM ") = Ok (PStr t) ->
            ascii_text t = true /\
            string_forall (fun c => negb (isupper_char c)) t = true.
Proof.
  apply (_normalize_email_ignores_case " Ann.Lee@Example.COM "). reflexivity.
Defined.

Lemma dict_get_In (d : pydict) (k : string) (v : pyval) :
  dict_get d k = Some v -> In (k, v) d.
Proof.
  induction d as [|[k' v'] d IH]; simpl; [discriminate|].
  destruct (String.eqb_spec k' k) as [->|_].
  - intros [= ->]. now left.
  - intros Hget. right. auto.
Qed.

Lemma all_text_get (c : pydict) (k : string) :
  all_text c -> get c k = PNone \/ exists s, get c k = PStr s.
Proof.
  intros Htext. unfold get. destruct (dict_get c k) as [v|] eqn:Hget; [|now left].
  apply dict_get_In in Hget. unfold all_text in Htext. rewrite Forall_forall in Htext.
  specialize (Htext _ Hget). destruct v; try discriminate. right. eauto.
Qed.

Lemma all_text_stripped (c : pydict) (k : string) :
  all_text c -> exists s, stripped c k = Ok s.
Proof.
  intros Htext. unfold stripped. destruct (dict_get c k) as [v|] eqn:Hget; [|eauto].
  apply dict_get_In in Hget. unfold all_text in Htext. rewrite Forall_forall in Htext.
  specialize (Htext _ Hget). destruct v; try discriminate. eauto.
Qed.

Lemma all_text_email (c : pydict) :
  all_text c -> exists v, _normalize_email (get c "email") = Ok v.
Proof.
  intros Htext. destruct (all_text_get c "email" Htext) as [->|[s ->]]; [now eexists|].
  unfold _normalize_email. destruct (negb (truthy (PStr s))); eauto.
Qed.

Lemma all_text_date `{PyRuntime} (c : pydict) (k : string) :
  all_text c -> exists v, _parse_date (get c k) = Ok v.
Proof.
  intros Htext. destruct (all_text_get c k Htext) as [->|[s ->]]; [now eexists|].
  unfold _parse_date. destruct (negb (truthy (PStr s))); [eauto|].
  destruct (fromisoformat_isoformat _); eauto.
Qed.

(** What [_process_candidate] returns is the dictionary literal, once the
    checks have passed. *)
Lemma _process_candidate_ok `{PyRuntime} (now : string) (c p : pydict) :
  _process_candidate now c = Ok p ->
  exists first last email created updated,
    p = [ ("id", _get_clean_value c "id");
          ("cpf", _get_clean_value c "cpf");
          ("firstName", _get_clean_value c "firstName");
          ("lastName", _get_clean_value c "lastName");
          ("fullName", PStr (strip (first ++ " " ++ last)));
          ("email", email);
          ("telephone", _format_phone (get c "telephone"));
          ("city", _get_clean_value c "city");
          ("state", _normalize_state (get c "state"));
          ("country", _normalize_country (get c "country"));
          ("createdAt", created);
          ("updatedAt", updated);
          ("processedAt", PStr now);
          ("_originalData",
           PDict (filter (fun kv => negb (existsb (String.eqb (fst kv)) known_fields)) c)) ] /\
    check_required p required_fields = Ok tt.
Proof.
  unfold _process_candidate. intros Hrun.
  apply bind_ok in Hrun as (first & _ & Hrun).
  apply bind_ok in Hrun as (last & _ & Hrun).
  apply bind_ok in Hrun as (email & _ & Hrun).
  apply bind_ok in Hrun as (created & _ & Hrun).
  apply bind_ok in Hrun as (updated & _ & Hrun).
  apply bind_ok in Hrun as ([] & Hcheck & Hrun).
  inversion Hrun; subst; clear Hrun.
  exists first, last, email, created, updated. split; [reflexivity|exact Hcheck].
Qed.

Lemma check_required_ok (p : pydict) (fields : list string) :
  check_required p fields = Ok tt ->
  Forall (fun field => truthy (get p field) = true) fields.
Proof.
  induction fields as [|f fields IH]; simpl; intros Hcheck; [constructor|].
  destruct (truthy (get p f)) eqn:Ht; simpl in Hcheck; [|discriminate].
  constructor; auto.
Qed.

(** X5. A normalized candidate has the fourteen keys of the output layout, in
    order; its four required fields hold the cleaned input values and none of
    them is empty; [processedAt] is the clock reading. *)
Theorem _process_candidate_postcondition `{PyRuntime} (now : string) (c p : pydict) :
  _process_candidate now c = Ok p ->
  keys p = normalized_keys /\
  Forall (fun field => get p field = _get_clean_value c field /\
                        truthy (get p field) = true) required_fields /\
  get p "processedAt" = PStr now.
Proof.
  intros Hrun.
  destruct (_process_candidate_ok now c p Hrun)
    as (first & last & email & created & updated & Hp & Hcheck).
  apply check_required_ok in Hcheck.
  split; [subst p; reflexivity|]. split; [|subst p; reflexivity].
  unfold required_fields in *.
  repeat match goal with
         | H : Forall _ (_ :: _) |- _ => inversion H; subst; clear H
         end.
  repeat (constructor; [split; [reflexivity|assumption]|]). constructor.
Qed.

Lemma _process_candidate_postcondition_witness :
  exists p,
    _process_candidate (H := sample_runtime) "2025-04-26T06:51:00" ann = Ok p /\
    keys p = normalized_keys /\
    Forall (fun field => get p field = _get_clean_value ann field /\
                          truthy (get p field) = true) required_fields /\
    get p "processedAt" = PStr "2025-04-26T06:51:00".
Proof.
  eexists. split; [vm_compute; reflexivity|].
  apply (_process_candidate_postcondition (H := sample_runtime) "2025-04-26T06:51:00" ann).
  vm_compute. reflexivity.
Defined.

(** X6. For a candidate whose values are all text the helpers cannot raise:
    normalization either succeeds or fails with "Missing required field",
    naming the first of id, firstName, lastName, cpf that is absent, empty or
    blank. *)
Theorem _process_candidate_on_text `{PyRuntime} (now : string) (c : pydict) :
  all_text c ->
  match first_missing_required c with
  | Some field =>
      _process_candidate now c = Raise (ValueError ("Missing required field: " ++ field))
  | None => exists p, _process_candidate now c = Ok p
  end.
Proof.
  intros Htext.
  destruct (all_text_stripped c "firstName" Htext) as [first Hfirst].
  destruct (all_text_stripped c "lastName" Htext) as [last Hlast].
  destruct (all_text_email c Htext) as [email Hemail].
  destruct (all_text_date c "createdAt" Htext) as [created Hcreated].
  destruct (all_text_date c "updatedAt" Htext) as [updated Hupdated].
  unfold _process_candidate, first_missing_required, required_fields.
  rewrite Hfirst, Hlast, Hemail, Hcreated, Hupdated. cbn [bind find].
  remember (_get_clean_value c "id") as vid.
  remember (_get_clean_value c "firstName") as vfirst.
  remember (_get_clean_value c "lastName") as vlast.
  remember (_get_clean_value c "cpf") as vcpf.
  cbn [check_required get dict_get String.eqb Ascii.eqb Bool.eqb].
  destruct (truthy vid); cbn [negb bind]; [|reflexivity].
  destruct (truthy vfirst); cbn [negb bind]; [|reflexivity].
  destruct (truthy vlast); cbn [negb bind]; [|reflexivity].
  destruct (truthy vcpf); cbn [negb bind]; [|reflexivity].
  eexists. reflexivity.
Qed.

(** A first name made of blanks only counts as missing. *)
Lemma _process_candidate_on_text_witness :
  _process_candidate (H := sample_runtime) "2025-04-26T06:51:00"
    [ ("id", PStr "7"); ("firstName", PStr "   "); ("lastName", PStr "Lee") ]
  = Raise (ValueError "Missing required field: firstName").
Proof.
  apply (_process_candidate_on_text (H := sample_runtime) "2025-04-26T06:51:00"
           [ ("id", PStr "7"); ("firstName", PStr "   "); ("lastName", PStr "Lee") ]).
  repeat constructor.
Defined.

(** X7. Every element [_process_batch] produces is of exactly one kind: a
    normalized record (it has [processedAt] and no [error]) or a failure
    marker (it has [error] and no [processedAt]) that carries the id and the
    untouched original of the input record. *)
Theorem process_one_classified `{PyRuntime} (w : World) (ic : nat * pydict) :
  (is_normalized (process_one w ic) = true /\
   is_failure_marker (process_one w ic) = false) \/
  (is_failure_marker (process_one w ic) = true /\
   is_normalized (process_one w ic) = false /\
   exists d,
     process_one w ic = PDict d /\
     dict_get d "id" = Some (get (snd ic) "id") /\
     dict_get d "originalData" = Some (PDict (snd ic))).
Proof.
  unfold process_one.
  destruct (_process_candidate (now_isoformat w (fst ic)) (snd ic)) as [p|e] eqn:Hrun.
  - left. destruct (_process_candidate_ok _ _ _ Hrun) as (? & ? & ? & ? & ? & -> & _).
    split; reflexivity.
  - right. split; [reflexivity|]. split; [reflexivity|].
    eexists. split; [reflexivity|]. split; reflexivity.
Qed.

(** X8. No input field is lost by normalization: [_originalData] holds
    exactly the entries of the candidate whose key is not one of the eleven
    known fields. *)
Theorem _originalData_keeps_the_rest `{PyRuntime} (now : string) (c p : pydict) :
  _process_candidate now c = Ok p ->
  exists rest,
    dict_get p "_originalData" = Some (PDict rest) /\
    forall k v, In (k, v) rest <-> In (k, v) c /\ ~ In k known_fields.
Proof.
  intros Hrun.
  destruct (_process_candidate_ok _ _ _ Hrun) as (? & ? & ? & ? & ? & -> & _).
  eexists. split; [reflexivity|].
  intros k v. rewrite filter_In. cbn [fst].
  split; intros [Hin Hk]; (split; [exact Hin|]).
  - intros Hknown. apply negb_true_iff in Hk.
    assert (existsb (String.eqb k) known_fields = true); [|congruence].
    apply existsb_exists. exists k. split; [exact Hknown|apply String.eqb_refl].
  - apply negb_true_iff. destruct (existsb (String.eqb k) known_fields) eqn:Hex; [|reflexivity].
    apply existsb_exists in Hex as (k' & Hin' & Heq).
    apply String.eqb_eq in Heq. subst. contradiction.
Qed.

Lemma _originalData_keeps_the_rest_witness :
  exists rest,
    dict_get
      [ ("id", PStr "1"); ("cpf", PStr "123"); ("firstName", PStr "Ann");
        ("lastName", PStr "Lee"); ("fullName", PStr "Ann Lee"); ("email", PNone);
        ("telephone", PNone); ("city", PNone); ("state", PNone);
        ("country", PStr "Brasil"); ("createdAt", PNone); ("updatedAt", PNone);
        ("processedAt", PStr "2025-04-26T06:51:00");
        ("_originalData", PDict [ ("nickname", PStr "A") ]) ]
      "_originalData" = Some (PDict rest) /\
    forall k v, In (k, v) rest <-> In (k, v) (ann ++ [ ("nickname", PStr "A") ]) /\
                                   ~ In k known_fields.
Proof.
  apply (_originalData_keeps_the_rest (H := sample_runtime) "2025-04-26T06:51:00"
           (ann ++ [ ("nickname", PStr "A") ])).
  vm_compute. reflexivity.
Defined.

Lemma chunks_from_sizes {A : Type} (fuel size : nat) (l : list A) :
  (0 < size)%nat ->
  Forall (fun b => b <> [] /\ (List.length b <= size)%nat) (chunks_from fuel size l).
Proof.
  intros Hsize. revert l. induction fuel as [|fuel IH]; intros l; [constructor|].
  destruct l as [|a l]; [constructor|]. cbn [chunks_from].
  constructor; [|apply IH]. split.
  - destruct size; [lia|]. discriminate.
  - rewrite length_firstn. lia.
Qed.

(** X9. For a positive batch size and worker count, the batches handed to
    the pool are the input cut into consecutive pieces: none is empty, none
    has more than [batch_size] records, and concatenated in submission order
    they are the input. *)
Theorem submitted_batches_are_bounded `{PyRuntime} (svc : service) (w : World)
  (completion : list nat) (raw : list pydict) (batch_size : Z) :
  (0 < max_workers svc)%Z -> (0 < batch_size)%Z ->
  List.concat (submitted (process_candidates svc w completion raw batch_size)) = raw /\
  Forall (fun b => b <> [] /\ (Z.of_nat (List.length b) <= batch_size)%Z)
         (submitted (process_candidates svc w completion raw batch_size)).
Proof.
  intros Hw Hb. unfold process_candidates.
  destruct raw as [|c raw]; [split; [reflexivity|constructor]|].
  destruct (Z.leb_spec (max_workers svc) 0) as [Hle|_]; [lia|].
  destruct (Z.eqb_spec batch_size 0) as [Hz|_]; [lia|].
  cbn [submitted]. split.
  - rewrite <- concat_map.
    rewrite CandidateDataServiceProofs.concat_batches_of by exact Hb.
    apply CandidateDataServiceProofs.map_snd_indexed.
  - unfold batches_of. destruct (Z.ltb_spec batch_size 0) as [Hneg|_]; [lia|].
    rewrite Forall_map.
    eapply Forall_impl; [|apply chunks_from_sizes; lia].
    intros b [Hne Hlen]. rewrite length_map. split; [|lia].
    destruct b; [contradiction|discriminate].
Qed.

Lemma submitted_batches_are_bounded_witness :
  List.concat (submitted (process_candidates (H := sample_runtime) sample_service
                            sample_world [0; 1]%nat two_records 1)) = two_records /\
  Forall (fun b => b <> [] /\ (Z.of_nat (List.length b) <= 1)%Z)
         (submitted (process_candidates (H := sample_runtime) sample_service
                       sample_world [0; 1]%nat two_records 1)).
Proof.
  apply (submitted_batches_are_bounded (H := sample_runtime) sample_service sample_world
           [0; 1]%nat two_records 1); reflexivity.
Defined.

End CandidateDataServiceExtra.

(** ** More on the base transformer *)

Module DataLakeExtra.
Import DataLake.

(** X10. The name derived from an ASCII source descriptor is safe for a
    path: it has the length of the descriptor, holds only ASCII letters,
    digits and underscores, and cleaning it again changes nothing. *)
Theorem clean_name_is_path_safe (s : string) :
  ascii_text s = true ->
  String.length (clean_name s) = String.length s /\
  string_forall (fun c => (isalnum_char c || Ascii.eqb c "_")%bool) (clean_name s) = true /\
  ascii_text (clean_name s) = true /\
  clean_name (clean_name s) = clean_name s.
Proof.
  unfold clean_name, ascii_text. induction s as [|c s IH]; [repeat split|].
  cbn [string_forall]. intros [Hc Hs]%andb_prop.
  destruct (IH Hs) as (Hlen & Hsafe & Hascii & Hidem).
  destruct (clean_char_idem c) as [Hcc Hcs]. cbn zeta in Hcc, Hcs.
  cbn [map_string String.length string_forall].
  rewrite Hlen, Hsafe, Hascii, Hidem, Hcc, Hcs. repeat split.
  rewrite andb_true_r. destruct (isalnum_char c); [exact Hc|reflexivity].
Qed.

Lemma clean_name_is_path_safe_witness :
  String.length (clean_name "DB:orders v2") = String.length "DB:orders v2" /\
  string_forall (fun c => (isalnum_char c || Ascii.eqb c "_")%bool)
                (clean_name "DB:orders v2") = true /\
  ascii_text (clean_name "DB:orders v2") = true /\
  clean_name (clean_name "DB:orders v2") = clean_name "DB:orders v2".
Proof.
  apply (clean_name_is_path_safe "DB:orders v2"). reflexivity.
Defined.

Lemma sequence_Forall2 {A B : Type} (f : A -> result B) (l : list A) (l' : list B) :
  sequence (map f l) = Ok l' -> Forall2 (fun x y => f x = Ok y) l l'.
Proof.
  revert l'; induction l as [|x l IH]; simpl; intros l' Hseq.
  - inversion Hseq. constructor.
  - apply bind_ok in Hseq as (y & Hy & Hseq).
    apply bind_ok in Hseq as (l0 & Hl0 & Hseq).
    inversion Hseq; subst. constructor; auto.
Qed.

Lemma standardize_column_not_object `{Pandas} (cells : list pyval) :
  dtype_is_object cells = false -> standardize_column cells = Ok cells.
Proof. intros Hd. unfold standardize_column. rewrite Hd. cbn [bind]. now rewrite Hd. Qed.

(** X11. Standardizing the column types never renames, adds, drops or
    reorders a column, keeps the index, and leaves every column whose dtype
    is not [object] exactly as it was. *)
Theorem _standardize_data_types_keeps_columns `{Pandas} (df df' : DataFrame) :
  _standardize_data_types df = Ok df' ->
  df_names df' = df_names df /\
  df_len df' = df_len df /\
  forall c cells,
    In (c, cells) (df_columns df) -> dtype_is_object cells = false ->
    In (c, cells) (df_columns df').
Proof.
  unfold _standardize_data_types. intros Hstd.
  apply bind_ok in Hstd as (cols & Hcols & Hstd).
  inversion Hstd; subst; clear Hstd. unfold df_names; cbn [df_columns df_len].
  apply sequence_Forall2 in Hcols.
  split; [|split; [reflexivity|]].
  - induction Hcols as [|col col' l l' Hcol _ IH]; [reflexivity|].
    apply bind_ok in Hcol as (cells & _ & Hcol). inversion Hcol; subst.
    simpl. now f_equal.
  - intros c cells Hin Hdtype.
    induction Hcols as [|col col' l l' Hcol _ IH]; [contradiction|].
    destruct Hin as [->|Hin]; [left|right; auto].
    cbn [fst snd] in Hcol. rewrite (standardize_column_not_object cells Hdtype) in Hcol.
    now inversion Hcol.
Qed.

Lemma _standardize_data_types_keeps_columns_witness :
  df_names dated_orders_standardized = df_names dated_orders /\
  df_len dated_orders_standardized = df_len dated_orders /\
  forall c cells,
    In (c, cells) (df_columns dated_orders) ->
    dtype_is_object (Pandas := parsing_pandas) cells = false ->
    In (c, cells) (df_columns dated_orders_standardized).
Proof.
  apply (_standardize_data_types_keeps_columns (H := parsing_pandas)
           dated_orders dated_orders_standardized).
  reflexivity.
Defined.

(** X12. [save_to_raw_zone] checks before it writes, and writes the data
    before the metadata. When the source name cannot be built from the
    metadata or the format is not a supported one, it raises and the storage
    is as before. When it returns, the format is a supported one and the
    storage has gained exactly two files, in this order: the data file, at
    the returned path, holding the frame of the batch's records in the format
    asked for, then [metadata.json] in the same directory, holding the batch's
    metadata. What a write that itself fails leaves behind is not part of
    the statement. *)
Theorem save_to_raw_zone_checks_then_writes (w : World) (fs : storage)
  (batch : TransformedBatch) (storage_path format : string) :
  ((supported format = false \/ is_ok (source_name_clean (metadata batch)) = false) ->
   exists e, save_to_raw_zone w fs batch storage_path format = (Raise e, fs)) /\
  (forall output_path fs',
      save_to_raw_zone w fs batch storage_path format = (Ok output_path, fs') ->
      exists name content,
        source_name_clean (metadata batch) = Ok name /\
        supported format = true /\
        ((format = "parquet"%string /\ content = ParquetFile (pd_DataFrame (data batch))) \/
         (format = "json"%string /\ content = JsonLinesFile (pd_DataFrame (data batch))) \/
         (format = "csv"%string /\ content = CsvFile (pd_DataFrame (data batch)))) /\
        let dir := (storage_path ++ "/" ++ name ++ "/" ++ utcnow_strftime w)%string in
        output_path = (dir ++ "/data." ++ format)%string /\
        fs' = fs ++ [ (output_path, content);
                      ((dir ++ "/metadata.json")%string, MetadataFile (metadata batch)) ]).
Proof.
  unfold save_to_raw_zone, supported, write_file.
  destruct (source_name_clean (metadata batch)) as [name|e];
    [|split; [eauto|discriminate]].
  destruct (String.eqb_spec format "parquet") as [Hp|Hp];
    [|destruct (String.eqb_spec format "json") as [Hj|Hj];
      [|destruct (String.eqb_spec format "csv") as [Hc|Hc];
        [|split; [eauto|discriminate]]]];
    (split; [intros [Hf|Hn]; discriminate|]);
    intros output_path fs' [= <- <-]; eexists; eexists;
      (split; [reflexivity|]); (split; [reflexivity|]);
      (split; [eauto 6|]);
      cbn zeta; rewrite <- app_assoc; split; reflexivity.
Qed.

(** X13. The hash in the metadata of a returned batch is the hash of the raw
    payload the batch retains: provenance can be re-checked from the batch
    alone. *)
Theorem data_hash_matches_raw_data `{PyRuntime} `{Pandas} `{Extractor}
  (w : World) (b : TransformedBatch) :
  returned_by_entry_point w b ->
  exists h,
    data_hash_of (raw_data b) = Ok h /\
    dict_get (metadata b) "data_hash" = Some (PStr h).
Proof.
  intros Hret.
  assert (Hraw : exists raw source_name, transform_raw w raw source_name = Ok b).
  { destruct Hret as [(u & e & Hr)|[(q & n & Hr)|(p & t & n & Hr)]].
    - unfold transform_api_data in Hr. apply bind_ok in Hr as (raw & _ & Hr). eauto.
    - unfold transform_database_data in Hr. apply bind_ok in Hr as (raw & _ & Hr). eauto.
    - unfold transform_file_data in Hr. apply bind_ok in Hr as (raw & _ & Hr). eauto. }
  destruct Hraw as (raw & source_name & Hraw). unfold transform_raw in Hraw.
  apply bind_ok in Hraw as (df & _ & Hraw).
  apply bind_ok in Hraw as (df' & _ & Hraw).
  apply bind_ok in Hraw as (md & Hmd & Hraw).
  inversion Hraw; subst; clear Hraw. cbn [raw_data metadata].
  unfold _generate_metadata in Hmd.
  apply bind_ok in Hmd as (h & Hh & Hmd). inversion Hmd; subst.
  exists h. split; [exact Hh|reflexivity].
Qed.

Lemma data_hash_matches_raw_data_witness :
  exists h,
    data_hash_of (H := sample_runtime) (raw_data sample_batch) = Ok h /\
    dict_get (metadata sample_batch) "data_hash" = Some (PStr h).
Proof.
  apply (data_hash_matches_raw_data (H := sample_runtime) (H0 := sample_pandas)
           (H1 := sample_extractor) sample_world sample_batch).
  right; left. exists "SELECT * FROM orders", "DB:orders". vm_compute. reflexivity.
Defined.

End DataLakeExtra.

(** ** Records, frames and back *)

Module FrameRoundTrip.

Lemma add_key_fresh (seen : list string) (k : string) :
  ~ In k seen -> add_key seen k = seen ++ [k].
Proof.
  intros Hk. unfold add_key.
  destruct (existsb (String.eqb k) seen) eqn:Hex; [|reflexivity].
  apply existsb_exists in Hex as (k' & Hin & Heq).
  apply String.eqb_eq in Heq. subst. contradiction.
Qed.

Lemma add_key_seen (seen : list string) (k : string) :
  In k seen -> add_key seen k = seen.
Proof.
  intros Hk. unfold add_key.
  destruct (existsb (String.eqb k) seen) eqn:Hex; [reflexivity|].
  assert (existsb (String.eqb k) seen = true); [|congruence].
  apply existsb_exists. exists k. split; [exact Hk|apply String.eqb_refl].
Qed.

Lemma fold_add_key_fresh (ks seen : list string) :
  NoDup (seen ++ ks) -> fold_left add_key ks seen = seen ++ ks.
Proof.
  revert seen; induction ks as [|k ks IH]; simpl; intros seen Hnd.
  - now rewrite app_nil_r.
  - rewrite add_key_fresh.
    + rewrite IH; rewrite <- app_assoc; [reflexivity|exact Hnd].
    + apply NoDup_remove_2 in Hnd. intros Hin. apply Hnd, in_or_app. now left.
Qed.

Lemma fold_add_key_seen (ks seen : list string) :
  incl ks seen -> fold_left add_key ks seen = seen.
Proof.
  induction ks as [|k ks IH]; simpl; intros Hincl; [reflexivity|].
  rewrite add_key_seen by (apply Hincl; now left).
  apply IH. intros x Hx. apply Hincl. now right.
Qed.

(** The columns of a frame built from uniform records are their keys. *)
Lemma union_keys_uniform (columns : list string) (r : pydict) (rs : list pydict) :
  NoDup columns -> uniform_records columns (r :: rs) ->
  union_keys (r :: rs) = columns.
Proof.
  intros Hnd Hu. inversion Hu as [|? ? Hr Hrs]; subst.
  unfold union_keys. cbn [fold_left].
  rewrite (fold_add_key_fresh (keys r) []) by exact Hnd. cbn [app].
  clear Hu. induction Hrs as [|r' rs Hr' _ IH]; [reflexivity|].
  cbn [fold_left]. rewrite Hr', fold_add_key_seen by apply incl_refl. exact IH.
Qed.

(** Reading a record key by key gives the record back. *)
Lemma read_by_keys (r : pydict) :
  NoDup (keys r) -> map (fun c => (c, cell_of r c)) (keys r) = r.
Proof.
  induction r as [|[k v] r IH]; intros Hnd; [reflexivity|].
  inversion Hnd as [|? ? Hk Hnd']; subst.
  cbn [keys map fst]. unfold cell_of at 1. cbn [dict_get]. rewrite String.eqb_refl.
  f_equal. rewrite <- (IH Hnd') at 2. apply map_ext_in.
  intros c Hc. unfold cell_of. cbn [dict_get].
  destruct (String.eqb_spec k c) as [->|_]; [contradiction|reflexivity].
Qed.

Lemma to_dict_records_columns `{Pandas} (df : DataFrame) :
  df_columns df <> [] ->
  to_dict_records df =
  map (fun i => map (fun col => (fst col, nth i (snd col) NaN)) (df_columns df))
      (seq 0 (df_len df)).
Proof.
  unfold to_dict_records. destruct (df_columns df); [contradiction|reflexivity].
Qed.

Lemma records_frame_records_aux `{Pandas} (columns : list string) (records : list pydict) :
  columns <> [] -> NoDup columns -> uniform_records columns records ->
  to_dict_records (pd_DataFrame records) = records.
Proof.
  intros Hne Hnd Hu.
  destruct records as [|r rs];
    [unfold to_dict_records; cbn; now destruct columnless_rows_kept|].
  rewrite to_dict_records_columns
    by (unfold pd_DataFrame; cbn [df_columns];
        rewrite (union_keys_uniform columns r rs Hnd Hu);
        destruct columns; [contradiction|discriminate]).
  unfold pd_DataFrame. cbn [df_columns df_len].
  rewrite (union_keys_uniform columns r rs Hnd Hu).
  rewrite <- (CandidateDataServiceProofs.map_nth_seq (r :: rs) []) at 2.
  apply map_ext_in. intros i Hi. apply in_seq in Hi.
  rewrite map_map. cbn [fst snd].
  assert (Hrow : forall r', In r' (r :: rs) ->
             map (fun c => (c, cell_of r' c)) columns = r').
  { intros r' Hin. unfold uniform_records in Hu. rewrite Forall_forall in Hu.
    rewrite <- (Hu r' Hin). apply read_by_keys. now rewrite (Hu r' Hin). }
  rewrite <- (Hrow (nth i (r :: rs) [])) by (apply nth_In; lia).
  apply map_ext. intros c. f_equal.
  change NaN with (cell_of [] c). apply (map_nth (fun r' => cell_of r' c)).
Qed.

(** X14. Framing records and reading them back is the identity on uniform
    records: when every record has the same distinct keys in the same order,
    with values of the same types, and there is at least one key,
    [pd.DataFrame(records).to_dict('records')] returns the records, and the
    frame has these keys as columns and one index entry per record. *)
Theorem records_frame_records `{Pandas}
  (columns : list string) (types : list pytype) (records : list pydict) :
  columns <> [] -> NoDup columns -> uniform_records columns records ->
  typed_records types records ->
  to_dict_records (pd_DataFrame records) = records /\
  (records <> [] -> df_names (pd_DataFrame records) = columns) /\
  df_len (pd_DataFrame records) = List.length records.
Proof.
  intros Hne Hnd Hu _. split; [|split; [|reflexivity]].
  - now apply (records_frame_records_aux columns).
  - intros Hrec. destruct records as [|r rs]; [contradiction|].
    unfold df_names, pd_DataFrame. cbn [df_columns].
    rewrite map_map. cbn [fst]. rewrite map_id.
    now apply union_keys_uniform.
Qed.

Lemma records_frame_records_witness :
  to_dict_records (H := sample_pandas) (pd_DataFrame [ [ ("org", PStr "A"); ("amount", PInt 10) ];
                                  [ ("org", PStr "A"); ("amount", PInt 20) ] ])
  = [ [ ("org", PStr "A"); ("amount", PInt 10) ];
      [ ("org", PStr "A"); ("amount", PInt 20) ] ] /\
  ([ [ ("org", PStr "A"); ("amount", PInt 10) ];
     [ ("org", PStr "A"); ("amount", PInt 20) ] ] <> [] ->
   df_names (pd_DataFrame [ [ ("org", PStr "A"); ("amount", PInt 10) ];
                            [ ("org", PStr "A"); ("amount", PInt 20) ] ])
   = [ "org"; "amount" ]) /\
  df_len (pd_DataFrame [ [ ("org", PStr "A"); ("amount", PInt 10) ];
                         [ ("org", PStr "A"); ("amount", PInt 20) ] ]) = 2%nat.
Proof.
  apply (records_frame_records (H := sample_pandas) [ "org"; "amount" ] [ TStr; TInt ]).
  - discriminate.
  - repeat constructor; simpl; intuition discriminate.
  - repeat constructor.
  - repeat constructor.
Defined.

End FrameRoundTrip.

(** ** Database result sets *)

Module UniversalDataExtractorProofs.

Lemma keys_combine (columns : list string) (row : list pyval) :
  List.length row = List.length columns -> keys (combine columns row) = columns.
Proof.
  revert row; induction columns as [|c columns IH]; intros [|v row] Hlen;
    try discriminate; [reflexivity|].
  cbn [combine keys map fst]. f_equal. apply IH. simpl in Hlen. lia.
Qed.

(** X15. A result set with distinct column names and full-width rows is read
    into one record per row, each pairing the column names with the row's
    values in cursor order; when each column holds values of one type,
    framing these records and reading them back gives the same records. *)
Theorem from_database_rows_survive_framing `{Pandas}
  (columns : list string) (types : list pytype) (rows : list (list pyval)) :
  columns <> [] -> NoDup columns ->
  Forall (fun row => List.length row = List.length columns) rows ->
  Forall (fun row => map type_of row = types) rows ->
  UniversalDataExtractor.rows_to_records columns rows = map (combine columns) rows /\
  uniform_records columns (UniversalDataExtractor.rows_to_records columns rows) /\
  to_dict_records (pd_DataFrame (UniversalDataExtractor.rows_to_records columns rows))
  = map (combine columns) rows.
Proof.
  intros Hne Hnd Hrows _.
  assert (Heq : UniversalDataExtractor.rows_to_records columns rows
                = map (combine columns) rows).
  { unfold UniversalDataExtractor.rows_to_records. apply map_ext_in.
    intros row Hin. rewrite Forall_forall in Hrows.
    apply dict_of_items_id. now rewrite keys_combine by now apply Hrows. }
  assert (Hu : uniform_records columns (map (combine columns) rows)).
  { unfold uniform_records. apply Forall_map.
    eapply Forall_impl; [|exact Hrows]. intros row Hlen. now apply keys_combine. }
  rewrite Heq. split; [reflexivity|]. split; [exact Hu|].
  now apply (FrameRoundTrip.records_frame_records_aux columns).
Qed.

Lemma from_database_rows_survive_framing_witness :
  UniversalDataExtractor.rows_to_records [ "id"; "name" ]
    [ [ PInt 1; PStr "Ann" ]; [ PInt 2; PStr "Bob" ] ]
  = map (combine [ "id"; "name" ]) [ [ PInt 1; PStr "Ann" ]; [ PInt 2; PStr "Bob" ] ] /\
  uniform_records [ "id"; "name" ]
    (UniversalDataExtractor.rows_to_records [ "id"; "name" ]
       [ [ PInt 1; PStr "Ann" ]; [ PInt 2; PStr "Bob" ] ]) /\
  to_dict_records (H := sample_pandas)
    (pd_DataFrame
       (UniversalDataExtractor.rows_to_records [ "id"; "name" ]
          [ [ PInt 1; PStr "Ann" ]; [ PInt 2; PStr "Bob" ] ]))
  = map (combine [ "id"; "name" ]) [ [ PInt 1; PStr "Ann" ]; [ PInt 2; PStr "Bob" ] ].
Proof.
  apply (from_database_rows_survive_framing (H := sample_pandas) [ "id"; "name" ] [ TInt; TStr ]).
  - discriminate.
  - repeat constructor; simpl; intuition discriminate.
  - repeat constructor.
  - repeat constructor.
Defined.

End UniversalDataExtractorProofs.

(** ** Partitioned saves *)

Module UniversalDataTransformerProofs.
Import UniversalDataTransformer.

Lemma column_get_filter (keep : string -> bool) (cols : list (string * list pyval))
  (c : string) :
  keep c = true ->
  column_get (filter (fun col => keep (fst col)) cols) c = column_get cols c.
Proof.
  intros Hkeep. induction cols as [|[c' cells] cols IH]; [reflexivity|].
  cbn [filter fst column_get].
  destruct (String.eqb_spec c' c) as [->|Hne].
  - rewrite Hkeep. cbn [column_get]. now rewrite String.eqb_refl.
  - destruct (keep c'); [cbn [column_get]|]; [|exact IH].
    destruct (String.eqb_spec c' c) as [Heq|_]; [contradiction|exact IH].
Qed.

Lemma filter_names (keep : string -> bool) (cols : list (string * list pyval)) :
  map fst (filter (fun col => keep (fst col)) cols) = filter keep (map fst cols).
Proof.
  induction cols as [|[c cells] cols IH]; [reflexivity|].
  cbn [filter map fst]. destruct (keep c); cbn [map fst]; now rewrite IH.
Qed.

(** What [df.drop(columns=cols)] returns: every label was a column; the
    labels are gone and the other columns are as they were. *)
Lemma df_drop_ok `{PyRuntime} (df dropped : DataFrame) (cols : list string) :
  df_drop df cols = Ok dropped ->
  Forall (fun c => df_has df c = true) cols /\
  df_names dropped = filter (fun c => negb (existsb (String.eqb c) cols)) (df_names df) /\
  df_len dropped = df_len df /\
  forall c, existsb (String.eqb c) cols = false -> df_get dropped c = df_get df c.
Proof.
  unfold df_drop. destruct (missing_labels df cols) eqn:Hmissing; [|discriminate].
  intros [= <-]. split; [|split; [|split; [reflexivity|]]].
  - apply Forall_forall. intros c Hin.
    destruct (df_has df c) eqn:Hc; [reflexivity|].
    assert (Hm : In c (missing_labels df cols))
      by (apply filter_In; split; [exact Hin|now rewrite Hc]).
    rewrite Hmissing in Hm. contradiction.
  - unfold df_names. cbn [df_columns].
    apply (filter_names (fun c => negb (existsb (String.eqb c) cols))).
  - intros c Hc. unfold df_get. cbn [df_columns].
    apply (column_get_filter (fun c => negb (existsb (String.eqb c) cols))).
    now rewrite Hc.
Qed.

Lemma partition_values_length `{PyRuntime} (df : DataFrame) (cols : list string)
  (values : list string) :
  Forall (fun c => df_has df c = true) cols ->
  partition_values df cols = Ok values -> List.length values = List.length cols.
Proof.
  intros Hall. revert values.
  induction Hall as [|c cols Hc _ IH]; intros values; cbn [partition_values].
  - now intros [= <-].
  - apply df_has_get in Hc as [cells Hget]. rewrite Hget.
    destruct cells as [|first cells]; [discriminate|].
    destruct (partition_values df cols) as [more|e]; [|discriminate].
    cbn [bind]. intros [= <-]. cbn [List.length]. f_equal. now apply IH.
Qed.

(** X16. When a partitioned save returns, every partition column was a
    column of the frame and contributed one path segment; exactly one file was
    written, at the returned path under [storage_path/source_name], and it is
    a Parquet file, whatever [format] says, holding the frame without the
    partition columns: same rows, the other columns as they were. *)
Theorem _save_partitioned_writes_the_rest `{PyRuntime} (fs fs' : storage) (df : DataFrame)
  (storage_path source_name_clean format timestamp output_path : string)
  (partition_cols : list string) :
  _save_partitioned fs df storage_path source_name_clean format partition_cols timestamp
  = (Ok output_path, fs') ->
  exists (values : list string) (dropped : DataFrame),
    Forall (fun c => df_has df c = true) partition_cols /\
    List.length values = List.length partition_cols /\
    output_path = (storage_path ++ "/" ++ source_name_clean ++ "/"
                     ++ String.concat "/" values ++ "/data." ++ format)%string /\
    fs' = fs ++ [ (output_path, ParquetFile dropped) ] /\
    df_names dropped
    = filter (fun c => negb (existsb (String.eqb c) partition_cols)) (df_names df) /\
    df_len dropped = df_len df /\
    forall c, existsb (String.eqb c) partition_cols = false ->
              df_get dropped c = df_get df c.
Proof.
  unfold _save_partitioned.
  destruct (partition_values df partition_cols) as [values|e] eqn:Hvalues;
    [|discriminate].
  destruct (df_drop df partition_cols) as [dropped|e] eqn:Hdrop; [|discriminate].
  intros [= <- <-].
  destruct (df_drop_ok df dropped partition_cols Hdrop) as (Hall & Hnames & Hlen & Hget).
  exists values, dropped. repeat split; auto.
  now apply (partition_values_length df).
Qed.

Lemma _save_partitioned_writes_the_rest_witness :
  exists (values : list string) (dropped : DataFrame),
    Forall (fun c => df_has (pd_DataFrame (data org_batch)) c = true) [ "org" ] /\
    List.length values = 1%nat /\
    "/lake/orders_db/org=A/data.csv"%string
    = ("/lake" ++ "/" ++ "orders_db" ++ "/" ++ String.concat "/" values
         ++ "/data." ++ "csv")%string /\
    [ ("/lake/orders_db/org=A/data.csv",
       ParquetFile (mkDataFrame [ ("amount", [ PInt 10; PInt 20 ]) ] 2)) ]
    = [] ++ [ ("/lake/orders_db/org=A/data.csv"%string, ParquetFile dropped) ] /\
    df_names dropped
    = filter (fun c => negb (existsb (String.eqb c) [ "org" ]))
             (df_names (pd_DataFrame (data org_batch))) /\
    df_len dropped = df_len (pd_DataFrame (data org_batch)) /\
    forall c, existsb (String.eqb c) [ "org" ] = false ->
              df_get dropped c = df_get (pd_DataFrame (data org_batch)) c.
Proof.
  apply (_save_partitioned_writes_the_rest (H := sample_runtime) []
           _ (pd_DataFrame (data org_batch)) "/lake" "orders_db" "csv" "20250426_065100"
           "/lake/orders_db/org=A/data.csv" [ "org" ]).
  reflexivity.
Defined.

(** X17. A partition column that is not a column of the frame makes the
    partitioned save fail with nothing written: the path is built from the
    columns that are present, but [df.drop] then raises the [KeyError] that
    lists, in the order given, the partition columns it does not find (an
    empty partition column makes the indexing raise before that). *)
Theorem _save_partitioned_missing_column `{PyRuntime} (fs : storage) (df : DataFrame)
  (storage_path source_name_clean format timestamp column : string)
  (partition_cols : list string) :
  In column partition_cols -> df_has df column = false ->
  In column (missing_labels df partition_cols) /\
  exists e,
    _save_partitioned fs df storage_path source_name_clean format partition_cols timestamp
    = (Raise e, fs) /\
    (forall values, partition_values df partition_cols = Ok values ->
                    e = not_found_in_axis (missing_labels df partition_cols)).
Proof.
  intros Hin Hhas.
  assert (Hm : In column (missing_labels df partition_cols))
    by (apply filter_In; split; [exact Hin|now rewrite Hhas]).
  split; [exact Hm|]. unfold _save_partitioned.
  destruct (partition_values df partition_cols) as [values|e] eqn:Hvalues.
  - unfold df_drop.
    destruct (missing_labels df partition_cols) as [|m ms] eqn:Hmissing;
      [contradiction|].
    eexists. split; [reflexivity|]. reflexivity.
  - exists e. split; [reflexivity|]. discriminate.
Qed.

Lemma _save_partitioned_missing_column_witness :
  In "region"%string
     (missing_labels (pd_DataFrame (data org_batch)) [ "org"; "region" ]) /\
  exists e,
    _save_partitioned (H := sample_runtime) [] (pd_DataFrame (data org_batch))
      "/lake" "orders_db" "parquet" [ "org"; "region" ] "20250426_065100"
    = (Raise e, []) /\
    (forall values,
        partition_values (H := sample_runtime) (pd_DataFrame (data org_batch))
          [ "org"; "region" ] = Ok values ->
        e = not_found_in_axis (H := sample_runtime)
              (missing_labels (pd_DataFrame (data org_batch)) [ "org"; "region" ])).
Proof.
  apply (_save_partitioned_missing_column (H := sample_runtime) []
           (pd_DataFrame (data org_batch)) "/lake" "orders_db" "parquet"
           "20250426_065100" "region" [ "org"; "region" ]).
  - right. now left.
  - reflexivity.
Defined.

End UniversalDataTransformerProofs.

(** ** Schema enforcement on a complete frame *)

Module SchemaEnforcerExtra.
Import SchemaEnforcer.

Lemma enforce_loop_present `{Pandas} (sch : schema) :
  forall (df : DataFrame) (done : list string),
    first_missing sch df = None ->
    Forall (fun cd => coercible (snd cd)) sch ->
    outcome (enforce_loop sch df done) = None /\
    coerced (enforce_loop sch df done) = done ++ map fst sch /\
    df_names (frame (enforce_loop sch df done)) = df_names df /\
    df_len (frame (enforce_loop sch df done)) = df_len df /\
    forall c, ~ In c (map fst sch) ->
              df_get (frame (enforce_loop sch df done)) c = df_get df c.
Proof.
  induction sch as [|[col dtype] rest IH]; intros df done Hfirst Hco.
  - cbn. rewrite app_nil_r. repeat split; reflexivity.
  - unfold first_missing in Hfirst. cbn [find fst] in Hfirst.
    cbn [enforce_loop map fst].
    destruct (df_has df col) eqn:Hhas; cbn [negb] in Hfirst; [|discriminate].
    apply df_has_get in Hhas as [cells Hget]. rewrite Hget.
    inversion Hco as [|? ? Hdt Hrest]; subst. cbn [snd] in Hdt.
    destruct (Hdt cells) as [cells' Hcells]. rewrite Hcells.
    assert (Hn : df_names (df_set df col cells') = df_names df)
      by now apply df_set_names with cells.
    destruct (IH (df_set df col cells') (done ++ [col])) as (Ho & Hc & Hf & Hl & Hg).
    + rewrite (SchemaEnforcerProofs.first_missing_names rest _ df Hn). exact Hfirst.
    + exact Hrest.
    + rewrite Ho, Hc, Hf, Hl, <- app_assoc. repeat split; auto.
      intros c Hc'. rewrite Hg by (intros Hin; apply Hc'; now right).
      unfold df_get, df_set. cbn [df_columns].
      apply column_get_set_other. intros ->. apply Hc'. now left.
Qed.

Lemma present_prefix_complete (sch : schema) (df : DataFrame) :
  first_missing sch df = None -> present_prefix sch df = sch.
Proof.
  unfold first_missing.
  induction sch as [|cd sch IH]; cbn [find present_prefix]; [reflexivity|].
  destruct (df_has df (fst cd)); cbn [negb]; [|discriminate].
  intros Hfirst. f_equal. exact (IH Hfirst).
Qed.

(** X18. On a frame that has every configured column, with type names
    pandas can coerce to, schema enforcement returns: it has assigned every
    configured column, in the order of the schema, so that each of them holds
    the coerced cells, and the frame it returns has the columns and the rows
    of the frame it was given, with every column outside the schema as it
    was. *)
Theorem enforce_schema_complete_frame `{Pandas} (sch : schema) (df : DataFrame) :
  NoDup (map fst sch) ->
  first_missing sch df = None ->
  Forall (fun cd => coercible (snd cd)) sch ->
  exists df',
    _enforce_schema sch df = Ok df' /\
    coerced (enforce_run sch df) = map fst sch /\
    df_names df' = df_names df /\
    df_len df' = df_len df /\
    (forall c dtype cells,
        In (c, dtype) sch -> df_get df c = Some cells ->
        exists cells', coerce_column dtype cells = Ok cells' /\ df_get df' c = Some cells') /\
    (forall c, ~ In c (map fst sch) -> df_get df' c = df_get df c).
Proof.
  intros Hnd Hfirst Hco.
  destruct (enforce_loop_present sch df [] Hfirst Hco) as (Ho & Hc & Hf & Hl & Hg).
  assert (Hprefix := present_prefix_complete sch df Hfirst).
  destruct (SchemaEnforcerProofs.enforce_loop_cells sch df [] Hnd) as (Hin & _);
    [now rewrite Hprefix|].
  rewrite Hprefix in Hin.
  exists (frame (enforce_run sch df)).
  unfold _enforce_schema, enforce_run. rewrite Ho. auto 10.
Qed.

Lemma enforce_schema_complete_frame_witness :
  exists df',
    _enforce_schema (H := sample_pandas) [ ("id", "int") ] orders = Ok df' /\
    coerced (enforce_run (H := sample_pandas) [ ("id", "int") ] orders) = [ "id" ] /\
    df_names df' = df_names orders /\
    df_len df' = df_len orders /\
    (forall c dtype cells,
        In (c, dtype) [ ("id", "int") ] -> df_get orders c = Some cells ->
        exists cells',
          coerce_column (H := sample_pandas) dtype cells = Ok cells' /\
          df_get df' c = Some cells') /\
    (forall c, ~ In c [ "id" ] -> df_get df' c = df_get orders c).
Proof.
  apply (enforce_schema_complete_frame (H := sample_pandas) [ ("id", "int") ] orders).
  - repeat constructor. simpl. tauto.
  - reflexivity.
  - constructor; [|constructor]. intros cells. cbn [snd].
    unfold coerce_column. cbn. eauto.
Defined.

(** X19. A coercion that raises stops the loop where it is: the error
    reaches the caller as it was raised, the columns configured before it
    stay coerced in the frame, which is shared with the caller, and no later
    column is looked at. *)
Theorem enforce_schema_coercion_error `{Pandas} (before after : schema)
  (column dtype : string) (df : DataFrame) (e : pyexn) :
  first_missing before df = None ->
  Forall (fun cd => coercible (snd cd)) before ->
  (forall cells, coerce_column dtype cells = Raise e) ->
  df_has df column = true ->
  _enforce_schema (before ++ (column, dtype) :: after) df = Raise e /\
  coerced (enforce_run (before ++ (column, dtype) :: after) df) = map fst before /\
  frame (enforce_run (before ++ (column, dtype) :: after) df)
  = frame (enforce_run before df).
Proof.
  intros Hfirst Hco Hraise Hhas.
  assert (Hloop : forall sch df done,
             first_missing sch df = None ->
             Forall (fun cd => coercible (snd cd)) sch ->
             df_has df column = true ->
             enforce_loop (sch ++ (column, dtype) :: after) df done
             = mkRun (frame (enforce_loop sch df done)) (done ++ map fst sch) (Some e)).
  { clear df Hfirst Hco Hhas before.
    induction sch as [|[col dt] rest IH]; intros df done Hfirst Hco Hhas.
    - cbn [app enforce_loop map frame]. rewrite app_nil_r.
      apply df_has_get in Hhas as [cells Hget]. now rewrite Hget, Hraise.
    - unfold first_missing in Hfirst. cbn [find fst] in Hfirst.
      cbn [app enforce_loop map fst].
      destruct (df_has df col) eqn:Hcol; cbn [negb] in Hfirst; [|discriminate].
      apply df_has_get in Hcol as [cells Hget]. rewrite Hget.
      inversion Hco as [|? ? Hdt Hrest]; subst. cbn [snd] in Hdt.
      destruct (Hdt cells) as [cells' Hcells]. rewrite Hcells.
      assert (Hn : df_names (df_set df col cells') = df_names df)
        by now apply df_set_names with cells.
      rewrite IH.
      + now rewrite <- app_assoc.
      + rewrite (SchemaEnforcerProofs.first_missing_names rest _ df Hn). exact Hfirst.
      + exact Hrest.
      + now rewrite (SchemaEnforcerProofs.df_has_names _ df column Hn). }
  unfold _enforce_schema, enforce_run. rewrite (Hloop before df [] Hfirst Hco Hhas).
  cbn [outcome coerced frame app]. auto.
Qed.

Lemma enforce_schema_coercion_error_witness :
  _enforce_schema (H := sample_pandas)
    ([ ("name", "str") ] ++ ("ssn", "number") :: [ ("age", "int") ]) patients
  = Raise (TypeError "data type 'number' not understood") /\
  coerced (enforce_run (H := sample_pandas)
             ([ ("name", "str") ] ++ ("ssn", "number") :: [ ("age", "int") ]) patients)
  = map fst [ ("name", "str") ] /\
  frame (enforce_run (H := sample_pandas)
           ([ ("name", "str") ] ++ ("ssn", "number") :: [ ("age", "int") ]) patients)
  = frame (enforce_run (H := sample_pandas) [ ("name", "str") ] patients).
Proof.
  apply (enforce_schema_coercion_error (H := sample_pandas)
           [ ("name", "str") ] [ ("age", "int") ] "ssn" "number" patients).
  - reflexivity.
  - constructor; [|constructor]. intros cells. cbn [snd].
    unfold coerce_column. cbn. eauto.
  - intros cells. reflexivity.
  - reflexivity.
Defined.

End SchemaEnforcerExtra.

(** ** Business rules: what the stage leaves alone *)

Module BusinessRulesExtra.
Import BusinessRules.

Lemma mul_cell_raises (rate : float) (v : pyval) (e : pyexn) :
  mul_cell rate v = Raise e ->
  (exists msg, e = TypeError msg) \/ (exists msg, e = OverflowError msg).
Proof.
  destruct v as [|b|z|f|s|ns| |xs|d]; cbn [mul_cell]; try (intros [= <-]; eauto; fail).
  unfold int_to_float. destruct (PrimFloat.is_infinity (float_of_Z z)); cbn [bind];
    intros [= <-]; eauto.
Qed.

Lemma _get_exchange_rate_raises `{PyRuntime} (currency : pyval) (e : pyexn) :
  _get_exchange_rate currency = Raise e ->
  (exists msg, e = ValueError msg) \/ (exists msg, e = TypeError msg).
Proof.
  unfold _get_exchange_rate, UnsupportedCurrency.
  destruct currency; try (intros [= <-]; eauto; fail).
  destruct (rate_lookup rates s); intros [= <-]. eauto.
Qed.

(** X20. The business-rules stage only ever adds or replaces the column
    [price_usd]: when it returns, the frame has the rows it had and every
    other column is as it was, and either the frame is the one it was given
    or [price_usd] holds one cell per cell of [price]. The only exceptions
    it lets through are a [TypeError] (a price that cannot be multiplied, a
    currency that cannot be looked up) and the [OverflowError] of an integer
    price too large for a float; a [ValueError] never leaves it. *)
Theorem _apply_business_rules_touches_price_usd_only `{PyRuntime}
  (rules : rules_config) (df : DataFrame) :
  (forall df',
      _apply_business_rules rules df = Ok df' ->
      df_len df' = df_len df /\
      (forall c, c <> "price_usd"%string -> df_get df' c = df_get df c) /\
      (df' = df \/
       exists price cells,
         df_get df "price" = Some price /\
         df_get df' "price_usd" = Some cells /\
         List.length cells = List.length price)) /\
  (forall e,
      _apply_business_rules rules df = Raise e ->
      (exists msg, e = TypeError msg) \/ (exists msg, e = OverflowError msg)).
Proof.
  assert (Hsame : forall df', Ok df = Ok df' ->
             df_len df' = df_len df /\
             (forall c, c <> "price_usd"%string -> df_get df' c = df_get df c) /\
             (df' = df \/
              exists price cells,
                df_get df "price" = Some price /\
                df_get df' "price_usd" = Some cells /\
                List.length cells = List.length price))
    by (intros df' [= <-]; auto).
  unfold _apply_business_rules.
  destruct (df_get df "price") as [price|] eqn:Hprice;
    [|split; [exact Hsame|discriminate]].
  destruct (conversion_target rules) as [target|];
    [|split; [exact Hsame|discriminate]].
  destruct (_get_exchange_rate target) as [rate|e0] eqn:Hrate; cbn [bind].
  - destruct (sequence (map (mul_cell rate) price)) as [cells|e1] eqn:Hcells; cbn [bind].
    + split; [|discriminate]. intros df' [= <-]. split; [reflexivity|]. split.
      * intros c Hc. unfold df_get, df_set. cbn [df_columns].
        apply column_get_set_other. congruence.
      * right. exists price, cells. split; [reflexivity|]. split.
        -- unfold df_get, df_set. cbn [df_columns]. apply column_get_set_new.
        -- apply sequence_length in Hcells. now rewrite length_map in Hcells.
    + apply sequence_raise in Hcells as (x & _ & Hx).
      apply mul_cell_raises in Hx as [[msg ->]|[msg ->]];
        (split; [discriminate|]); intros e [= <-]; eauto.
  - apply _get_exchange_rate_raises in Hrate as [[msg ->]|[msg ->]].
    + split; [exact Hsame|discriminate].
    + split; [discriminate|]. intros e [= <-]. eauto.
Qed.

End BusinessRulesExtra.

(** ** Quality metrics: one score per column *)

Module DataQualityExtra.
Import DataQuality.

Lemma scores_keys (score : string * list pyval -> float)
  (cols : list (string * list pyval)) :
  NoDup (map fst cols) ->
  keys (dict_of_items (map (fun col => (fst col, PFloat (score col))) cols))
  = map fst cols /\
  Forall (fun kv => exists f, snd kv = PFloat f)
         (dict_of_items (map (fun col => (fst col, PFloat (score col))) cols)).
Proof.
  intros Hnd.
  assert (Hkeys : keys (map (fun col => (fst col, PFloat (score col))) cols)
                  = map fst cols)
    by (unfold keys; rewrite map_map; reflexivity).
  rewrite dict_of_items_id by now rewrite Hkeys.
  split; [exact Hkeys|]. apply Forall_map, Forall_forall. intros col _. cbn [snd]. eauto.
Qed.

Lemma scored_columns (f : string * list pyval -> result float)
  (cols : list (string * list pyval)) (scored : list (string * pyval)) :
  sequence (map (fun col => let* u := f col in Ok (fst col, PFloat u)) cols) = Ok scored ->
  scored
  = map (fun col => (fst col,
                     PFloat (match f col with Ok u => u | Raise _ => 0%float end)))
        cols.
Proof.
  revert scored; induction cols as [|col cols IH]; cbn [map sequence]; intros scored Hseq.
  - now injection Hseq as <-.
  - apply bind_ok in Hseq as (kv & Hkv & Hseq).
    apply bind_ok in Hseq as (rest & Hrest & Hseq).
    injection Hseq as <-. rewrite <- (IH rest Hrest).
    destruct (f col) as [u|e]; [|discriminate]. cbn [bind] in Hkv.
    now injection Hkv as <-.
Qed.

(** X21. Whenever the quality metrics are computed, on a frame whose column
    labels are distinct, they hold exactly one completeness score and one
    uniqueness score per column, keyed by the column labels in the order of
    the frame; every score is a float, and the frame was not empty. *)
Theorem quality_metrics_one_score_per_column `{Pandas} (df : DataFrame)
  (metrics : pydict) :
  _calculate_quality_metrics df = Ok metrics -> NoDup (df_names df) ->
  df_empty df = false /\
  exists completeness uniqueness,
    metrics = [ ("completeness", PDict completeness); ("uniqueness", PDict uniqueness) ] /\
    keys completeness = df_names df /\
    keys uniqueness = df_names df /\
    Forall (fun kv => exists f, snd kv = PFloat f) completeness /\
    Forall (fun kv => exists f, snd kv = PFloat f) uniqueness.
Proof.
  intros Hrun Hnd. unfold _calculate_quality_metrics in Hrun.
  destruct (df_empty df) eqn:Hne; [discriminate|]. split; [reflexivity|].
  rewrite (DataQualityProofs.df_empty_false df Hne) in Hrun.
  apply bind_ok in Hrun as (scored & Hscored & Hrun).
  injection Hrun as <-.
  apply scored_columns in Hscored. rewrite Hscored.
  destruct (scores_keys (fun col => DataQuality.completeness (snd col)) (df_columns df) Hnd)
    as [Hck Hcf].
  destruct (scores_keys
              (fun col => match DataQuality.uniqueness df (snd col) with
                          | Ok u => u
                          | Raise _ => 0%float
                          end) (df_columns df) Hnd)
    as [Huk Huf].
  eexists. eexists. split; [reflexivity|]. auto.
Qed.

Lemma quality_metrics_one_score_per_column_witness :
  df_empty scores = false /\
  exists completeness uniqueness,
    [ ("completeness", PDict [ ("score", PFloat 0.75) ]);
      ("uniqueness", PDict [ ("score", PFloat 0.5) ]) ]
    = [ ("completeness", PDict completeness); ("uniqueness", PDict uniqueness) ] /\
    keys completeness = df_names scores /\
    keys uniqueness = df_names scores /\
    Forall (fun kv => exists f, snd kv = PFloat f) completeness /\
    Forall (fun kv => exists f, snd kv = PFloat f) uniqueness.
Proof.
  apply (quality_metrics_one_score_per_column (H := sample_pandas) scores).
  - reflexivity.
  - repeat constructor. simpl. tauto.
Defined.

End DataQualityExtra.

(** ** Flattening: shape of the result, dropped lists, parent keys *)

Module FlattenerExtra.
Import Flattener.

Lemma string_app_assoc (a b c : string) : ((a ++ b) ++ c = a ++ b ++ c)%string.
Proof. induction a as [|x a IH]; cbn [append]; [reflexivity|now rewrite IH]. Qed.

Lemma string_app_inv_head (a x y : string) : (a ++ x = a ++ y)%string -> x = y.
Proof. induction a as [|c a IH]; cbn [append]; [auto|]. intros [= H]. auto. Qed.

Lemma string_app_nonempty (a b : string) : a <> ""%string -> (a ++ b)%string <> ""%string.
Proof. destruct a; [contradiction|discriminate]. Qed.

Lemma string_app_nonempty_r (a b : string) :
  b <> ""%string -> (a ++ b)%string <> ""%string.
Proof. destruct a; [auto|discriminate]. Qed.

Lemma new_key_under (nk sep k : string) :
  nk <> ""%string -> new_key nk sep k = (nk ++ sep ++ k)%string.
Proof. destruct nk; [contradiction|reflexivity]. Qed.

(** X22. Whatever the record, the flattened record is flat: its keys are
    distinct and none of its values is a mapping or a list, so it is a
    mapping the specification calls already flat. *)
Theorem flatten_result_is_flat (d : pydict) (parent_key sep : string) :
  NoDup (keys (_flatten_dict d parent_key sep)) /\
  Forall (fun kv => scalar (snd kv)) (_flatten_dict d parent_key sep) /\
  flat_mapping (_flatten_dict d parent_key sep).
Proof.
  split; [apply dict_of_items_NoDup|].
  split; [apply FlattenerProofs._flatten_dict_scalar|].
  unfold flat_mapping.
  eapply Forall_impl; [|apply FlattenerProofs._flatten_dict_scalar].
  now intros kv [Hd _].
Qed.

Lemma flatten_entry_plain_list (sep nk : string) (xs : list pyval) :
  Forall (fun x => isinstance_dict x = false) xs ->
  flatten_entry sep nk (PList xs) = [].
Proof.
  intros Hxs. cbn [flatten_entry]. generalize 0%nat.
  induction Hxs as [|item xs Hitem _ IH]; intros i; [reflexivity|].
  rewrite IH. destruct item; try reflexivity. discriminate.
Qed.

(** X23. A list none of whose elements is a mapping is dropped: the entry
    leaves no trace in the flattened record, which is the flattened record of
    the other entries. *)
Theorem flatten_drops_plain_lists (before after : pydict) (k : string)
  (xs : list pyval) (parent_key sep : string) :
  Forall (fun x => isinstance_dict x = false) xs ->
  _flatten_dict (before ++ (k, PList xs) :: after) parent_key sep
  = _flatten_dict (before ++ after) parent_key sep.
Proof.
  intros Hxs. unfold _flatten_dict. rewrite !flat_map_app. cbn [flat_map fst snd].
  now rewrite flatten_entry_plain_list.
Qed.

Lemma flatten_drops_plain_lists_witness :
  _flatten_dict ([ ("id", PInt 7); ("name", PStr "Ann") ]
                   ++ ("tags", PList [ PStr "a"; PStr "b" ]) :: []) "" "_"
  = _flatten_dict ([ ("id", PInt 7); ("name", PStr "Ann") ] ++ []) "" "_".
Proof.
  apply flatten_drops_plain_lists. repeat constructor.
Defined.

Lemma dict_set_under (parent_key sep : string) (d : pydict) (k : string) (v : pyval) :
  dict_set (map (under parent_key sep) d) (parent_key ++ sep ++ k) v
  = map (under parent_key sep) (dict_set d k v).
Proof.
  induction d as [|[k' v'] d IH]; [reflexivity|].
  cbn [map dict_set under fst snd].
  destruct (String.eqb_spec k' k) as [->|Hne].
  - now rewrite String.eqb_refl.
  - destruct (String.eqb_spec (parent_key ++ sep ++ k') (parent_key ++ sep ++ k))
      as [Heq|_].
    + apply string_app_inv_head, string_app_inv_head in Heq. contradiction.
    + cbn [map under fst snd]. now rewrite IH.
Qed.

Lemma dict_of_items_under (parent_key sep : string) (items : list (string * pyval)) :
  dict_of_items (map (under parent_key sep) items)
  = map (under parent_key sep) (dict_of_items items).
Proof.
  unfold dict_of_items. change (@nil (string * pyval)) with (map (under parent_key sep) []) at 1.
  generalize (@nil (string * pyval)).
  induction items as [|[k v] items IH]; intros acc; [reflexivity|].
  cbn [map fold_left under fst snd]. rewrite dict_set_under. apply IH.
Qed.

(** Below a key that is not empty, every key is built by appending: the
    items found under [parent_key sep nk] are the items found under [nk],
    filed under the parent key. *)
Lemma flatten_entry_under (parent_key sep : string) (v : pyval) :
  forall nk, nk <> ""%string ->
    flatten_entry sep (parent_key ++ sep ++ nk) v
    = map (under parent_key sep) (flatten_entry sep nk v).
Proof.
  induction v as [| | | | | | |xs IHxs|d IHd] using pyval_nested_ind; intros nk Hnk;
    try reflexivity.
  - (* list *)
    cbn [flatten_entry]. generalize 0%nat.
    induction IHxs as [|item xs Hitem _ IH]; intros i; [reflexivity|].
    rewrite map_app, <- IH. f_equal.
    destruct item; try reflexivity.
    rewrite <- (Hitem (nk ++ "_" ++ str_of_nat i)%string)
      by now apply string_app_nonempty.
    now rewrite !string_app_assoc.
  - (* dict *)
    cbn [flatten_entry]. rewrite <- dict_of_items_under. f_equal.
    induction IHd as [|[k v'] d Hv _ IH]; [reflexivity|].
    rewrite map_app, <- IH. f_equal. cbn [snd] in Hv.
    rewrite (new_key_under nk sep k Hnk).
    rewrite <- (Hv (nk ++ sep ++ k)%string) by now apply string_app_nonempty.
    rewrite new_key_under by now apply string_app_nonempty_r, string_app_nonempty_r.
    now rewrite !string_app_assoc.
Qed.

(** X24. Flattening under a parent key is flattening at top level and then
    filing every item under the parent key: for a parent key that is not
    empty and a record without an empty top-level key,
    [_flatten_dict(d, parent_key, sep)] has the items of [_flatten_dict(d)]
    with each key [k] replaced by [parent_key + sep + k], in the same order. *)
Theorem _flatten_dict_under_parent (d : pydict) (parent_key sep : string) :
  parent_key <> ""%string -> ~ In ""%string (keys d) ->
  _flatten_dict d parent_key sep
  = map (under parent_key sep) (_flatten_dict d "" sep).
Proof.
  intros Hparent Hkeys. unfold _flatten_dict.
  rewrite <- dict_of_items_under. f_equal.
  induction d as [|[k v] d IH]; [reflexivity|].
  cbn [flat_map fst snd]. rewrite map_app, <- IH by (intros Hin; apply Hkeys; now right).
  f_equal. rewrite (new_key_under parent_key sep k Hparent).
  cbn [new_key]. apply flatten_entry_under.
  intros ->. apply Hkeys. now left.
Qed.

Lemma _flatten_dict_under_parent_witness :
  _flatten_dict [ ("city", PStr "Recife"); ("geo", PDict [ ("lat", PInt 8) ]) ] "address" "_"
  = map (under "address" "_")
        (_flatten_dict [ ("city", PStr "Recife"); ("geo", PDict [ ("lat", PInt 8) ]) ] "" "_").
Proof.
  apply _flatten_dict_under_parent.
  - discriminate.
  - simpl. intuition discriminate.
Defined.

End FlattenerExtra.

(** ** Saving medical batches *)

Module MedicalSaveProofs.
Import MedicalDataTransformer.

Lemma prefix_refl (s : string) : String.prefix s s = true.
Proof.
  induction s as [|c s IH]; [reflexivity|]. cbn [String.prefix].
  destruct (ascii_dec c c); [exact IH|contradiction].
Qed.

Lemma drop_all (s : string) : drop (String.length s) s = ""%string.
Proof. induction s as [|c s IH]; [reflexivity|exact IH]. Qed.

(** A name without a slash cannot start before a slash and end after it. *)
Lemma prefix_before_slash (old dir rest : string) :
  string_forall not_slash old = true ->
  String.prefix old (dir ++ "/" ++ rest) = true -> String.prefix old dir = true.
Proof.
  revert dir; induction old as [|a old IH]; intros dir Hold Hpre.
  - destruct dir; reflexivity.
  - cbn [string_forall] in Hold. apply andb_prop in Hold as [Ha Hold].
    destruct dir as [|c dir]; cbn [append String.prefix] in *.
    + destruct (Ascii.eqb_spec a "/") as [->|Hne]; [discriminate|].
      destruct (ascii_dec a "/"); [contradiction|discriminate].
    + destruct (ascii_dec a c); [|discriminate]. now apply IH.
Qed.

(** Replacing a file name that occurs only at the end of a path replaces
    the file name. *)
Lemma replace_file_name (old new : string) :
  old <> ""%string -> string_forall not_slash old = true ->
  forall (dir : string) (fuel : nat),
    contains old dir = false ->
    (String.length (dir ++ "/" ++ old) <= fuel)%nat ->
    replace_from fuel old new (dir ++ "/" ++ old) = (dir ++ "/" ++ new)%string.
Proof.
  intros Hne Hold.
  assert (Hfile : forall fuel, (String.length old <= fuel)%nat ->
             replace_from fuel old new old = new).
  { intros fuel Hfuel. destruct old as [|a old]; [contradiction|].
    destruct fuel as [|fuel]; [cbn in Hfuel; lia|].
    cbn [replace_from]. rewrite prefix_refl, drop_all.
    destruct fuel; cbn [replace_from]; induction new as [|c new IH]; cbn [append];
      try reflexivity; now rewrite IH. }
  assert (Hstep : forall fuel c s,
             String.prefix old (String c s) = false ->
             replace_from (S fuel) old new (String c s)
             = String c (replace_from fuel old new s))
    by (intros fuel c s Hpre; cbn [replace_from]; now rewrite Hpre).
  induction dir as [|c dir IH]; intros fuel Hdir Hfuel.
  - destruct fuel as [|fuel]; [cbn in Hfuel; lia|].
    change ("" ++ "/" ++ old)%string with (String "/" old).
    change ("" ++ "/" ++ new)%string with (String "/" new).
    rewrite Hstep.
    + f_equal. apply Hfile. cbn in Hfuel. lia.
    + destruct (String.prefix old (String "/" old)) eqn:Hpre; [|reflexivity].
      apply (prefix_before_slash old "" old Hold) in Hpre.
      destruct old; [contradiction|discriminate].
  - cbn [contains] in Hdir. apply orb_false_elim in Hdir as [Hpre Hdir].
    destruct fuel as [|fuel]; [cbn in Hfuel; lia|].
    change (String c dir ++ "/" ++ old)%string with (String c (dir ++ "/" ++ old)).
    change (String c dir ++ "/" ++ new)%string with (String c (dir ++ "/" ++ new)).
    rewrite Hstep.
    + f_equal. apply IH; [exact Hdir|].
      change (S (String.length (dir ++ "/" ++ old)) <= S fuel)%nat in Hfuel. lia.
    + destruct (String.prefix old (String c (dir ++ "/" ++ old))) eqn:Hpre'; [|reflexivity].
      apply (prefix_before_slash old (String c dir) old Hold) in Hpre'. congruence.
Qed.

Lemma supported_file_name (format : string) :
  supported format = true ->
  ("data." ++ format)%string <> ""%string /\
  string_forall not_slash ("data." ++ format) = true.
Proof.
  unfold supported. intros H.
  apply orb_prop in H as [H|H]; [apply orb_prop in H as [H|H]|];
    apply String.eqb_eq in H; subst; split; (discriminate || reflexivity).
Qed.

(** X25. Saving a medical batch checks before it writes, and writes the
    data before the metadata. Without a ['type'] in the source descriptor it
    raises [KeyError], with a format that is not parquet, json or csv it
    raises UnsupportedFormat, in both cases with the storage as before. When
    it returns, the format is a supported one and the storage has gained
    exactly two files, in this order: the data file, at the returned path
    [storage_path/type/resource/date/data.format], holding the frame of the
    batch's records in the format asked for, then the metadata of the batch.
    What a write that itself fails leaves behind is not part of the
    statement. *)
Theorem medical_save_checks_then_writes `{PyRuntime} (date_str : string) (fs : storage)
  (batch : UniversalDataTransformer.SourcedBatch) (storage_path format : string) :
  (dict_get (UniversalDataTransformer.source batch) "type" = None ->
   save_to_data_lake date_str fs batch storage_path format = (Raise (KeyError "type"), fs)) /\
  (forall source_type,
      dict_get (UniversalDataTransformer.source batch) "type" = Some source_type ->
      supported format = false ->
      save_to_data_lake date_str fs batch storage_path format
      = (Raise (UnsupportedFormat format), fs)) /\
  (forall output_path fs',
      save_to_data_lake date_str fs batch storage_path format = (Ok output_path, fs') ->
      exists source_type content,
        dict_get (UniversalDataTransformer.source batch) "type" = Some source_type /\
        supported format = true /\
        ((format = "parquet"%string /\
          content = ParquetFile (pd_DataFrame (UniversalDataTransformer.data batch))) \/
         (format = "json"%string /\
          content = JsonLinesFile (pd_DataFrame (UniversalDataTransformer.data batch))) \/
         (format = "csv"%string /\
          content = CsvFile (pd_DataFrame (UniversalDataTransformer.data batch)))) /\
        output_path
        = (output_dir storage_path source_type (UniversalDataTransformer.source batch)
             date_str ++ "/" ++ "data." ++ format)%string /\
        fs' = fs ++ [ (output_path, content);
                      (replace ("data." ++ format) "metadata.json" output_path,
                       MetadataFile (UniversalDataTransformer.metadata batch)) ]).
Proof.
  unfold save_to_data_lake, supported, write_file.
  destruct (dict_get (UniversalDataTransformer.source batch) "type") as [source_type|];
    [|repeat split; try discriminate].
  split; [discriminate|].
  destruct (String.eqb_spec format "parquet") as [Hp|Hp];
    [|destruct (String.eqb_spec format "json") as [Hj|Hj];
      [|destruct (String.eqb_spec format "csv") as [Hc|Hc];
        [|split; [reflexivity|discriminate]]]];
    (split; [intros ? _ Hf; discriminate|]);
    intros output_path fs' [= <- <-]; eexists; eexists;
      (split; [reflexivity|]); (split; [reflexivity|]);
      (split; [eauto 6|]);
      rewrite <- app_assoc; split; reflexivity.
Qed.

(** X26. The metadata of a saved medical batch lands beside the data file
    provided the file name [data.format] occurs nowhere in the directory of
    the data file: the metadata path is obtained by replacing every occurrence
    of the file name in the whole path, so only then is it [metadata.json] in
    that directory. *)
Theorem medical_metadata_beside_data `{PyRuntime} (date_str : string) (fs fs' : storage)
  (batch : UniversalDataTransformer.SourcedBatch)
  (storage_path format output_path : string) (source_type : pyval) :
  save_to_data_lake date_str fs batch storage_path format = (Ok output_path, fs') ->
  dict_get (UniversalDataTransformer.source batch) "type" = Some source_type ->
  contains ("data." ++ format)
           (output_dir storage_path source_type (UniversalDataTransformer.source batch)
              date_str) = false ->
  exists content,
    let dir :=
      output_dir storage_path source_type (UniversalDataTransformer.source batch)
        date_str in
    output_path = (dir ++ "/" ++ "data." ++ format)%string /\
    fs' = fs ++ [ (output_path, content);
                  ((dir ++ "/" ++ "metadata.json")%string,
                   MetadataFile (UniversalDataTransformer.metadata batch)) ].
Proof.
  intros Hrun Htype Hdir.
  assert (Hsup : supported format = true).
  { revert Hrun. unfold save_to_data_lake, supported. rewrite Htype.
    destruct (String.eqb format "parquet"); [reflexivity|].
    destruct (String.eqb format "json"); [reflexivity|].
    destruct (String.eqb format "csv"); [reflexivity|discriminate]. }
  destruct (supported_file_name format Hsup) as [Hne Hslash].
  revert Hrun. unfold save_to_data_lake. rewrite Htype. unfold replace.
  rewrite (replace_file_name ("data." ++ format) "metadata.json" Hne Hslash _ _ Hdir)
    by apply le_n.
  unfold write_file.
  destruct (String.eqb format "parquet"); [|destruct (String.eqb format "json");
    [|destruct (String.eqb format "csv"); [|discriminate]]];
    intros [= <- <-]; eexists; cbn zeta; rewrite <- app_assoc; split; reflexivity.
Qed.

Lemma medical_metadata_beside_data_witness :
  exists content,
    let dir :=
      output_dir (H := sample_runtime) "/lake" (PStr "fhir")
        (UniversalDataTransformer.source fhir_batch) "20250426" in
    "/lake/fhir/Patient/20250426/data.csv"%string = (dir ++ "/" ++ "data." ++ "csv")%string /\
    [ ("/lake/fhir/Patient/20250426/data.csv"%string,
       CsvFile (mkDataFrame [ ("id", [ PStr "p1" ]) ] 1));
      ("/lake/fhir/Patient/20250426/metadata.json"%string,
       MetadataFile [ ("source_type", PStr "fhir"); ("record_count", PInt 1) ]) ]
    = [] ++ [ ("/lake/fhir/Patient/20250426/data.csv"%string, content);
              ((dir ++ "/" ++ "metadata.json")%string,
               MetadataFile (UniversalDataTransformer.metadata fhir_batch)) ].
Proof.
  apply (medical_metadata_beside_data (H := sample_runtime) "20250426" [] _ fhir_batch
           "/lake" "csv" "/lake/fhir/Patient/20250426/data.csv" (PStr "fhir"));
    reflexivity.
Defined.

(** Under a root whose name contains the file name, the metadata goes to
    another directory. *)
Lemma medical_metadata_elsewhere :
  save_to_data_lake (H := sample_runtime) "20250426" [] fhir_batch "/data.csv.d" "csv"
  = (Ok "/data.csv.d/fhir/Patient/20250426/data.csv",
     [ ("/data.csv.d/fhir/Patient/20250426/data.csv",
        CsvFile (mkDataFrame [ ("id", [ PStr "p1" ]) ] 1));
       ("/metadata.json.d/fhir/Patient/20250426/metadata.json",
        MetadataFile [ ("source_type", PStr "fhir"); ("record_count", PInt 1) ]) ]).
Proof. vm_compute. reflexivity. Qed.

End MedicalSaveProofs.

(** ** FHIR observations *)

Module ObservationProofs.
Import MedicalDataTransformer.

Lemma df_set_keeps (df : DataFrame) (target : string) (out : list pyval) :
  df_len (df_set df target out) = df_len df /\
  (forall c, c <> target -> df_get (df_set df target out) c = df_get df c) /\
  (forall c, df_has df c = true -> df_has (df_set df target out) c = true).
Proof.
  split; [reflexivity|]. split.
  - intros c Hc. unfold df_get, df_set. cbn [df_columns].
    apply column_get_set_other. congruence.
  - intros c Hc. destruct (String.eqb_spec c target) as [->|Hne].
    + apply df_has_get. exists out. unfold df_get, df_set. cbn [df_columns].
      apply column_get_set_new.
    + apply df_has_get. apply df_has_get in Hc as [old Hold]. exists old.
      unfold df_get, df_set. cbn [df_columns]. rewrite <- Hold.
      now apply column_get_set_other.
Qed.

Lemma assign_applied_ok (df df' : DataFrame) (target source : string)
  (f : pyval -> result pyval) :
  assign_applied df target source f = Ok df' ->
  df_len df' = df_len df /\
  (forall c, c <> target -> df_get df' c = df_get df c) /\
  (forall c, df_has df c = true -> df_has df' c = true).
Proof.
  unfold assign_applied. destruct (df_get df source) as [cells|]; [|discriminate].
  destruct (sequence (map f cells)) as [out|e]; [|discriminate].
  cbn [bind]. intros [= <-]. apply df_set_keeps.
Qed.

(** X27. Standardizing FHIR observations only writes the derived columns
    [code_system], [code_value], [value], [unit] and [timestamp]: when it
    returns, the frame has the rows it had, every column it had is still
    there, and every column that is not a derived one holds the cells it
    held. *)
Theorem observation_keeps_source_columns `{Pandas} (df df' : DataFrame) :
  _transform_observation_data df = Ok df' ->
  df_len df' = df_len df /\
  (forall c, df_has df c = true -> df_has df' c = true) /\
  (forall c, ~ In c derived -> df_get df' c = df_get df c).
Proof.
  assert (Hstep : forall a b target source f,
             assign_applied a target source f = Ok b -> In target derived ->
             df_len b = df_len a /\
             (forall c, df_has a c = true -> df_has b c = true) /\
             (forall c, ~ In c derived -> df_get b c = df_get a c)).
  { intros a b target source f Hab Hin.
    destruct (assign_applied_ok a b target source f Hab) as (Hl & Hg & Hh).
    repeat split; auto. intros c Hc. apply Hg. intros ->. contradiction. }
  assert (Htrans : forall a b c : DataFrame,
             (df_len b = df_len a /\
              (forall x, df_has a x = true -> df_has b x = true) /\
              (forall x, ~ In x derived -> df_get b x = df_get a x)) ->
             (df_len c = df_len b /\
              (forall x, df_has b x = true -> df_has c x = true) /\
              (forall x, ~ In x derived -> df_get c x = df_get b x)) ->
             df_len c = df_len a /\
             (forall x, df_has a x = true -> df_has c x = true) /\
             (forall x, ~ In x derived -> df_get c x = df_get a x)).
  { intros a b c (Hl1 & Hh1 & Hg1) (Hl2 & Hh2 & Hg2). repeat split.
    - congruence.
    - auto.
    - intros x Hx. rewrite Hg2, Hg1; auto. }
  unfold _transform_observation_data. intros Hrun.
  apply bind_ok in Hrun as (df1 & H1 & Hrun).
  apply bind_ok in Hrun as (df2 & H2 & Hrun).
  assert (K1 : df_len df1 = df_len df /\
               (forall x, df_has df x = true -> df_has df1 x = true) /\
               (forall x, ~ In x derived -> df_get df1 x = df_get df x)).
  { destruct (df_has df "code").
    - apply bind_ok in H1 as (a & Ha & H1).
      apply (Htrans df a df1).
      + apply (Hstep _ _ _ _ _ Ha). simpl. tauto.
      + apply (Hstep _ _ _ _ _ H1). simpl. tauto.
    - inversion H1; subst. auto. }
  assert (K2 : df_len df2 = df_len df1 /\
               (forall x, df_has df1 x = true -> df_has df2 x = true) /\
               (forall x, ~ In x derived -> df_get df2 x = df_get df1 x)).
  { destruct (df_has df1 "valueQuantity").
    - apply bind_ok in H2 as (a & Ha & H2).
      apply (Htrans df1 a df2).
      + apply (Hstep _ _ _ _ _ Ha). simpl. tauto.
      + apply (Hstep _ _ _ _ _ H2). simpl. tauto.
    - inversion H2; subst. auto. }
  apply (Htrans df df2 df'); [now apply (Htrans df df1 df2)|].
  destruct (df_has df2 "effectiveDateTime").
  - destruct (df_get df2 "effectiveDateTime") as [cells|]; [|discriminate].
    destruct (to_datetime_coerce cells) as [stamps|e]; [|discriminate].
    cbn [bind] in Hrun. inversion Hrun; subst.
    destruct (df_set_keeps df2 "timestamp" stamps) as (Hl & Hg & Hh).
    repeat split; auto. intros c Hc. apply Hg. intros ->. apply Hc. simpl. tauto.
  - inversion Hrun; subst. auto.
Qed.

Lemma observation_keeps_source_columns_witness :
  df_len observations_standardized = df_len observations /\
  (forall c, df_has observations c = true ->
             df_has observations_standardized c = true) /\
  (forall c, ~ In c derived ->
             df_get observations_standardized c = df_get observations c).
Proof.
  apply (observation_keeps_source_columns (H := sample_pandas) observations).
  reflexivity.
Defined.

Lemma well_coded_iff (x : pyval) :
  well_coded x = true <->
  (exists a, first_coding "system" x = Ok a) /\ (exists b, first_coding "code" x = Ok b).
Proof.
  destruct x as [|b0|z0|f0|s0|ns0| |xs0|d]; try (cbn; split; [eauto|reflexivity]).
  unfold well_coded, first_coding, dict_mem, getitem_key.
  destruct (dict_get d "coding") as [coding|]; [|split; [eauto|reflexivity]].
  cbn [bind].
  destruct coding as [|b1|z1|f1|s|ns1| |xs|c];
    try (split; [discriminate|intros [[a Ha] _]; discriminate]).
  - (* text: its first character has no fields *)
    destruct s as [|ch s']; cbn; split; try discriminate; intros [[a Ha] _]; discriminate.
  - destruct xs as [|first xs]; [split; [discriminate|intros [[a Ha] _]; discriminate]|].
    cbn [getitem_0 bind].
    destruct first as [|b2|z2|f2|s2|ns2| |xs2|c];
      try (split; [discriminate|intros [[a Ha] _]; discriminate]).
    destruct (dict_get c "system") as [sv|], (dict_get c "code") as [cv|]; cbn;
      split; eauto; try discriminate.
    + intros [_ [b Hb]]. discriminate.
    + intros [[a Ha] _]. discriminate.
    + intros [[a Ha] _]. discriminate.
Qed.

Lemma assign_applied_returns (df : DataFrame) (target source : string)
  (f : pyval -> result pyval) (cells : list pyval) :
  df_get df source = Some cells ->
  ((exists df', assign_applied df target source f = Ok df') <->
   Forall (fun x => exists y, f x = Ok y) cells).
Proof.
  intros Hget. unfold assign_applied. rewrite Hget.
  rewrite <- sequence_ok_iff. split.
  - intros [df' Hdf']. apply bind_ok in Hdf' as (out & Hout & _). eauto.
  - intros [out Hout]. rewrite Hout. cbn [bind]. eauto.
Qed.

(** X28. With a date parser that does not raise, standardizing FHIR
    observations returns exactly when every cell of the [code] column is one
    the lambdas can read: a value that is not a mapping, a mapping without
    ['coding'], or a mapping whose ['coding'] is a list starting with a
    mapping that has both ['system'] and ['code']. One unreadable cell (an
    empty coding list, say) fails the whole frame. *)
Theorem observation_returns_iff_well_coded `{Pandas} (df : DataFrame) :
  (forall cells, exists stamps, to_datetime_coerce cells = Ok stamps) ->
  (exists df', _transform_observation_data df = Ok df') <->
  (forall cells, df_get df "code" = Some cells -> forallb well_coded cells = true).
Proof.
  intros Hcoerce.
  assert (Hquantity : forall a field,
             df_has a "valueQuantity" = true ->
             forall target, exists b,
               assign_applied a target "valueQuantity" (quantity_field field) = Ok b).
  { intros a field Hhas target. apply df_has_get in Hhas as [cells Hcells].
    apply (assign_applied_returns a target "valueQuantity" _ cells Hcells).
    apply Forall_forall. intros x _. unfold quantity_field.
    destruct x as [|b0|z0|f0|s0|ns0| |xs0|d]; eauto. destruct (dict_get d field); eauto. }
  assert (Hrest : forall df1, exists df',
             (let* df2 :=
                if df_has df1 "valueQuantity" then
                  let* a := assign_applied df1 "value" "valueQuantity"
                              (quantity_field "value") in
                  assign_applied a "unit" "valueQuantity" (quantity_field "unit")
                else Ok df1 in
              if df_has df2 "effectiveDateTime" then
                match df_get df2 "effectiveDateTime" with
                | None => Raise (KeyError "effectiveDateTime")
                | Some cells =>
                    let* stamps := to_datetime_coerce cells in
                    Ok (df_set df2 "timestamp" stamps)
                end
              else Ok df2) = Ok df').
  { intros df1.
    assert (Hlast : forall df2, exists df',
               (if df_has df2 "effectiveDateTime" then
                  match df_get df2 "effectiveDateTime" with
                  | None => Raise (KeyError "effectiveDateTime")
                  | Some cells =>
                      let* stamps := to_datetime_coerce cells in
                      Ok (df_set df2 "timestamp" stamps)
                  end
                else Ok df2) = Ok df').
    { intros df2. destruct (df_has df2 "effectiveDateTime") eqn:Hhas; [|eauto].
      apply df_has_get in Hhas as [cells Hcells]. rewrite Hcells.
      destruct (Hcoerce cells) as [stamps Hstamps]. rewrite Hstamps. cbn [bind]. eauto. }
    destruct (df_has df1 "valueQuantity") eqn:Hhas; [|cbn [bind]; apply Hlast].
    destruct (Hquantity df1 "value" Hhas "value") as [a Ha]. rewrite Ha. cbn [bind].
    destruct (assign_applied_ok df1 a _ _ _ Ha) as (_ & _ & Hkeep).
    destruct (Hquantity a "unit" (Hkeep _ Hhas) "unit") as [b Hb]. rewrite Hb.
    cbn [bind]. apply Hlast. }
  unfold _transform_observation_data.
  destruct (df_has df "code") eqn:Hcode.
  - apply df_has_get in Hcode as [cells Hcells]. split.
    + intros [df' Hrun] cells' Hcells'. rewrite Hcells in Hcells'.
      injection Hcells' as <-.
      apply bind_ok in Hrun as (df1 & H1 & _).
      apply bind_ok in H1 as (a & Ha & H1).
      assert (Hsys : Forall (fun x => exists y, first_coding "system" x = Ok y) cells)
        by (apply (assign_applied_returns df "code_system" "code" _ cells Hcells); eauto).
      destruct (assign_applied_ok df a _ _ _ Ha) as (_ & Hget & _).
      assert (Hcells_a : df_get a "code" = Some cells)
        by (rewrite Hget; [exact Hcells|discriminate]).
      assert (Hval : Forall (fun x => exists y, first_coding "code" x = Ok y) cells)
        by (apply (assign_applied_returns a "code_value" "code" _ cells Hcells_a); eauto).
      apply forallb_forall. intros x Hx. apply well_coded_iff.
      rewrite Forall_forall in Hsys, Hval. auto.
    + intros Hall. specialize (Hall cells Hcells).
      rewrite forallb_forall in Hall.
      assert (Hsys : Forall (fun x => exists y, first_coding "system" x = Ok y) cells)
        by (apply Forall_forall; intros x Hx; now apply well_coded_iff, Hall).
      assert (Hval : Forall (fun x => exists y, first_coding "code" x = Ok y) cells)
        by (apply Forall_forall; intros x Hx; now apply well_coded_iff, Hall).
      apply (assign_applied_returns df "code_system" "code" _ cells Hcells) in Hsys
        as [a Ha].
      rewrite Ha. cbn [bind].
      destruct (assign_applied_ok df a _ _ _ Ha) as (_ & Hget & _).
      assert (Hcells_a : df_get a "code" = Some cells)
        by (rewrite Hget; [exact Hcells|discriminate]).
      apply (assign_applied_returns a "code_value" "code" _ cells Hcells_a) in Hval
        as [b Hb].
      rewrite Hb. cbn [bind]. apply Hrest.
  - cbn [bind]. split; [|intros _; apply Hrest].
    intros _ cells Hcells.
    assert (df_has df "code" = true) by (apply df_has_get; eauto). congruence.
Qed.

Lemma observation_returns_iff_well_coded_witness :
  (exists df', _transform_observation_data (H := sample_pandas) observations = Ok df') <->
  (forall cells, df_get observations "code" = Some cells ->
                 forallb well_coded cells = true).
Proof.
  apply (observation_returns_iff_well_coded (H := sample_pandas) observations).
  intros cells. cbn. eauto.
Defined.

(** On the frame with an empty coding list the first lambda raises. *)
Lemma observation_empty_coding :
  _transform_observation_data (H := sample_pandas) empty_coding
  = Raise (IndexError "list index out of range").
Proof. reflexivity. Qed.

End ObservationProofs.
